(** * The wallet manager of the service backend (walletManager.ts)

    A shallow embedding of the wallet instance lifecycle code: the
    module-level singleton ([masterWallet], [masterWalletStartedAt],
    [masterWalletLastSaveAt]), the restart policy of [getMasterWallet],
    the sync wait, the dual-location save and the warm-up of the remote
    (App Engine) wallet.

    Every [async] function of the source is a computation in the monad
    [Async]: it takes the state of the world, and gives back either the
    value the promise resolves to or the reason it rejects with, and
    the new state.  The world holds the module variables, the heap of
    [WalletBackend] objects (handles are references into it), the
    Firestore document, the storage buckets, the remote wallet service
    and a trace of the effects performed, oldest first. *)

From stdpp Require Import base strings gmap list pretty.
From Stdlib Require Import ZArith Lia Ascii.

Local Open Scope string_scope.
Local Open Scope list_scope.
Local Open Scope Z_scope.

(** ** Data model (types.ts, shared/types.ts, serviceError.ts)

    Numbers are timestamps, ports and block heights: integers, [Z]. *)

(** Modelled from the spec: serviceError.ts is not among the sources at
    hand; the code builds errors as [new ServiceError(code, message?)]
    and the spec lists the codes. *)
Record ServiceError := mkServiceError {
  errorCode : string;
  message : option string
}.

(** Modelled from the spec: types.ts is not among the sources at hand;
    the spec gives [ServiceConfig], [WalletInfo] and [WalletSyncInfo]
    with these fields, and the code reads and writes no others. *)
Record ServiceConfig := mkServiceConfig {
  daemonHost : string;
  daemonPort : Z;
  waitForSyncTimeout : Z;
  serviceHalted : bool
}.

Record WalletInfo := mkWalletInfo {
  location : string;
  backupsDirectory : string;
  lastSaveAt : Z;
  lastBackupAt : Z
}.

(** The argument of [update]: the fields to overwrite. *)
Record WalletInfoUpdate := mkWalletInfoUpdate {
  upd_lastSaveAt : option Z;
  upd_lastBackupAt : option Z
}.

Record WalletSyncInfo := mkWalletSyncInfo {
  walletHeight : Z;
  networkHeight : Z;
  heightDelta : Z
}.

(** Modelled from the spec: the declaration of [WalletStatus] lives in
    shared/types.ts, which is not part of the sources at hand; the spec
    gives it as [{started, daemonHost, uptime}].  The code reads
    [status.uptime] through a truthiness test, so the fields other than
    [started] may be undefined. *)
Record WalletStatus := mkWalletStatus {
  started : bool;
  status_daemonHost : option string;
  uptime : option Z
}.

Record StartWalletRequest := mkStartWalletRequest {
  req_daemonHost : string;
  req_daemonPort : Z
}.

(** ** The wallet engine (turtlecoin-wallet-backend), as far as the
       manager uses it *)

Record Daemon := mkDaemon {
  d_host : string;
  d_port : Z;
  d_userAgent : option string
}.

(** What [encryptWalletToString] serialises and
    [openWalletFromEncryptedString] restores. *)
Record WalletData := mkWalletData {
  wd_mnemonicSeed : option string;
  wd_height : Z
}.

(** A [WalletBackend] object.  Handles are indices into the heap of the
    world, so that two holders of the same handle see the same object. *)
Record WalletBackend := mkWalletBackend {
  wb_daemon : Daemon;
  wb_mnemonicSeed : option string;
  wb_walletHeight : Z;
  wb_networkHeight : Z;
  wb_running : bool;
  wb_syncListeners : nat;
  wb_autoOptimize : bool
}.

Abbreviation Handle := nat.

Record ServiceWallet := mkServiceWallet {
  wallet : Handle;
  serviceConfig : ServiceConfig
}.

(** ** The rest of the world *)

Record Bucket := mkBucket {
  files : gmap string string;
  readable : bool;       (* false: every download throws *)
  writable : bool        (* false: every save throws *)
}.

(** Modelled from the spec: the remote delegate wallet is a separate
    service; the spec gives its API as [GET /status] and
    [POST /start {daemonHost, daemonPort}].  The service is bound to a
    peer (host and port) and reports the [WalletStatus] above. *)
Record RemoteWallet := mkRemoteWallet {
  rw_reachable : bool;     (* false: every request throws *)
  rw_startable : bool;     (* what a start call makes of [started] *)
  rw_started : bool;
  rw_daemonHost : option string;
  rw_daemonPort : option Z;
  rw_uptime : option Z
}.

(** What the wallet engine does while a caller is suspended in the
    sync wait: whether it emits 'sync' before the timer elapses, and the
    heights it has reached when the wait ends. *)
Record SyncRun := mkSyncRun {
  sr_syncEmitted : bool;
  sr_walletHeight : Z;
  sr_networkHeight : Z
}.

(** The callback of [sleep(timeout).then(...)] that has not run yet. *)
Record Timer := mkTimer {
  tm_wallet : Handle;
  tm_timeout : Z;
  tm_start : WalletSyncInfo
}.

Inductive Store := Firebase | AppEngine.

Inductive Event :=
| DocGet
| DocCreate (d : WalletInfo)
| DocUpdate (u : WalletInfoUpdate)
| Download (b : Store) (path : string)
| Save (b : Store) (path : string) (content : string)
| WriteFileSync (path : string)
| UnlinkSync (path : string)
| CreateWallet (h : Handle)
| OpenWallet (h : Handle)
| Start (h : Handle)
| Stop (h : Handle)
| Rewind (h : Handle) (height : Z)
| On (h : Handle) (event : string)
| RemoveAllListeners (h : Handle)
| AssignMasterWallet (v : option Handle)
| Sleep (ms : Z)
| DropCurrentNode (host : string)
| HttpGet (endpoint token : string)
| HttpPost (endpoint token : string) (body : StartWalletRequest).

Record World := mkWorld {
  (* module-level variables of walletManager.ts *)
  masterWallet : option Handle;
  masterWalletStartedAt : option Z;
  masterWalletLastSaveAt : option Z;
  (* objects *)
  heap : list WalletBackend;
  (* admin.firestore().doc('wallets/master') *)
  walletDoc : option WalletInfo;
  (* admin.storage().bucket(), the App Engine project's bucket, os.tmpdir() *)
  bucket : Bucket;
  gcpBucket : Bucket;
  tmpdir : gmap string string;
  (* the remote wallet service *)
  remote : RemoteWallet;
  (* what ServiceModule.getServiceConfig() answers *)
  configResult : option ServiceConfig * option ServiceError;
  (* number of Date.now() readings and of sync waits so far *)
  ticks : nat;
  waits : nat;
  timers : list Timer;
  trace : list Event
}.

(** Constants.ts, functions.config() and the behaviour of what lies
    outside the process.  None of it is changed by the code. *)
Record Env := mkEnv {
  defaultWalletLocation : string;
  defaultWalletBackupsDirectory : string;
  gcpServiceAccountFilename : string;
  gcpWalletFilename : string;
  walletBackendUserAgentId : string;
  serviceadmin_password : string;
  cloudwallet_api_base : string;
  (* the n-th reading of Date.now() *)
  clock : nat -> Z;
  (* the n-th sync wait *)
  syncRun : nat -> SyncRun;
  (* wallet serialisation *)
  encrypt : WalletData -> string -> string;
  decrypt : string -> string -> option WalletData;
  (* the mnemonic seed of a wallet created as object number n *)
  freshSeed : nat -> option string;
  (* network height reported by a daemon *)
  daemonHeight : string -> Z -> Z;
  (* start() of object number n throws this *)
  startFault : nat -> option string
}.

(** ** The monad of async functions *)

Inductive Outcome (A : Type) :=
| Resolved (a : A)
| Rejected (reason : string).
Arguments Resolved {A} a.
Arguments Rejected {A} reason.

Definition Async (A : Type) : Type := World -> Outcome A * World.

Definition ret {A} (a : A) : Async A := fun w => (Resolved a, w).

Definition throw {A} (reason : string) : Async A := fun w => (Rejected reason, w).

Definition bind {A B} (m : Async A) (k : A -> Async B) : Async B :=
  fun w =>
    match m w with
    | (Resolved a, w') => k a w'
    | (Rejected e, w') => (Rejected e, w')
    end.

(** [try { m } catch (error) { h error }] *)
Definition try_catch {A} (m : Async A) (h : string -> Async A) : Async A :=
  fun w =>
    match m w with
    | (Resolved a, w') => (Resolved a, w')
    | (Rejected e, w') => h e w'
    end.

(** [Promise.all([m1, m2])] on two calls made in this order: both run,
    whatever the other does; the join rejects when one of them does. *)
Definition Promise_all {A B} (m1 : Async A) (m2 : Async B) : Async (A * B) :=
  fun w =>
    let (r1, w1) := m1 w in
    let (r2, w2) := m2 w1 in
    match r1, r2 with
    | Resolved a, Resolved b => (Resolved (a, b), w2)
    | Rejected e, _ => (Rejected e, w2)
    | _, Rejected e => (Rejected e, w2)
    end.

Notation "'let*' x ':=' m 'in' k" := (bind m (fun x => k))
  (at level 10, x pattern, m at level 100, k at level 200).
Notation "m ';;' k" := (bind m (fun _ => k))
  (at level 100, k at level 200, right associativity).

Definition get {A} (f : World -> A) : Async A := fun w => (Resolved (f w), w).

Definition modify (f : World -> World) : Async unit := fun w => (Resolved tt, f w).

(** JavaScript truthiness of a number and of a string. *)
Definition truthyZ (z : Z) : bool := negb (z =? 0).
Definition truthyString (s : string) : bool := negb (String.eqb s "").

(** ** Field updates *)

Definition set_masterWallet (v : option Handle) (w : World) : World :=
  mkWorld v (masterWalletStartedAt w) (masterWalletLastSaveAt w) (heap w)
    (walletDoc w) (bucket w) (gcpBucket w) (tmpdir w) (remote w)
    (configResult w) (ticks w) (waits w) (timers w) (trace w).

Definition set_masterWalletStartedAt (v : option Z) (w : World) : World :=
  mkWorld (masterWallet w) v (masterWalletLastSaveAt w) (heap w)
    (walletDoc w) (bucket w) (gcpBucket w) (tmpdir w) (remote w)
    (configResult w) (ticks w) (waits w) (timers w) (trace w).

Definition set_masterWalletLastSaveAt (v : option Z) (w : World) : World :=
  mkWorld (masterWallet w) (masterWalletStartedAt w) v (heap w)
    (walletDoc w) (bucket w) (gcpBucket w) (tmpdir w) (remote w)
    (configResult w) (ticks w) (waits w) (timers w) (trace w).

Definition set_heap (v : list WalletBackend) (w : World) : World :=
  mkWorld (masterWallet w) (masterWalletStartedAt w) (masterWalletLastSaveAt w) v
    (walletDoc w) (bucket w) (gcpBucket w) (tmpdir w) (remote w)
    (configResult w) (ticks w) (waits w) (timers w) (trace w).

Definition set_walletDoc (v : option WalletInfo) (w : World) : World :=
  mkWorld (masterWallet w) (masterWalletStartedAt w) (masterWalletLastSaveAt w) (heap w)
    v (bucket w) (gcpBucket w) (tmpdir w) (remote w)
    (configResult w) (ticks w) (waits w) (timers w) (trace w).

Definition set_bucket (v : Bucket) (w : World) : World :=
  mkWorld (masterWallet w) (masterWalletStartedAt w) (masterWalletLastSaveAt w) (heap w)
    (walletDoc w) v (gcpBucket w) (tmpdir w) (remote w)
    (configResult w) (ticks w) (waits w) (timers w) (trace w).

Definition set_gcpBucket (v : Bucket) (w : World) : World :=
  mkWorld (masterWallet w) (masterWalletStartedAt w) (masterWalletLastSaveAt w) (heap w)
    (walletDoc w) (bucket w) v (tmpdir w) (remote w)
    (configResult w) (ticks w) (waits w) (timers w) (trace w).

Definition set_tmpdir (v : gmap string string) (w : World) : World :=
  mkWorld (masterWallet w) (masterWalletStartedAt w) (masterWalletLastSaveAt w) (heap w)
    (walletDoc w) (bucket w) (gcpBucket w) v (remote w)
    (configResult w) (ticks w) (waits w) (timers w) (trace w).

Definition set_remote (v : RemoteWallet) (w : World) : World :=
  mkWorld (masterWallet w) (masterWalletStartedAt w) (masterWalletLastSaveAt w) (heap w)
    (walletDoc w) (bucket w) (gcpBucket w) (tmpdir w) v
    (configResult w) (ticks w) (waits w) (timers w) (trace w).

Definition set_ticks (v : nat) (w : World) : World :=
  mkWorld (masterWallet w) (masterWalletStartedAt w) (masterWalletLastSaveAt w) (heap w)
    (walletDoc w) (bucket w) (gcpBucket w) (tmpdir w) (remote w)
    (configResult w) v (waits w) (timers w) (trace w).

Definition set_waits (v : nat) (w : World) : World :=
  mkWorld (masterWallet w) (masterWalletStartedAt w) (masterWalletLastSaveAt w) (heap w)
    (walletDoc w) (bucket w) (gcpBucket w) (tmpdir w) (remote w)
    (configResult w) (ticks w) v (timers w) (trace w).

Definition set_timers (v : list Timer) (w : World) : World :=
  mkWorld (masterWallet w) (masterWalletStartedAt w) (masterWalletLastSaveAt w) (heap w)
    (walletDoc w) (bucket w) (gcpBucket w) (tmpdir w) (remote w)
    (configResult w) (ticks w) (waits w) v (trace w).

Definition set_trace (v : list Event) (w : World) : World :=
  mkWorld (masterWallet w) (masterWalletStartedAt w) (masterWalletLastSaveAt w) (heap w)
    (walletDoc w) (bucket w) (gcpBucket w) (tmpdir w) (remote w)
    (configResult w) (ticks w) (waits w) (timers w) v.

(** Record an effect at the end of the trace. *)
Definition emit (e : Event) : Async unit :=
  modify (fun w => set_trace (trace w ++ [e]) w).

Section WalletManager.

Variable env : Env.

(** ** Primitives *)

(** [Date.now()] *)
Definition Date_now : Async Z :=
  fun w => (Resolved (clock env (ticks w)), set_ticks (S (ticks w)) w).

(** *** Objects of the wallet engine *)

Definition deref (h : Handle) : Async WalletBackend :=
  fun w =>
    match heap w !! h with
    | Some o => (Resolved o, w)
    | None => (Rejected "TypeError: not a wallet", w)
    end.

Definition update (h : Handle) (f : WalletBackend -> WalletBackend) : Async unit :=
  let* o := deref h in
  modify (fun w => set_heap (<[h := f o]> (heap w)) w).

Definition alloc (o : nat -> WalletBackend) : Async Handle :=
  fun w => (Resolved (length (heap w)), set_heap (heap w ++ [o (length (heap w))]) w).

Definition with_running (b : bool) (o : WalletBackend) : WalletBackend :=
  mkWalletBackend (wb_daemon o) (wb_mnemonicSeed o) (wb_walletHeight o)
    (wb_networkHeight o) b (wb_syncListeners o) (wb_autoOptimize o).

Definition with_syncListeners (n : nat) (o : WalletBackend) : WalletBackend :=
  mkWalletBackend (wb_daemon o) (wb_mnemonicSeed o) (wb_walletHeight o)
    (wb_networkHeight o) (wb_running o) n (wb_autoOptimize o).

Definition with_autoOptimize (b : bool) (o : WalletBackend) : WalletBackend :=
  mkWalletBackend (wb_daemon o) (wb_mnemonicSeed o) (wb_walletHeight o)
    (wb_networkHeight o) (wb_running o) (wb_syncListeners o) b.

Definition with_heights (wh nh : Z) (o : WalletBackend) : WalletBackend :=
  mkWalletBackend (wb_daemon o) (wb_mnemonicSeed o) wh nh
    (wb_running o) (wb_syncListeners o) (wb_autoOptimize o).

(** [WalletBackend.createWallet(daemon)] *)
Definition WalletBackend_createWallet (daemon : Daemon) : Async Handle :=
  let* h := alloc (fun n =>
              mkWalletBackend daemon (freshSeed env n) 0
                (daemonHeight env (d_host daemon) (d_port daemon)) false 0%nat true) in
  emit (CreateWallet h);;
  ret h.

(** [WalletBackend.openWalletFromEncryptedString(daemon, s, password)]:
    the pair of the wallet and the error, one of them undefined. *)
Definition WalletBackend_openWalletFromEncryptedString
    (daemon : Daemon) (encryptedString password : string)
  : Async (option Handle * option string) :=
  match decrypt env encryptedString password with
  | None => ret (None, Some "WalletError")
  | Some d =>
      let* h := alloc (fun _ =>
                  mkWalletBackend daemon (wd_mnemonicSeed d) (wd_height d)
                    (daemonHeight env (d_host daemon) (d_port daemon)) false 0%nat true) in
      emit (OpenWallet h);;
      ret (Some h, None)
  end.

Definition wallet_getDaemonConnectionInfo (h : Handle) : Async Daemon :=
  let* o := deref h in ret (wb_daemon o).

(** [wallet.getSyncStatus()], without the local daemon height that the
    manager never reads. *)
Definition wallet_getSyncStatus (h : Handle) : Async (Z * Z) :=
  let* o := deref h in ret (wb_walletHeight o, wb_networkHeight o).

Definition wallet_getMnemonicSeed (h : Handle) : Async (option string * option string) :=
  let* o := deref h in
  match wb_mnemonicSeed o with
  | Some s => ret (Some s, None)
  | None => ret (None, Some "WalletError")
  end.

Definition wallet_encryptWalletToString (h : Handle) (password : string) : Async string :=
  let* o := deref h in
  ret (encrypt env (mkWalletData (wb_mnemonicSeed o) (wb_walletHeight o)) password).

Definition wallet_enableAutoOptimization (h : Handle) (b : bool) : Async unit :=
  update h (with_autoOptimize b).

Definition wallet_start (h : Handle) : Async unit :=
  emit (Start h);;
  match startFault env h with
  | Some e => throw e
  | None => update h (with_running true)
  end.

Definition wallet_stop (h : Handle) : Async unit :=
  emit (Stop h);;
  update h (with_running false).

Definition wallet_removeAllListeners (h : Handle) : Async unit :=
  emit (RemoveAllListeners h);;
  update h (with_syncListeners 0).

Definition wallet_on (h : Handle) (event : string) : Async unit :=
  emit (On h event);;
  update h (fun o => with_syncListeners (S (wb_syncListeners o)) o).

Definition wallet_rewind (h : Handle) (scanHeight : Z) : Async unit :=
  emit (Rewind h scanHeight);;
  update h (fun o => with_heights scanHeight (wb_networkHeight o) o).

(** *** Firestore: the document 'wallets/master' *)

Definition doc_get : Async (option WalletInfo) :=
  emit DocGet;;
  get walletDoc.

(** [create] fails when the document exists. *)
Definition doc_create (d : WalletInfo) : Async unit :=
  emit (DocCreate d);;
  fun w =>
    match walletDoc w with
    | Some _ => (Rejected "ALREADY_EXISTS", w)
    | None => (Resolved tt, set_walletDoc (Some d) w)
    end.

Definition apply_update (u : WalletInfoUpdate) (d : WalletInfo) : WalletInfo :=
  mkWalletInfo (location d) (backupsDirectory d)
    (default (lastSaveAt d) (upd_lastSaveAt u))
    (default (lastBackupAt d) (upd_lastBackupAt u)).

(** [update] fails when the document does not exist. *)
Definition doc_update (u : WalletInfoUpdate) : Async unit :=
  emit (DocUpdate u);;
  fun w =>
    match walletDoc w with
    | Some d => (Resolved tt, set_walletDoc (Some (apply_update u d)) w)
    | None => (Rejected "NOT_FOUND", w)
    end.

(** *** Storage *)

Definition bucket_of (b : Store) (w : World) : Bucket :=
  match b with Firebase => bucket w | AppEngine => gcpBucket w end.

Definition set_bucket_of (b : Store) (v : Bucket) (w : World) : World :=
  match b with Firebase => set_bucket v w | AppEngine => set_gcpBucket v w end.

(** [bucket.file(path).download()] *)
Definition file_download (b : Store) (path : string) : Async string :=
  emit (Download b path);;
  fun w =>
    if readable (bucket_of b w) then
      match files (bucket_of b w) !! path with
      | Some s => (Resolved s, w)
      | None => (Rejected "No such object", w)
      end
    else (Rejected "storage unavailable", w).

(** [bucket.file(path).save(content)] *)
Definition file_save (b : Store) (path content : string) : Async unit :=
  emit (Save b path content);;
  fun w =>
    if writable (bucket_of b w) then
      (Resolved tt,
       set_bucket_of b (mkBucket (<[path := content]> (files (bucket_of b w)))
                          (readable (bucket_of b w)) true) w)
    else (Rejected "storage unavailable", w).

Definition fs_writeFileSync (path content : string) : Async unit :=
  emit (WriteFileSync path);;
  modify (fun w => set_tmpdir (<[path := content]> (tmpdir w)) w).

Definition fs_unlinkSync (path : string) : Async unit :=
  emit (UnlinkSync path);;
  modify (fun w => set_tmpdir (delete path (tmpdir w)) w).

(** [sleep(ms)]: the effect of starting the timer. *)
Definition sleep (ms : Z) : Async unit := emit (Sleep ms).

(** [masterWallet = v] *)
Definition assign_masterWallet (v : option Handle) : Async unit :=
  emit (AssignMasterWallet v);;
  modify (set_masterWallet v).

(** ** walletManager.ts *)

Definition getMasterWalletInfo : Async (option WalletInfo) := doc_get.

Definition getMasterWalletString : Async (option string) :=
  let* masterWalletInfo := getMasterWalletInfo in
  match masterWalletInfo with
  | None => ret None
  | Some info =>
      try_catch
        (let* buffer := file_download Firebase (location info) in
         ret (Some buffer))
        (fun _ => ret None)
  end.

Definition startWalletFromString (encryptedString daemonHost : string) (daemonPort : Z)
  : Async (option Handle * option ServiceError) :=
  let daemon := mkDaemon daemonHost daemonPort (Some (walletBackendUserAgentId env)) in
  let* (wallet, error) :=
    WalletBackend_openWalletFromEncryptedString daemon encryptedString
      (serviceadmin_password env) in
  match error, wallet with
  | None, Some wallet =>
      wallet_enableAutoOptimization wallet false;;
      wallet_start wallet;;
      let* now := Date_now in
      modify (set_masterWalletStartedAt (Some now));;
      ret (Some wallet, None)
  | _, _ =>
      ret (None, Some (mkServiceError "service/master-wallet-file"
                         (Some "Failed to decrypt wallet string")))
  end.

Definition rewindWallet (wallet : Handle) (distance : Z) : Async unit :=
  let* (wHeight, _) := wallet_getSyncStatus wallet in
  let rewindHeight := wHeight - distance in
  wallet_rewind wallet rewindHeight.

(** The test [masterWalletStartedAt && Date.now() >= masterWalletStartedAt + 1000*60*10]:
    [Date.now()] is read only when the start time is truthy. *)
Definition lifetimeExceeded : Async bool :=
  let* startedAt := get masterWalletStartedAt in
  match startedAt with
  | Some t =>
      if truthyZ t then
        let* now := Date_now in
        ret (t + 1000 * 60 * 10 <=? now)
      else ret false
  | None => ret false
  end.

(** [a !== b] on [number | undefined] *)
Definition strict_ne (a b : option Z) : bool := negb (bool_decide (a = b)).

Definition getMasterWallet (serviceConfig : ServiceConfig)
    (forceRestart : bool) (rewindDistanceOnStart : Z)
  : Async (option Handle * option ServiceError) :=
  let* walletInfo := getMasterWalletInfo in
  match walletInfo with
  | None => ret (None, Some (mkServiceError "service/master-wallet-info" None))
  | Some walletInfo =>
      let* current := get masterWallet in
      match current with
      | Some current =>
          let* daemonInfo := wallet_getDaemonConnectionInfo current in
          let restartNeeded :=
            negb (String.eqb (d_host daemonInfo) (daemonHost serviceConfig))
            || negb (d_port daemonInfo =? daemonPort serviceConfig) in
          let* expired := lifetimeExceeded in
          let restartNeeded := restartNeeded || expired in
          let* baseline := get masterWalletLastSaveAt in
          let restartNeeded :=
            restartNeeded || strict_ne baseline (Some (lastSaveAt walletInfo)) in
          if restartNeeded || forceRestart then
            (* load and swap to a new instance of the master wallet *)
            let* encryptedString := getMasterWalletString in
            match encryptedString with
            | None => ret (None, Some (mkServiceError "service/master-wallet-file" None))
            | Some encryptedString =>
                if negb (truthyString encryptedString) then
                  ret (None, Some (mkServiceError "service/master-wallet-file" None))
                else
                  let* (newWallet, error) :=
                    startWalletFromString encryptedString
                      (daemonHost serviceConfig) (daemonPort serviceConfig) in
                  match newWallet with
                  | None => ret (None, error)
                  | Some newWallet =>
                      (if 0 <? rewindDistanceOnStart
                       then rewindWallet newWallet rewindDistanceOnStart
                       else ret tt);;
                      let oldWalletInstance := current in
                      assign_masterWallet (Some newWallet);;
                      modify (set_masterWalletLastSaveAt (Some (lastSaveAt walletInfo)));;
                      wallet_stop oldWalletInstance;;
                      wallet_removeAllListeners oldWalletInstance;;
                      let* current := get masterWallet in
                      ret (current, None)
                  end
            end
          else
            ret (Some current, None)
      | None =>
          let* encryptedString := getMasterWalletString in
          match encryptedString with
          | None => ret (None, Some (mkServiceError "service/master-wallet-file" None))
          | Some encryptedString =>
              if negb (truthyString encryptedString) then
                ret (None, Some (mkServiceError "service/master-wallet-file" None))
              else
                let* (wallet, error) :=
                  startWalletFromString encryptedString
                    (daemonHost serviceConfig) (daemonPort serviceConfig) in
                match wallet with
                | Some wallet =>
                    (if 0 <? rewindDistanceOnStart
                     then rewindWallet wallet rewindDistanceOnStart
                     else ret tt);;
                    assign_masterWallet (Some wallet);;
                    modify (set_masterWalletLastSaveAt (Some (lastSaveAt walletInfo)));;
                    ret (Some wallet, error)
                | None => ret (None, error)
                end
          end
      end
  end.

(** *** Sync wait *)

Definition getWalletSyncInfo (wallet : Handle) : Async WalletSyncInfo :=
  let* (walletHeight, networkHeight) := wallet_getSyncStatus wallet in
  let delta := networkHeight - walletHeight in
  ret (mkWalletSyncInfo walletHeight networkHeight delta).

(** Modelled from the spec: [ServiceModule.dropCurrentNode] is not part
    of the sources at hand; the spec has it "signal the surrounding
    system to drop/deprioritize the current network peer". *)
Definition ServiceModule_dropCurrentNode (currentNode : string) : Async unit :=
  emit (DropCurrentNode currentNode).

(** Modelled from the spec: [ServiceModule.getServiceConfig] is not part
    of the sources at hand; the configuration is "externally owned;
    read-only to this core". *)
Definition ServiceModule_getServiceConfig
  : Async (option ServiceConfig * option ServiceError) :=
  get configResult.

(** The callback of [sleep(timeout).then(...)], the promise [p2]. *)
Definition afterWait (wallet : Handle) (syncInfoStart : WalletSyncInfo) : Async bool :=
  let* syncInfoAfterWait := getWalletSyncInfo wallet in
  let synced := heightDelta syncInfoAfterWait <=? 2 in
  let blocksProcessed := walletHeight syncInfoAfterWait - walletHeight syncInfoStart in
  (if negb synced then
     if blocksProcessed <? 2 then
       let* daemonInfo := wallet_getDaemonConnectionInfo wallet in
       let currentNode := d_host daemonInfo in
       ServiceModule_dropCurrentNode currentNode
     else ret tt
   else ret tt);;
  ret synced.

(** The caller is suspended and the wallet engine runs: the next entry
    of [syncRun] says what it does meanwhile. *)
Definition suspend (wallet : Handle) : Async SyncRun :=
  let* n := get waits in
  modify (set_waits (S n));;
  let run := syncRun env n in
  update wallet (with_heights (sr_walletHeight run) (sr_networkHeight run));;
  ret run.

(** [Promise.race([p1, p2])]: [p1] resolves when the listener on 'sync'
    is called, [p2] when the timer has elapsed and its callback has run.
    When [p1] wins, the callback of [p2] stays among the timers. *)
Definition waitForWalletSync (wallet : Handle) (timeout : Z) : Async bool :=
  let* syncInfoStart := getWalletSyncInfo wallet in
  if heightDelta syncInfoStart <=? 2 then ret true
  else
    wallet_on wallet "sync";;
    sleep timeout;;
    let* run := suspend wallet in
    if sr_syncEmitted run then
      modify (fun w => set_timers (timers w ++ [mkTimer wallet timeout syncInfoStart]) w);;
      ret true
    else afterWait wallet syncInfoStart.

(** A timer left behind by a wait that 'sync' won elapses: its callback
    runs, and nobody reads the value. *)
Definition timerElapses : Async unit :=
  let* ts := get timers in
  match ts with
  | [] => ret tt
  | t :: rest =>
      modify (set_timers rest);;
      afterWait (tm_wallet t) (tm_start t);;
      ret tt
  end.

Definition getServiceWallet (waitForSync : bool)
  : Async (option ServiceWallet * option ServiceError) :=
  let* (serviceConfig, configError) := ServiceModule_getServiceConfig in
  match serviceConfig with
  | None => ret (None, configError)
  | Some serviceConfig =>
      if serviceHalted serviceConfig then
        ret (None, Some (mkServiceError "service/service-halted" None))
      else
        let* (wallet, openError) := getMasterWallet serviceConfig false 40 in
        match wallet with
        | None => ret (None, openError)
        | Some wallet =>
            let serviceWallet := mkServiceWallet wallet serviceConfig in
            if negb waitForSync then ret (Some serviceWallet, None)
            else
              let* syncStart := Date_now in
              let* synced := waitForWalletSync wallet (waitForSyncTimeout serviceConfig) in
              let* syncEnd := Date_now in
              if negb synced then
                (* stoping current wallet instance *)
                let* current := get masterWallet in
                match current with
                | Some current =>
                    wallet_stop current;;
                    wallet_removeAllListeners current;;
                    assign_masterWallet None
                | None => ret tt
                end;;
                ret (None, Some (mkServiceError "service/master-wallet-sync-failed" None))
              else ret (Some serviceWallet, None)
        end
  end.

(** *** Saving *)

Definition saveWalletFirebase (filepath encryptedWallet : string) : Async bool :=
  try_catch
    (file_save Firebase filepath encryptedWallet;;
     ret true)
    (fun _ => ret false).

Definition saveWalletAppEngine (encryptedWallet : string) : Async bool :=
  try_catch
    (let* keyJson := file_download Firebase (gcpServiceAccountFilename env) in
     let keyFilePath := "keyfile.json" in
     fs_writeFileSync keyFilePath keyJson;;
     file_save AppEngine (gcpWalletFilename env) encryptedWallet;;
     (* delete temp files *)
     fs_unlinkSync keyFilePath;;
     ret true)
    (fun _ => ret false).

Definition saveMasterWallet (wallet : Handle)
  : Async (option Z * option ServiceError) :=
  let* masterWalletInfo := getMasterWalletInfo in
  match masterWalletInfo with
  | None => ret (None, Some (mkServiceError "service/master-wallet-info" None))
  | Some masterWalletInfo =>
      let* encryptedString :=
        wallet_encryptWalletToString wallet (serviceadmin_password env) in
      let* timestamp := Date_now in
      let* saveResults :=
        Promise_all
          (saveWalletFirebase (location masterWalletInfo) encryptedString)
          (saveWalletAppEngine encryptedString) in
      (if fst saveResults then
         let* now := Date_now in
         let updateObject := mkWalletInfoUpdate (Some now) None in
         doc_update updateObject
       else ret tt);;
      ret (Some timestamp, None)
  end.

(** *** Creation *)

Definition createMasterWallet (serviceConfig : ServiceConfig)
  : Async (option string * option ServiceError) :=
  let* now := Date_now in
  let walletDoc :=
    mkWalletInfo (defaultWalletLocation env) (defaultWalletBackupsDirectory env) now 0 in
  let* failed :=
    try_catch
      (doc_create walletDoc;;
       ret None)
      (fun error =>
         ret (Some (mkServiceError "service/master-wallet-info"
                      (Some ("Error creating WalletInfo: " +:+ error))))) in
  match failed with
  | Some error => ret (None, Some error)
  | None =>
      let daemon := mkDaemon (daemonHost serviceConfig) (daemonPort serviceConfig) None in
      let* failed :=
        try_catch
          (let* created := WalletBackend_createWallet daemon in
           assign_masterWallet (Some created);;
           wallet_start created;;
           (* give the new wallet time to sync *)
           sleep (20 * 1000);;
           ret None)
          (fun error => ret (Some (mkServiceError "service/unknown-error" (Some error)))) in
      match failed with
      | Some error => ret (None, Some error)
      | None =>
          let* current := get masterWallet in
          match current with
          | None => throw "TypeError: masterWallet is undefined"
          | Some current =>
              let* (saveDate, saveError) := saveMasterWallet current in
              if negb (from_option truthyZ false saveDate) then ret (None, saveError)
              else
                let* (seed, seedError) := wallet_getMnemonicSeed current in
                if negb (from_option truthyString false seed) then
                  ret (None, Some (mkServiceError "service/master-wallet-info" seedError))
                else ret (seed, None)
          end
      end
  end.

(** *** The remote (App Engine) wallet *)

Definition remote_status (r : RemoteWallet) : WalletStatus :=
  mkWalletStatus (rw_started r) (rw_daemonHost r) (rw_uptime r).

(** Modelled from the spec: [GET /status] of the remote delegate. *)
Definition axios_get_status (token : string) : Async WalletStatus :=
  emit (HttpGet (cloudwallet_api_base env +:+ "/status") token);;
  fun w =>
    if rw_reachable (remote w) then (Resolved (remote_status (remote w)), w)
    else (Rejected "Network Error", w).

(** Modelled from the spec: [POST /start {daemonHost, daemonPort}] of the
    remote delegate binds it to the peer of the request. *)
Definition axios_post_start (token : string) (body : StartWalletRequest)
  : Async WalletStatus :=
  emit (HttpPost (cloudwallet_api_base env +:+ "/start") token body);;
  fun w =>
    if rw_reachable (remote w) then
      let r := mkRemoteWallet true (rw_startable (remote w)) (rw_startable (remote w))
                 (Some (req_daemonHost body)) (Some (req_daemonPort body)) (Some 0) in
      (Resolved (remote_status r), set_remote r w)
    else (Rejected "Network Error", w).

Definition getCloudWalletStatus (jwtToken : string) : Async (option WalletStatus) :=
  try_catch
    (let* statusResponse := axios_get_status jwtToken in
     ret (Some statusResponse))
    (fun _ => ret None).

Definition startAppEngineWallet (jwtToken : string) (serviceConfig : ServiceConfig)
  : Async bool :=
  let startBody :=
    mkStartWalletRequest (daemonHost serviceConfig) (daemonPort serviceConfig) in
  try_catch
    (let* walletStatus := axios_post_start jwtToken startBody in
     ret (started walletStatus))
    (fun _ => ret false).

(** [status.daemonHost !== serviceConfig.daemonHost], the left side
    possibly undefined. *)
Definition host_ne (a : option string) (b : string) : bool :=
  negb (bool_decide (a = Some b)).

Definition restartRequired (status : WalletStatus) (serviceConfig : ServiceConfig) : bool :=
  let maxUptime := 1000 * 60 * 60 * 4 in (* 4 hours *)
  if negb (started status) then true
  else
    host_ne (status_daemonHost status) (daemonHost serviceConfig)
    || from_option (fun u => truthyZ u && (maxUptime <? u)) false (uptime status).

Definition warmupAppEngineWallet (jwtToken : string) (serviceConfig : ServiceConfig)
  : Async bool :=
  let* status := getCloudWalletStatus jwtToken in
  match status with
  | None => ret false
  | Some status =>
      if negb (restartRequired status serviceConfig) then ret true
      else startAppEngineWallet jwtToken serviceConfig
  end.

End WalletManager.

(** * The older variant (src/functions/src/walletManager.ts)

    The same module at an earlier stage: no [masterWalletLastSaveAt], no
    rewind, a sync wait that asks for [wHeight >= nHeight] and a timeout
    that resolves to [false] without looking again, and no discarding of
    the instance after a failed sync.  The functions that differ are
    given here; the properties below are stated on the later variant. *)

Module Legacy.

Section WalletManager.

Variable env : Env.

Definition getMasterWalletString : Async (option string) :=
  let* masterWalletInfo := getMasterWalletInfo in
  match masterWalletInfo with
  | None => ret None
  | Some info =>
      let* buffer := file_download Firebase (location info) in
      ret (Some buffer)
  end.

Definition startWalletFromString (encryptedString daemonHost : string) (daemonPort : Z)
  : Async (option Handle * option ServiceError) :=
  let daemon := mkDaemon daemonHost daemonPort (Some (walletBackendUserAgentId env)) in
  let* (wallet, error) :=
    WalletBackend_openWalletFromEncryptedString env daemon encryptedString
      (serviceadmin_password env) in
  match error, wallet with
  | None, Some wallet =>
      wallet_enableAutoOptimization wallet false;;
      wallet_start env wallet;;
      ret (Some wallet, None)
  | _, _ =>
      ret (None, Some (mkServiceError "service/master-wallet-file"
                         (Some "Failed to decrypt wallet string")))
  end.

Definition getMasterWallet (serviceConfig : ServiceConfig)
  : Async (option Handle * option ServiceError) :=
  let* current := get masterWallet in
  match current with
  | Some current =>
      let* daemonInfo := wallet_getDaemonConnectionInfo current in
      let restartNeeded :=
        negb (String.eqb (d_host daemonInfo) (daemonHost serviceConfig))
        || negb (d_port daemonInfo =? daemonPort serviceConfig) in
      let* expired := lifetimeExceeded env in
      let restartNeeded := restartNeeded || expired in
      if restartNeeded then
        (* load and swap to a new instance of the master wallet *)
        let* encryptedString := getMasterWalletString in
        match encryptedString with
        | None => ret (None, Some (mkServiceError "service/master-wallet-file" None))
        | Some encryptedString =>
            if negb (truthyString encryptedString) then
              ret (None, Some (mkServiceError "service/master-wallet-file" None))
            else
              let* (newWallet, error) :=
                startWalletFromString encryptedString
                  (daemonHost serviceConfig) (daemonPort serviceConfig) in
              match newWallet with
              | None => ret (None, error)
              | Some newWallet =>
                  (* swap instances *)
                  let oldWallet := current in
                  assign_masterWallet (Some newWallet);;
                  let* now := Date_now env in
                  modify (set_masterWalletStartedAt (Some now));;
                  (* kill old instance *)
                  wallet_stop oldWallet;;
                  let* current := get masterWallet in
                  ret (current, None)
              end
        end
      else ret (Some current, None)
  | None =>
      let* encryptedString := getMasterWalletString in
      match encryptedString with
      | None => ret (None, Some (mkServiceError "service/master-wallet-file" None))
      | Some encryptedString =>
          if negb (truthyString encryptedString) then
            ret (None, Some (mkServiceError "service/master-wallet-file" None))
          else
            let* (wallet, error) :=
              startWalletFromString encryptedString
                (daemonHost serviceConfig) (daemonPort serviceConfig) in
            match wallet with
            | Some wallet =>
                assign_masterWallet (Some wallet);;
                let* now := Date_now env in
                modify (set_masterWalletStartedAt (Some now));;
                ret (Some wallet, error)
            | None => ret (None, error)
            end
      end
  end.

(** [Promise.race([p1, p2])] as in the later variant: when the listener
    on 'sync' wins, the timer of [p2] is not cleared and its callback
    stays among the timers.  The heights kept with it are those read at
    the call; the callback of this variant reads none of them. *)
Definition waitForWalletSync (wallet : Handle) (timeout : Z) : Async bool :=
  let* (wHeight, nHeight) := wallet_getSyncStatus wallet in
  if nHeight <=? wHeight then ret true
  else
    wallet_on wallet "sync";;
    sleep timeout;;
    let* run := suspend env wallet in
    if sr_syncEmitted run then
      let pending :=
        mkTimer wallet timeout (mkWalletSyncInfo wHeight nHeight (nHeight - wHeight)) in
      modify (fun w => set_timers (timers w ++ [pending]) w);;
      ret true
    else ret false.

(** A timer left behind elapses: its callback is
    [_ => Promise.resolve(false)], and nobody reads the value. *)
Definition timerElapses : Async unit :=
  let* ts := get timers in
  match ts with
  | [] => ret tt
  | t :: rest => modify (set_timers rest)
  end.

Definition getServiceWallet (waitForSync : bool)
  : Async (option ServiceWallet * option ServiceError) :=
  let* (serviceConfig, configError) := ServiceModule_getServiceConfig in
  match serviceConfig with
  | None => ret (None, configError)
  | Some serviceConfig =>
      if serviceHalted serviceConfig then
        ret (None, Some (mkServiceError "service/service-halted" None))
      else
        let* (wallet, openError) := getMasterWallet serviceConfig in
        match wallet with
        | None => ret (None, openError)
        | Some wallet =>
            let serviceWallet := mkServiceWallet wallet serviceConfig in
            if negb waitForSync then ret (Some serviceWallet, None)
            else
              let* syncStart := Date_now env in
              let* synced := waitForWalletSync wallet (waitForSyncTimeout serviceConfig) in
              let* syncEnd := Date_now env in
              if negb synced then
                ret (None, Some (mkServiceError "service/master-wallet-sync-failed" None))
              else ret (Some serviceWallet, None)
        end
  end.

End WalletManager.

End Legacy.

(** * Vocabulary of the properties *)

Section Vocabulary.

Variable env : Env.

(** ** The restart policy of [getMasterWallet], as one boolean *)

Definition expiredAt (startedAt : option Z) (now : Z) : bool :=
  match startedAt with
  | Some t => truthyZ t && (t + 1000 * 60 * 10 <=? now)
  | None => false
  end.

Definition peerDiffers (o : WalletBackend) (cfg : ServiceConfig) : bool :=
  negb (String.eqb (d_host (wb_daemon o)) (daemonHost cfg))
  || negb (d_port (wb_daemon o) =? daemonPort cfg).

Definition restartNeeded (cfg : ServiceConfig) (info : WalletInfo) (o : WalletBackend)
    (w : World) : bool :=
  peerDiffers o cfg
  || expiredAt (masterWalletStartedAt w) (clock env (ticks w))
  || strict_ne (masterWalletLastSaveAt w) (Some (lastSaveAt info)).

(** The restart branch of [getMasterWallet]: load and swap to a new
    instance of the master wallet. *)
Definition swapInstance (cfg : ServiceConfig) (rewind : Z) (info : WalletInfo)
    (oldWalletInstance : Handle) : Async (option Handle * option ServiceError) :=
  let* encryptedString := getMasterWalletString in
  match encryptedString with
  | None => ret (None, Some (mkServiceError "service/master-wallet-file" None))
  | Some encryptedString =>
      if negb (truthyString encryptedString) then
        ret (None, Some (mkServiceError "service/master-wallet-file" None))
      else
        let* (newWallet, error) :=
          startWalletFromString env encryptedString (daemonHost cfg) (daemonPort cfg) in
        match newWallet with
        | None => ret (None, error)
        | Some newWallet =>
            (if 0 <? rewind then rewindWallet newWallet rewind else ret tt);;
            assign_masterWallet (Some newWallet);;
            modify (set_masterWalletLastSaveAt (Some (lastSaveAt info)));;
            wallet_stop oldWalletInstance;;
            wallet_removeAllListeners oldWalletInstance;;
            let* current := get masterWallet in
            ret (current, None)
        end
  end.

(** The branch of [getMasterWallet] taken when there is no instance. *)
Definition loadInstance (cfg : ServiceConfig) (rewind : Z) (info : WalletInfo)
  : Async (option Handle * option ServiceError) :=
  let* encryptedString := getMasterWalletString in
  match encryptedString with
  | None => ret (None, Some (mkServiceError "service/master-wallet-file" None))
  | Some encryptedString =>
      if negb (truthyString encryptedString) then
        ret (None, Some (mkServiceError "service/master-wallet-file" None))
      else
        let* (wallet, error) :=
          startWalletFromString env encryptedString (daemonHost cfg) (daemonPort cfg) in
        match wallet with
        | Some wallet =>
            (if 0 <? rewind then rewindWallet wallet rewind else ret tt);;
            assign_masterWallet (Some wallet);;
            modify (set_masterWalletLastSaveAt (Some (lastSaveAt info)));;
            ret (Some wallet, error)
        | None => ret (None, error)
        end
  end.

(** A singleton that is set refers to an object. *)
Definition singletonValid (w : World) : Prop :=
  forall m, masterWallet w = Some m -> is_Some (heap w !! m).

(** The object [startWalletFromString] leaves on the heap. *)
Definition openedWallet (host : string) (port : Z) (d : WalletData) : WalletBackend :=
  mkWalletBackend (mkDaemon host port (Some (walletBackendUserAgentId env)))
    (wd_mnemonicSeed d) (wd_height d) (daemonHeight env host port) true 0%nat false.

(** The events of a successful swap, after the first read of the
    metadata. *)
Definition swapEvents (rewind : Z) (info : WalletInfo) (d : WalletData)
    (old new : Handle) : list Event :=
  [DocGet; Download Firebase (location info); OpenWallet new; Start new]
  ++ (if 0 <? rewind then [Rewind new (wd_height d - rewind)] else [])
  ++ [AssignMasterWallet (Some new); Stop old; RemoveAllListeners old].

(** The new instance, rewound. *)
Definition installedWallet (cfg : ServiceConfig) (rewind : Z) (d : WalletData)
  : WalletBackend :=
  let o := openedWallet (daemonHost cfg) (daemonPort cfg) d in
  if 0 <? rewind then with_heights (wd_height d - rewind) (wb_networkHeight o) o else o.

(** Events that touch neither the singleton nor the life of an instance. *)
Definition quiet (e : Event) : bool :=
  match e with
  | Stop _ | RemoveAllListeners _ | AssignMasterWallet _ => false
  | _ => true
  end.

Fixpoint countStops (h : Handle) (evs : list Event) : nat :=
  match evs with
  | [] => 0
  | Stop h' :: rest => (if Nat.eqb h' h then 1 else 0) + countStops h rest
  | _ :: rest => countStops h rest
  end.

(** The values the singleton takes along a run, from its value before. *)
Fixpoint singletonAlong (m : option Handle) (evs : list Event) : list (option Handle) :=
  match evs with
  | [] => [m]
  | AssignMasterWallet v :: rest => m :: singletonAlong v rest
  | _ :: rest => m :: singletonAlong m rest
  end.

(** ** The events of a save *)

Definition serialized (o : WalletBackend) : string :=
  encrypt env (mkWalletData (wb_mnemonicSeed o) (wb_walletHeight o))
    (serviceadmin_password env).

(** The key file as the mirror write finds it. *)
Definition keyFile (w : World) : option string :=
  if readable (bucket w) then files (bucket w) !! gcpServiceAccountFilename env else None.

Definition mirrorSucceeds (w : World) : bool :=
  bool_decide (is_Some (keyFile w)) && writable (gcpBucket w).

(** What the mirror write does after asking for the key file. *)
Definition mirrorEvents (s : string) (w : World) : list Event :=
  match keyFile w with
  | Some _ =>
      [WriteFileSync "keyfile.json"; Save AppEngine (gcpWalletFilename env) s]
      ++ (if writable (gcpBucket w) then [UnlinkSync "keyfile.json"] else [])
  | None => []
  end.

Definition savedAt (t : Z) : WalletInfoUpdate := mkWalletInfoUpdate (Some t) None.

(** The bucket after the attempt of the primary write. *)
Definition primaryWritten (info : WalletInfo) (o : WalletBackend) (w : World) : World :=
  if writable (bucket w)
  then set_bucket (mkBucket (<[location info := serialized o]> (files (bucket w)))
                    (readable (bucket w)) true) w
  else w.

(** The events of [saveMasterWallet] when the metadata are there. *)
Definition saveEvents (info : WalletInfo) (o : WalletBackend) (w : World) : list Event :=
  [DocGet; Save Firebase (location info) (serialized o);
   Download Firebase (gcpServiceAccountFilename env)]
  ++ mirrorEvents (serialized o) (primaryWritten info o w)
  ++ (if writable (bucket w) then [DocUpdate (savedAt (clock env (S (ticks w))))] else []).

Definition isDocUpdate (e : Event) : bool :=
  match e with DocUpdate _ => true | _ => false end.

(** ** What [createMasterWallet] makes *)

Definition createdInfo (now : Z) : WalletInfo :=
  mkWalletInfo (defaultWalletLocation env) (defaultWalletBackupsDirectory env) now 0.

Definition createdWallet (cfg : ServiceConfig) (n : nat) : WalletBackend :=
  mkWalletBackend (mkDaemon (daemonHost cfg) (daemonPort cfg) None) (freshSeed env n) 0
    (daemonHeight env (daemonHost cfg) (daemonPort cfg)) false 0%nat true.

Definition createEvents (cfg : ServiceConfig) (w : World) : list Event :=
  [DocCreate (createdInfo (clock env (ticks w))); CreateWallet (length (heap w));
   AssignMasterWallet (Some (length (heap w))); Start (length (heap w));
   Sleep (20 * 1000)].

End Vocabulary.

(** * Scenarios *)

Module Scenario.

Definition env : Env :=
  mkEnv "wallets/master.bin" "wallets/backups" "gcp_account.json" "wallet.bin"
    "trtl-apps" "secret" "https://wallet.example"
    (fun n => 1300000 + Z.of_nat n)
    (fun _ => mkSyncRun false 103 120)
    (fun d _ => default "view-only" (wd_mnemonicSeed d))
    (fun s _ => if String.eqb s "garbage" then None else Some (mkWalletData (Some s) 90))
    (fun _ => Some "alpha bravo charlie")
    (fun _ _ => 120)
    (fun _ => None).

Definition config : ServiceConfig := mkServiceConfig "node.example" 11898 5000 false.

(** The same host on another port. *)
Definition movedConfig : ServiceConfig := mkServiceConfig "node.example" 11899 5000 false.

(** A wallet twenty blocks behind, and one that has caught up. *)
Definition instance : WalletBackend :=
  mkWalletBackend (mkDaemon "node.example" 11898 (Some "trtl-apps"))
    (Some "alpha bravo charlie") 100 120 true 0%nat false.

Definition syncedInstance : WalletBackend :=
  mkWalletBackend (mkDaemon "node.example" 11898 (Some "trtl-apps"))
    (Some "alpha bravo charlie") 119 120 true 0%nat false.

Definition info (savedAt : Z) : WalletInfo :=
  mkWalletInfo "wallets/master.bin" "wallets/backups" savedAt 0.

Definition idleRemote : RemoteWallet := mkRemoteWallet true true false None None None.

(** A remote wallet started a minute ago on node.example:11898. *)
Definition boundRemote : RemoteWallet :=
  mkRemoteWallet true true true (Some "node.example") (Some 11898) (Some 60000).

Definition storage : Bucket :=
  mkBucket {[ "wallets/master.bin" := "alpha bravo charlie" ]} true true.

(** The object [o] as the singleton, started five minutes ago with the
    baseline 100, and the metadata saying [savedAt]. *)
Definition holding (o : WalletBackend) (savedAt : Z) : World :=
  mkWorld (Some 0%nat) (Some 1000000) (Some 100) [o] (Some (info savedAt))
    storage (mkBucket ∅ true true) ∅ idleRemote (Some config, None) 0 0 [] [].

Definition serving (savedAt : Z) : World := holding instance savedAt.

(** Nothing yet: no metadata, no instance; the remote wallet is up. *)
Definition blank : World :=
  mkWorld None None None [] None
    storage (mkBucket ∅ true true) ∅ boundRemote (Some config, None) 0 0 [] [].

End Scenario.

(** * The rest of walletManager.ts *)

Section Backup.

Variable env : Env.

(** [`masterwallet_backup_${timestamp}.bin`] *)
Definition backupFileName (timestamp : Z) : string :=
  "masterwallet_backup_" +:+ pretty timestamp +:+ ".bin".

(** Best effort: what is thrown inside the [try] is logged and dropped.
    The temporary file is named by the file name alone, as the key file
    of the mirror write is. *)
Definition backupMasterWallet : Async unit :=
  let* (serviceWallet, walletError) := getServiceWallet env false in
  match serviceWallet with
  | None => ret tt
  | Some serviceWallet =>
      let* masterWalletInfo := getMasterWalletInfo in
      match masterWalletInfo with
      | None => ret tt
      | Some masterWalletInfo =>
          let* timestamp := Date_now env in
          let fileName := backupFileName timestamp in
          try_catch
            (let* encryptedString :=
               wallet_encryptWalletToString env (wallet serviceWallet)
                 (serviceadmin_password env) in
             let tempFile := fileName in
             fs_writeFileSync tempFile encryptedString;;
             file_save Firebase (backupsDirectory masterWalletInfo +:+ "/" +:+ fileName)
               encryptedString;;
             (* delete temp files *)
             fs_unlinkSync tempFile;;
             let updateObject := mkWalletInfoUpdate None (Some timestamp) in
             doc_update updateObject)
            (fun _ => ret tt)
      end
  end.

End Backup.

(** ** The token and the calls to the remote wallet *)

(** The private key comes out of the configuration with its line breaks
    written as a backslash and an [n];
    [private_key_raw.replace(new RegExp("\\\\n", "\g"), "\n")] puts a line
    feed for each such pair, from left to right. *)
Fixpoint unescapeNewlines (s : string) : string :=
  match s with
  | EmptyString => EmptyString
  | String c rest =>
      match rest with
      | String c' rest' =>
          if Ascii.eqb c "\"%char && Ascii.eqb c' "n"%char
          then String "010"%char (unescapeNewlines rest')
          else String c (unescapeNewlines rest)
      | EmptyString => String c EmptyString
      end
  end.

(** Is there a backslash followed by an [n]? *)
Fixpoint hasEscapedNewline (s : string) : bool :=
  match s with
  | EmptyString => false
  | String c rest =>
      match rest with
      | String c' _ =>
          (Ascii.eqb c "\"%char && Ascii.eqb c' "n"%char) || hasEscapedNewline rest
      | EmptyString => false
      end
  end.

Record PrepareTransactionRequest := mkPrepareTransactionRequest {
  subWallet : string;
  senderId : string;
  sendAddress : string;
  amount : Z;
  req_paymentId : string
}.

Inductive RequestBody :=
| PrepareBody (r : PrepareTransactionRequest)
| SendBody (preparedTxHash : string)
| RewindBody (distance : Z).

(** What [axios.post] comes to: the data of the response, or a thrown
    error, which carries the data of a response when one came. *)
Inductive AxiosResult :=
| Replied (data : string)
| Failed (response : option string).

(** [functions.config().cloudwallet], the token endpoint and the remote
    wallet behind [axios.post], none of them part of the module. *)
Record Cloud := mkCloud {
  client_email : string;
  target_audience : string;
  private_key : string;
  (* jwtClient.authorize() for this mail, key and audience: the id_token
     of the response, if any *)
  authorize : string -> string -> string -> Async (option string);
  (* axios.post(endpoint, body, {headers: {Authorization: "Bearer " + token}}) *)
  axios_post : string -> string -> RequestBody -> World -> AxiosResult * World;
  (* rewindResponse.data.walletHeight *)
  walletHeightOf : string -> Z;
  (* how a thrown error reads when passed as the message of a ServiceError *)
  describe : option string -> string
}.

(** The error slot of [prepareAccountTransaction] holds a [ServiceError]
    or, after a failed request, the data of the response as it came. *)
Inductive PrepareError :=
| Service (e : ServiceError)
| ResponseData (data : string).

Section RemoteCalls.

Variable env : Env.
Variable cloud : Cloud.

Definition getAppEngineToken : Async (option string * option ServiceError) :=
  let private_key := unescapeNewlines (private_key cloud) in
  try_catch
    (let* id_token := authorize cloud (client_email cloud) private_key
                        (target_audience cloud) in
     if from_option truthyString false id_token then ret (id_token, None)
     else ret (None, Some (mkServiceError "service/unknown-error" None)))
    (fun error => ret (None, Some (mkServiceError "service/unknown-error" (Some error)))).

Definition post (endpoint token : string) (body : RequestBody) : Async AxiosResult :=
  fun w => let (r, w') := axios_post cloud endpoint token body w in (Resolved r, w').

Definition prepareAccountTransaction (serviceConfig : ServiceConfig)
    (appWallet accountId sendAddress paymentId : string) (amount : Z)
  : Async (option string * option PrepareError) :=
  let* (token, jwtError) := getAppEngineToken in
  if negb (from_option truthyString false token) then ret (None, Service <$> jwtError)
  else
    let token := default "" token in
    let* walletReady := warmupAppEngineWallet env token serviceConfig in
    if negb walletReady then
      ret (None, Some (Service (mkServiceError "service/unknown-error"
                                  (Some "cloud wallet not ready."))))
    else
      let txRequest :=
        mkPrepareTransactionRequest appWallet accountId sendAddress amount paymentId in
      let endpoint := cloudwallet_api_base env +:+ "/prepare_transaction" in
      let* reply := post endpoint token (PrepareBody txRequest) in
      match reply with
      | Replied sendResult => ret (Some sendResult, None)
      | Failed (Some data) => ret (None, Some (ResponseData data))
      | Failed None => throw "TypeError: Cannot read property 'data' of undefined"
      end.

Definition sendPreparedTransaction (preparedTxHash : string) (serviceConfig : ServiceConfig)
  : Async (option string * option ServiceError) :=
  let* (token, jwtError) := getAppEngineToken in
  if negb (from_option truthyString false token) then ret (None, jwtError)
  else
    let token := default "" token in
    let* walletReady := warmupAppEngineWallet env token serviceConfig in
    if negb walletReady then
      ret (None, Some (mkServiceError "service/unknown-error"
                         (Some "cloud wallet not ready.")))
    else
      let endpoint := cloudwallet_api_base env +:+ "/send" in
      let* reply := post endpoint token (SendBody preparedTxHash) in
      match reply with
      | Replied sendResult => ret (Some sendResult, None)
      | Failed (Some data) =>
          ret (None, Some (mkServiceError "service/unknown-error" (Some data)))
      | Failed None => throw "TypeError: Cannot read property 'data' of undefined"
      end.

Definition rewindAppEngineWallet (distance : Z) (serviceConfig : ServiceConfig)
  : Async (option Z * option ServiceError) :=
  let* (token, jwtError) := getAppEngineToken in
  if negb (from_option truthyString false token) then ret (None, jwtError)
  else
    let token := default "" token in
    let* walletStarted := warmupAppEngineWallet env token serviceConfig in
    if negb walletStarted then
      ret (None, Some (mkServiceError "service/unknown-error"
                         (Some "failed to warmup app engine wallet.")))
    else
      let rewindEndpoint := cloudwallet_api_base env +:+ "/rewind" in
      let* reply := post rewindEndpoint token (RewindBody distance) in
      match reply with
      | Replied data => ret (Some (walletHeightOf cloud data), None)
      | Failed response =>
          ret (None, Some (mkServiceError "service/unknown-error"
                             (Some (describe cloud response))))
      end.

End RemoteCalls.

(** ** The older variant: saving *)

Module LegacyStore.

Section WalletManager.

Variable env : Env.

(** Everything after the metadata runs inside one [try]: whatever is
    thrown comes back as 'service/unknown-error'.  The temporary file is
    [path.join(os.tmpdir(), 'masterwallet.bin')]. *)
Definition saveMasterWallet (wallet : Handle)
  : Async (option Z * option ServiceError) :=
  let* masterWalletInfo := getMasterWalletInfo in
  match masterWalletInfo with
  | None => ret (None, Some (mkServiceError "service/master-wallet-info" None))
  | Some masterWalletInfo =>
      try_catch
        (let* encryptedString :=
           wallet_encryptWalletToString env wallet (serviceadmin_password env) in
         let tempFile := "masterwallet.bin" in
         let* timestamp := Date_now env in
         fs_writeFileSync tempFile encryptedString;;
         file_save Firebase (location masterWalletInfo) encryptedString;;
         (* delete temp files *)
         fs_unlinkSync tempFile;;
         let updateObject := mkWalletInfoUpdate (Some timestamp) None in
         doc_update updateObject;;
         ret (Some timestamp, None))
        (fun error => ret (None, Some (mkServiceError "service/unknown-error" (Some error))))
  end.

End WalletManager.

End LegacyStore.

(** * More of the vocabulary *)

Section MoreVocabulary.

Variable env : Env.

(** The events of a first load that succeeds, after the first read of
    the metadata. *)
Definition loadEvents (rewind : Z) (info : WalletInfo) (d : WalletData) (new : Handle)
  : list Event :=
  [DocGet; Download Firebase (location info); OpenWallet new; Start new]
  ++ (if 0 <? rewind then [Rewind new (wd_height d - rewind)] else [])
  ++ [AssignMasterWallet (Some new)].

Definition isDownload (e : Event) : bool :=
  match e with Download _ _ => true | _ => false end.

(** The singleton, when set, is an object whose engine runs: started,
    and not stopped since. *)
Definition singletonServing (w : World) : Prop :=
  forall m, masterWallet w = Some m ->
    exists o, heap w !! m = Some o /\ wb_running o = true.

(** Reads of the metadata and of a bucket. *)
Definition isRead (e : Event) : bool :=
  match e with DocGet | Download _ _ => true | _ => false end.

End MoreVocabulary.

(** * More scenarios *)

Module Cases.

(** The environment of the scenarios, where [start()] throws. *)
Definition faultyEnv : Env :=
  mkEnv "wallets/master.bin" "wallets/backups" "gcp_account.json" "wallet.bin"
    "trtl-apps" "secret" "https://wallet.example"
    (fun n => 1300000 + Z.of_nat n)
    (fun _ => mkSyncRun false 103 120)
    (fun d _ => default "view-only" (wd_mnemonicSeed d))
    (fun s _ => if String.eqb s "garbage" then None else Some (mkWalletData (Some s) 90))
    (fun _ => Some "alpha bravo charlie")
    (fun _ _ => 120)
    (fun _ => Some "daemon unreachable").

(** The environment of the scenarios, where 'sync' is emitted during
    the first wait, one block below the network; during the next wait
    the network runs away and the wallet stands still. *)
Definition syncingEnv : Env :=
  mkEnv "wallets/master.bin" "wallets/backups" "gcp_account.json" "wallet.bin"
    "trtl-apps" "secret" "https://wallet.example"
    (fun n => 1300000 + Z.of_nat n)
    (fun n => match n with O => mkSyncRun true 119 120 | _ => mkSyncRun false 100 130 end)
    (fun d _ => default "view-only" (wd_mnemonicSeed d))
    (fun s _ => if String.eqb s "garbage" then None else Some (mkWalletData (Some s) 90))
    (fun _ => Some "alpha bravo charlie")
    (fun _ _ => 120)
    (fun _ => None).

(** A process that has not loaded the wallet yet; the metadata and the
    file are there. *)
Definition cold : World :=
  mkWorld None None None [] (Some (Scenario.info 100))
    Scenario.storage (mkBucket ∅ true true) ∅ Scenario.idleRemote
    (Some Scenario.config, None) 0 0 [] [].

(** The same, the file missing. *)
Definition bare : World :=
  mkWorld None None None [] (Some (Scenario.info 100))
    (mkBucket ∅ true true) (mkBucket ∅ true true) ∅ Scenario.idleRemote
    (Some Scenario.config, None) 0 0 [] [].

(** Nothing yet, and the bucket takes no write. *)
Definition sealedBlank : World :=
  mkWorld None None None [] None
    (mkBucket ∅ true false) (mkBucket ∅ true true) ∅ Scenario.boundRemote
    (Some Scenario.config, None) 0 0 [] [].

(** The serving process of the scenarios; the bucket takes no write. *)
Definition sealedServing : World :=
  mkWorld (Some 0%nat) (Some 1000000) (Some 100) [Scenario.instance]
    (Some (Scenario.info 100))
    (mkBucket {[ "wallets/master.bin" := "alpha bravo charlie" ]} true false)
    (mkBucket ∅ true true) ∅ Scenario.idleRemote (Some Scenario.config, None) 0 0 [] [].

(** A token endpoint that answers, and a remote wallet that accepts
    every request. *)
Definition cloud : Cloud :=
  mkCloud "wallet@example.iam" "https://wallet.example" "-----BEGIN KEY-----\nMIIB"
    (fun _ _ _ => ret (Some "token-1"))
    (fun _ _ _ w => (Replied "tx-1", w))
    (fun _ => 117)
    (default "Error: Network Error").

(** The same token endpoint, and a remote wallet that refuses every
    request with a response. *)
Definition refusingCloud : Cloud :=
  mkCloud "wallet@example.iam" "https://wallet.example" "-----BEGIN KEY-----\nMIIB"
    (fun _ _ _ => ret (Some "token-1"))
    (fun _ _ _ w => (Failed (Some "not enough funds"), w))
    (fun _ => 117)
    (default "Error: Network Error").

End Cases.

(** * Properties *)

Section Properties.

Variable env : Env.

Lemma bind_resolved {A B} (m : Async A) (k : A -> Async B) w a w' :
  m w = (Resolved a, w') -> bind m k w = k a w'.
Proof. unfold bind. by intros ->. Qed.

Lemma bind_rejected {A B} (m : Async A) (k : A -> Async B) w e w' :
  m w = (Rejected e, w') -> bind m k w = (Rejected e, w').
Proof. unfold bind. by intros ->. Qed.

Lemma set_ticks_same w : set_ticks (ticks w) w = w.
Proof. by destruct w. Qed.

Lemma strict_ne_true a b : a <> b -> strict_ne a b = true.
Proof. intros H. unfold strict_ne. by rewrite bool_decide_eq_false_2. Qed.

Lemma strict_ne_false a : strict_ne a a = false.
Proof. unfold strict_ne. by rewrite bool_decide_eq_true_2. Qed.

Lemma truthyString_ne s : s <> "" -> truthyString s = true.
Proof.
  intros H. unfold truthyString. destruct (String.eqb_spec s ""); [done|reflexivity].
Qed.

Ltac world_eq := rewrite <- ?app_assoc; reflexivity.

Lemma getMasterWalletInfo_run w :
  getMasterWalletInfo w = (Resolved (walletDoc w), set_trace (trace w ++ [DocGet]) w).
Proof. reflexivity. Qed.

Lemma getMasterWalletString_run w info :
  walletDoc w = Some info ->
  getMasterWalletString w
  = (Resolved (if readable (bucket w) then files (bucket w) !! location info else None),
     set_trace (trace w ++ [DocGet; Download Firebase (location info)]) w).
Proof.
  intros Hdoc.
  unfold getMasterWalletString, getMasterWalletInfo, doc_get, try_catch, file_download,
    emit, modify, get, bind, ret.
  simpl. rewrite Hdoc. simpl.
  destruct (readable (bucket w)); [destruct (files (bucket w) !! location info)|];
    simpl; world_eq.
Qed.

Lemma lookup_fresh (l : list WalletBackend) x : (l ++ [x]) !! length l = Some x.
Proof. by apply list_lookup_middle. Qed.

Lemma insert_fresh (l : list WalletBackend) x y : <[length l := y]> (l ++ [x]) = l ++ [y].
Proof. rewrite insert_app_r_alt by lia. by rewrite Nat.sub_diag. Qed.

Lemma update_run h f w o :
  heap w !! h = Some o ->
  update h f w = (Resolved tt, set_heap (<[h := f o]> (heap w)) w).
Proof. intros Hh. unfold update, deref, bind, modify. by rewrite Hh. Qed.

Lemma wallet_stop_run h w o :
  heap w !! h = Some o ->
  wallet_stop h w
  = (Resolved tt, set_heap (<[h := with_running false o]> (heap w))
                    (set_trace (trace w ++ [Stop h]) w)).
Proof.
  intros Hh. unfold wallet_stop.
  erewrite bind_resolved by reflexivity.
  by erewrite update_run by exact Hh.
Qed.

Lemma wallet_removeAllListeners_run h w o :
  heap w !! h = Some o ->
  wallet_removeAllListeners h w
  = (Resolved tt, set_heap (<[h := with_syncListeners 0 o]> (heap w))
                    (set_trace (trace w ++ [RemoveAllListeners h]) w)).
Proof.
  intros Hh. unfold wallet_removeAllListeners.
  erewrite bind_resolved by reflexivity.
  by erewrite update_run by exact Hh.
Qed.

Lemma rewindWallet_run h distance w o :
  heap w !! h = Some o ->
  rewindWallet h distance w
  = (Resolved tt,
     set_heap (<[h := with_heights (wb_walletHeight o - distance) (wb_networkHeight o) o]>
                 (heap w))
       (set_trace (trace w ++ [Rewind h (wb_walletHeight o - distance)]) w)).
Proof.
  intros Hh.
  unfold rewindWallet, wallet_getSyncStatus, wallet_rewind, deref, bind, ret. rewrite Hh.
  simpl. by erewrite update_run by exact Hh.
Qed.

Lemma startWalletFromString_run s host port w d :
  decrypt env s (serviceadmin_password env) = Some d ->
  startFault env (length (heap w)) = None ->
  startWalletFromString env s host port w
  = (Resolved (Some (length (heap w)), None),
     set_masterWalletStartedAt (Some (clock env (ticks w)))
       (set_ticks (S (ticks w))
          (set_heap (heap w ++ [openedWallet env host port d])
             (set_trace (trace w ++ [OpenWallet (length (heap w)); Start (length (heap w))])
                w)))).
Proof.
  intros Hd Hs.
  unfold startWalletFromString, WalletBackend_openWalletFromEncryptedString.
  rewrite Hd.
  unfold wallet_enableAutoOptimization, wallet_start, update, deref, alloc, emit, modify,
    Date_now, bind, ret.
  simpl. rewrite lookup_fresh. simpl. rewrite Hs. simpl.
  rewrite insert_fresh, lookup_fresh. simpl. rewrite insert_fresh.
  world_eq.
Qed.

Lemma startWalletFromString_undecryptable s host port w :
  decrypt env s (serviceadmin_password env) = None ->
  startWalletFromString env s host port w
  = (Resolved (None, Some (mkServiceError "service/master-wallet-file"
                             (Some "Failed to decrypt wallet string"))), w).
Proof.
  intros Hd.
  unfold startWalletFromString, WalletBackend_openWalletFromEncryptedString.
  by rewrite Hd.
Qed.

Lemma lifetimeExceeded_run w :
  exists n, lifetimeExceeded env w
    = (Resolved (expiredAt (masterWalletStartedAt w) (clock env (ticks w))), set_ticks n w).
Proof.
  unfold lifetimeExceeded, expiredAt, bind, get, ret, Date_now.
  destruct (masterWalletStartedAt w) as [t|]; [destruct (truthyZ t)|]; simpl.
  - eexists; reflexivity.
  - exists (ticks w). by rewrite set_ticks_same.
  - exists (ticks w). by rewrite set_ticks_same.
Qed.

(** [getMasterWallet] up to the decision, when an instance exists. *)
Lemma getMasterWallet_decision cfg force rewind w info h o :
  walletDoc w = Some info ->
  masterWallet w = Some h ->
  heap w !! h = Some o ->
  exists n,
    getMasterWallet env cfg force rewind w
    = (if restartNeeded env cfg info o w || force
       then swapInstance env cfg rewind info h
       else ret (Some h, None))
        (set_ticks n (set_trace (trace w ++ [DocGet]) w)).
Proof.
  intros Hdoc Hm Hh.
  destruct (lifetimeExceeded_run (set_trace (trace w ++ [DocGet]) w)) as [n Hn].
  exists n. unfold getMasterWallet.
  rewrite (bind_resolved _ _ _ _ _ (getMasterWalletInfo_run w)), Hdoc.
  erewrite bind_resolved by reflexivity. simpl. rewrite Hm.
  unfold wallet_getDaemonConnectionInfo, deref.
  erewrite bind_resolved by (unfold bind; simpl; rewrite Hh; reflexivity).
  rewrite (bind_resolved _ _ _ _ _ Hn).
  erewrite bind_resolved by reflexivity.
  reflexivity.
Qed.

Lemma swapInstance_run cfg rewind info h o blob d w :
  walletDoc w = Some info ->
  heap w !! h = Some o ->
  readable (bucket w) = true ->
  files (bucket w) !! location info = Some blob ->
  truthyString blob = true ->
  decrypt env blob (serviceadmin_password env) = Some d ->
  startFault env (length (heap w)) = None ->
  exists w',
    swapInstance env cfg rewind info h w = (Resolved (Some (length (heap w)), None), w')
    /\ trace w' = trace w ++ swapEvents rewind info d h (length (heap w))
    /\ masterWallet w' = Some (length (heap w))
    /\ masterWalletLastSaveAt w' = Some (lastSaveAt info)
    /\ masterWalletStartedAt w' = Some (clock env (ticks w))
    /\ heap w' !! h = Some (with_syncListeners 0 (with_running false o))
    /\ heap w' !! length (heap w) = Some (installedWallet env cfg rewind d)
    /\ length (heap w') = S (length (heap w))
    /\ walletDoc w' = walletDoc w.
Proof.
  intros Hdoc Hh Hon Hblob Htruthy Hd Hs.
  assert (Hlt : (h < length (heap w))%nat) by (eapply lookup_lt_Some; eauto).
  unfold swapInstance.
  rewrite (bind_resolved _ _ _ _ _ (getMasterWalletString_run w info Hdoc)).
  rewrite Hon, Hblob, Htruthy. cbn [negb].
  erewrite bind_resolved by (apply startWalletFromString_run; eauto).
  cbv beta iota.
  set (new := length (heap w)).
  set (o1 := openedWallet env (daemonHost cfg) (daemonPort cfg) d).
  destruct (0 <? rewind) eqn:Hrw.
  - erewrite bind_resolved by (apply rewindWallet_run; simpl; apply lookup_fresh).
    erewrite bind_resolved by reflexivity.
    erewrite bind_resolved by reflexivity.
    erewrite bind_resolved.
    2:{ apply wallet_stop_run. simpl. rewrite insert_fresh.
        rewrite lookup_app_l by done. exact Hh. }
    erewrite bind_resolved.
    2:{ apply wallet_removeAllListeners_run. simpl.
        apply list_lookup_insert_eq. rewrite insert_fresh, length_app. simpl. lia. }
    eexists. split; [reflexivity|]. simpl.
    unfold swapEvents, installedWallet. rewrite Hrw. fold o1.
    rewrite insert_fresh, list_insert_insert_eq.
    repeat split.
    + rewrite <- !app_assoc. reflexivity.
    + apply list_lookup_insert_eq. rewrite length_app. simpl. lia.
    + rewrite list_lookup_insert_ne by lia. apply lookup_fresh.
    + rewrite length_insert, length_app. simpl. lia.
  - erewrite bind_resolved by reflexivity.
    erewrite bind_resolved by reflexivity.
    erewrite bind_resolved by reflexivity.
    erewrite bind_resolved.
    2:{ apply wallet_stop_run. simpl.
        rewrite lookup_app_l by done. exact Hh. }
    erewrite bind_resolved.
    2:{ apply wallet_removeAllListeners_run. simpl.
        apply list_lookup_insert_eq. rewrite length_app. simpl. lia. }
    eexists. split; [reflexivity|]. simpl.
    unfold swapEvents, installedWallet. rewrite Hrw. fold o1.
    rewrite list_insert_insert_eq.
    repeat split.
    + rewrite <- !app_assoc. reflexivity.
    + apply list_lookup_insert_eq. rewrite length_app. simpl. lia.
    + rewrite list_lookup_insert_ne by lia. apply lookup_fresh.
    + rewrite length_insert, length_app. simpl. lia.
Qed.

Lemma startWalletFromString_fault s host port w d e :
  decrypt env s (serviceadmin_password env) = Some d ->
  startFault env (length (heap w)) = Some e ->
  exists w',
    startWalletFromString env s host port w = (Rejected e, w')
    /\ trace w' = trace w ++ [OpenWallet (length (heap w)); Start (length (heap w))]
    /\ masterWallet w' = masterWallet w.
Proof.
  intros Hd Hs.
  unfold startWalletFromString, WalletBackend_openWalletFromEncryptedString.
  rewrite Hd.
  unfold wallet_enableAutoOptimization, wallet_start, update, deref, alloc, emit, modify,
    Date_now, throw, bind, ret.
  simpl. rewrite lookup_fresh. simpl. rewrite Hs. simpl.
  eexists. split; [reflexivity|]. simpl. split; [|done].
  by rewrite <- app_assoc.
Qed.

Lemma swapEvents_shape rewind info d old new :
  exists pre,
    swapEvents rewind info d old new
    = DocGet :: Download Firebase (location info) :: pre
      ++ [AssignMasterWallet (Some new); Stop old; RemoveAllListeners old]
    /\ forallb quiet pre = true.
Proof.
  unfold swapEvents. destruct (0 <? rewind).
  - by exists [OpenWallet new; Start new; Rewind new (wd_height d - rewind)].
  - by exists [OpenWallet new; Start new].
Qed.

(** Whatever becomes of it, the restart branch starts by fetching the
    blob; then it either fails and leaves the instance alone, or swaps. *)
Lemma swapInstance_outcomes cfg rewind info h o w :
  walletDoc w = Some info ->
  heap w !! h = Some o ->
  exists r w' rest,
    swapInstance env cfg rewind info h w = (r, w')
    /\ trace w' = trace w ++ [DocGet; Download Firebase (location info)] ++ rest
    /\ ((forallb quiet rest = true
         /\ (forall v e, r <> Resolved (Some v, e))
         /\ masterWallet w' = masterWallet w
         /\ masterWalletLastSaveAt w' = masterWalletLastSaveAt w
         /\ heap w' !! h = Some o)
        \/ (exists pre,
              rest = pre ++ [AssignMasterWallet (Some (length (heap w))); Stop h;
                             RemoveAllListeners h]
              /\ forallb quiet pre = true
              /\ r = Resolved (Some (length (heap w)), None)
              /\ masterWallet w' = Some (length (heap w))
              /\ masterWalletLastSaveAt w' = Some (lastSaveAt info)
              /\ heap w' !! h = Some (with_syncListeners 0 (with_running false o))
              /\ is_Some (heap w' !! length (heap w)))).
Proof.
  intros Hdoc Hh.
  assert (Hlt : (h < length (heap w))%nat) by (eapply lookup_lt_Some; eauto).
  destruct (readable (bucket w)) eqn:Hon;
    [destruct (files (bucket w) !! location info) as [blob|] eqn:Hblob;
     [destruct (truthyString blob) eqn:Htruthy;
      [destruct (decrypt env blob (serviceadmin_password env)) as [d|] eqn:Hd;
       [destruct (startFault env (length (heap w))) as [e|] eqn:Hs|]|]|]|].
  - (* start() throws *)
    unfold swapInstance.
    rewrite (bind_resolved _ _ _ _ _ (getMasterWalletString_run w info Hdoc)).
    rewrite Hon, Hblob, Htruthy. cbn [negb].
    destruct (startWalletFromString_fault blob (daemonHost cfg) (daemonPort cfg)
                (set_trace (trace w ++ [DocGet; Download Firebase (location info)]) w)
                d e Hd Hs) as (w' & Hrun & Htr & Hm).
    erewrite bind_rejected by exact Hrun.
    exists (Rejected e), w', [OpenWallet (length (heap w)); Start (length (heap w))].
    split; [reflexivity|]. split; [by rewrite Htr; simpl; rewrite <- app_assoc|].
    left. repeat split; try done.
    all: revert Hrun; unfold startWalletFromString,
      WalletBackend_openWalletFromEncryptedString; rewrite Hd;
      unfold wallet_enableAutoOptimization, wallet_start, update, deref, alloc, emit,
        modify, Date_now, throw, bind, ret; simpl; rewrite lookup_fresh; simpl;
      rewrite Hs; simpl; intros [= <-]; simpl; try done.
    rewrite insert_fresh. by rewrite lookup_app_l.
  - (* swap *)
    destruct (swapInstance_run cfg rewind info h o blob d w) as
      (w' & Hrun & Htr & Hm & Hsave & _ & Hold & Hinst & _); try done.
    destruct (swapEvents_shape rewind info d h (length (heap w))) as (pre & Hshape & Hq).
    exists (Resolved (Some (length (heap w)), None)), w',
      (pre ++ [AssignMasterWallet (Some (length (heap w))); Stop h; RemoveAllListeners h]).
    split; [done|]. split; [by rewrite Htr, Hshape|].
    right. exists pre. rewrite Hinst. done.
  - (* the blob does not decrypt *)
    unfold swapInstance.
    rewrite (bind_resolved _ _ _ _ _ (getMasterWalletString_run w info Hdoc)).
    rewrite Hon, Hblob, Htruthy. cbn [negb].
    erewrite bind_resolved by (by apply startWalletFromString_undecryptable).
    do 2 eexists. exists []. split; [reflexivity|]. split; [done|]. left. done.
  - (* the blob is empty *)
    unfold swapInstance.
    rewrite (bind_resolved _ _ _ _ _ (getMasterWalletString_run w info Hdoc)).
    rewrite Hon, Hblob, Htruthy. cbn [negb].
    do 2 eexists. exists []. split; [reflexivity|]. split; [done|]. left. done.
  - (* no blob *)
    unfold swapInstance.
    rewrite (bind_resolved _ _ _ _ _ (getMasterWalletString_run w info Hdoc)).
    rewrite Hon, Hblob.
    do 2 eexists. exists []. split; [reflexivity|]. split; [done|]. left. done.
  - (* storage unavailable *)
    unfold swapInstance.
    rewrite (bind_resolved _ _ _ _ _ (getMasterWalletString_run w info Hdoc)).
    rewrite Hon.
    do 2 eexists. exists []. split; [reflexivity|]. split; [done|]. left. done.
Qed.

Lemma countStops_quiet h evs : forallb quiet evs = true -> countStops h evs = 0%nat.
Proof.
  induction evs as [|e evs IH]; [done|].
  simpl. intros [He Hevs]%andb_true_iff. destruct e; try done; by apply IH.
Qed.

Lemma countStops_app h evs evs' :
  countStops h (evs ++ evs') = (countStops h evs + countStops h evs')%nat.
Proof.
  induction evs as [|e evs IH]; [done|].
  simpl. destruct e; try done. rewrite IH. lia.
Qed.

Lemma singletonAlong_quiet m evs evs' :
  forallb quiet evs = true ->
  Forall is_Some (singletonAlong m evs') ->
  Forall is_Some (singletonAlong m (evs ++ evs')).
Proof.
  intros Hq Htail.
  assert (Hm : is_Some m) by (destruct evs' as [|[]]; by inversion Htail).
  induction evs as [|e evs IH]; [done|].
  simpl in *. apply andb_true_iff in Hq as [He Hevs].
  destruct e; try done; constructor; auto.
Qed.

(** ** The registry and the restart engine *)

(** C1. With an active instance on the configured peer (host and port),
    started less than ten minutes ago, with the persisted [lastSaveAt]
    equal to the recorded baseline and without [forceRestart],
    [getMasterWallet] resolves to the existing handle; the only thing it
    did is to read the metadata document: the world afterwards is the
    world before with [DocGet] added to the trace (and possibly one more
    reading of the clock), so that nothing was fetched, constructed or
    stopped and the three module variables, the heap and the stores are
    as before. *)
Theorem getMasterWallet_reuse cfg rewind w info h o :
  walletDoc w = Some info ->
  masterWallet w = Some h ->
  heap w !! h = Some o ->
  d_host (wb_daemon o) = daemonHost cfg ->
  d_port (wb_daemon o) = daemonPort cfg ->
  (forall t, masterWalletStartedAt w = Some t -> clock env (ticks w) < t + 1000 * 60 * 10) ->
  masterWalletLastSaveAt w = Some (lastSaveAt info) ->
  exists n,
    getMasterWallet env cfg false rewind w
    = (Resolved (Some h, None), set_ticks n (set_trace (trace w ++ [DocGet]) w)).
Proof.
  intros Hdoc Hm Hh Hhost Hport Hage Hsave.
  destruct (getMasterWallet_decision cfg false rewind w info h o Hdoc Hm Hh) as [n ->].
  exists n.
  assert (Hno : restartNeeded env cfg info o w = false).
  { unfold restartNeeded, peerDiffers, expiredAt.
    rewrite Hhost, Hport, String.eqb_refl, Z.eqb_refl, Hsave, strict_ne_false.
    destruct (masterWalletStartedAt w) as [t|]; [|done].
    specialize (Hage t eq_refl).
    destruct (Z.leb_spec (t + 1000 * 60 * 10) (clock env (ticks w))); [lia|].
    by rewrite andb_false_r. }
  by rewrite Hno.
Qed.

(** C2. With an active instance and a persisted [lastSaveAt] that differs
    from the recorded baseline, [getMasterWallet] takes the restart
    branch: in every such state it reads the metadata and goes on to
    fetch the encrypted blob; and when the blob is there, is not empty,
    decrypts and the new wallet starts, it resolves to the new instance,
    which is installed as the singleton bound to the configured peer,
    the old instance is stopped with no listeners left, and the baseline
    is the persisted [lastSaveAt]. *)
Theorem getMasterWallet_stale_save cfg force rewind w info h o :
  walletDoc w = Some info ->
  masterWallet w = Some h ->
  heap w !! h = Some o ->
  masterWalletLastSaveAt w <> Some (lastSaveAt info) ->
  exists r w' rest,
    getMasterWallet env cfg force rewind w = (r, w')
    /\ trace w' = trace w ++ [DocGet; DocGet; Download Firebase (location info)] ++ rest
    /\ forall blob d,
         readable (bucket w) = true ->
         files (bucket w) !! location info = Some blob ->
         blob <> "" ->
         decrypt env blob (serviceadmin_password env) = Some d ->
         startFault env (length (heap w)) = None ->
         r = Resolved (Some (length (heap w)), None)
         /\ rest = [OpenWallet (length (heap w)); Start (length (heap w))]
                   ++ (if 0 <? rewind
                       then [Rewind (length (heap w)) (wd_height d - rewind)] else [])
                   ++ [AssignMasterWallet (Some (length (heap w))); Stop h;
                       RemoveAllListeners h]
         /\ masterWallet w' = Some (length (heap w))
         /\ heap w' !! length (heap w) = Some (installedWallet env cfg rewind d)
         /\ heap w' !! h = Some (with_syncListeners 0 (with_running false o))
         /\ masterWalletLastSaveAt w' = Some (lastSaveAt info).
Proof.
  intros Hdoc Hm Hh Hstale.
  destruct (getMasterWallet_decision cfg force rewind w info h o Hdoc Hm Hh) as [n Hrun].
  assert (Hyes : restartNeeded env cfg info o w || force = true).
  { unfold restartNeeded. rewrite (strict_ne_true _ _ Hstale).
    by rewrite orb_true_r. }
  rewrite Hyes in Hrun.
  set (w1 := set_ticks n (set_trace (trace w ++ [DocGet]) w)) in *.
  destruct (swapInstance_outcomes cfg rewind info h o w1 Hdoc Hh)
    as (r & w' & rest & Hswap & Htrace & _).
  exists r, w', rest. split; [by rewrite Hrun|]. split.
  { rewrite Htrace. simpl. by rewrite <- app_assoc. }
  intros blob d Hon Hblob Hne Hd Hs.
  destruct (swapInstance_run cfg rewind info h o blob d w1 Hdoc Hh Hon Hblob
              (truthyString_ne _ Hne) Hd Hs)
    as (w'' & Hswap' & Htrace' & Hnew & Hbase & _ & Hold & Hinst & _).
  rewrite Hswap in Hswap'. injection Hswap' as -> ->.
  repeat split; try done.
  rewrite Htrace' in Htrace. simpl in Htrace.
  apply app_inv_head in Htrace. unfold swapEvents in Htrace. simpl in Htrace.
  by injection Htrace as <-.
Qed.

(** C3. With an active instance, whenever a restart is due (the peer
    differs, the lifetime is exceeded, a newer save exists or the caller
    forces it), [getMasterWallet] either leaves the instance where it is,
    untouched (the restart failed before the swap), or resolves to a new
    handle after events that end in: the assignment of the new handle to
    [masterWallet], then [stop()] on the old instance, then
    [removeAllListeners()] on it, with no stop, detach or assignment
    before.  So the old instance is stopped once, after the new one is
    installed, and the singleton is never undefined on the way.  The
    second case is the one taken when the blob is there and the new
    wallet starts. *)
Theorem getMasterWallet_swap_order cfg force rewind w info h o :
  walletDoc w = Some info ->
  masterWallet w = Some h ->
  heap w !! h = Some o ->
  restartNeeded env cfg info o w || force = true ->
  exists r w' evs,
    getMasterWallet env cfg force rewind w = (r, w')
    /\ trace w' = trace w ++ evs
    /\ ((masterWallet w' = Some h /\ forallb quiet evs = true
         /\ forall v e, r <> Resolved (Some v, e))
        \/ (exists pre,
              r = Resolved (Some (length (heap w)), None)
              /\ masterWallet w' = Some (length (heap w))
              /\ length (heap w) <> h
              /\ evs = pre ++ [AssignMasterWallet (Some (length (heap w))); Stop h;
                               RemoveAllListeners h]
              /\ forallb quiet pre = true
              /\ countStops h evs = 1%nat
              /\ Forall is_Some (singletonAlong (Some h) evs)))
    /\ forall blob d,
         readable (bucket w) = true ->
         files (bucket w) !! location info = Some blob ->
         blob <> "" ->
         decrypt env blob (serviceadmin_password env) = Some d ->
         startFault env (length (heap w)) = None ->
         r = Resolved (Some (length (heap w)), None).
Proof.
  intros Hdoc Hm Hh Hdue.
  assert (Hlt : (h < length (heap w))%nat) by (eapply lookup_lt_Some; eauto).
  destruct (getMasterWallet_decision cfg force rewind w info h o Hdoc Hm Hh) as [n Hrun].
  rewrite Hdue in Hrun.
  set (w1 := set_ticks n (set_trace (trace w ++ [DocGet]) w)) in *.
  destruct (swapInstance_outcomes cfg rewind info h o w1 Hdoc Hh)
    as (r & w' & rest & Hswap & Htrace & Hcases).
  exists r, w', (DocGet :: DocGet :: Download Firebase (location info) :: rest).
  split; [by rewrite Hrun|]. split.
  { rewrite Htrace. simpl. by rewrite <- app_assoc. }
  split.
  - destruct Hcases as [(Hq & Hr & Hsame & _)|(pre & -> & Hq & -> & Hnew & _)].
    + left. by rewrite Hsame.
    + right. exists (DocGet :: DocGet :: Download Firebase (location info) :: pre).
      repeat split; try done; [lia| |].
      * change (countStops h (pre ++ [AssignMasterWallet (Some (length (heap w)));
                                      Stop h; RemoveAllListeners h]) = 1%nat).
        rewrite countStops_app, (countStops_quiet _ _ Hq). simpl.
        by rewrite Nat.eqb_refl.
      * change (Forall is_Some (singletonAlong (Some h)
                  ([DocGet; DocGet; Download Firebase (location info)] ++ pre ++
                   [AssignMasterWallet (Some (length (heap w))); Stop h;
                    RemoveAllListeners h]))).
        rewrite app_assoc. apply singletonAlong_quiet.
        { rewrite forallb_app. by rewrite Hq. }
        simpl. repeat constructor; done.
  - intros blob d Hon Hblob Hne Hd Hs.
    destruct (swapInstance_run cfg rewind info h o blob d w1 Hdoc Hh Hon Hblob
                (truthyString_ne _ Hne) Hd Hs) as (w'' & Hswap' & _).
    rewrite Hswap in Hswap'. by injection Hswap' as -> ->.
Qed.

(** ** The sync wait *)

Lemma getWalletSyncInfo_run h w o :
  heap w !! h = Some o ->
  getWalletSyncInfo h w
  = (Resolved (mkWalletSyncInfo (wb_walletHeight o) (wb_networkHeight o)
                 (wb_networkHeight o - wb_walletHeight o)), w).
Proof.
  intros Hh. unfold getWalletSyncInfo, wallet_getSyncStatus, deref, bind, ret.
  by rewrite Hh.
Qed.

Lemma wallet_on_run h event w o :
  heap w !! h = Some o ->
  wallet_on h event w
  = (Resolved tt,
     set_heap (<[h := with_syncListeners (S (wb_syncListeners o)) o]> (heap w))
       (set_trace (trace w ++ [On h event]) w)).
Proof.
  intros Hh. unfold wallet_on.
  erewrite bind_resolved by reflexivity.
  by erewrite update_run by exact Hh.
Qed.

Lemma suspend_run h w o :
  heap w !! h = Some o ->
  suspend env h w
  = (Resolved (syncRun env (waits w)),
     set_heap (<[h := with_heights (sr_walletHeight (syncRun env (waits w)))
                         (sr_networkHeight (syncRun env (waits w))) o]> (heap w))
       (set_waits (S (waits w)) w)).
Proof.
  intros Hh. unfold suspend.
  erewrite bind_resolved by reflexivity.
  erewrite bind_resolved by reflexivity.
  erewrite bind_resolved by (apply update_run; exact Hh).
  reflexivity.
Qed.

Lemma afterWait_run h start w o :
  heap w !! h = Some o ->
  afterWait h start w
  = (Resolved (wb_networkHeight o - wb_walletHeight o <=? 2),
     set_trace
       (trace w ++
        if negb (wb_networkHeight o - wb_walletHeight o <=? 2)
           && (wb_walletHeight o - walletHeight start <? 2)
        then [DropCurrentNode (d_host (wb_daemon o))] else [])
       w).
Proof.
  intros Hh. unfold afterWait.
  rewrite (bind_resolved _ _ _ _ _ (getWalletSyncInfo_run h w o Hh)).
  cbn [heightDelta walletHeight].
  destruct (wb_networkHeight o - wb_walletHeight o <=? 2);
    [|destruct (wb_walletHeight o - walletHeight start <? 2)]; cbn [negb andb].
  - unfold bind, ret. rewrite app_nil_r. by destruct w.
  - unfold wallet_getDaemonConnectionInfo, ServiceModule_dropCurrentNode, deref, emit,
      modify, bind, ret. by rewrite Hh.
  - unfold bind, ret. rewrite app_nil_r. by destruct w.
Qed.

(** The timer that a wait won by 'sync' has left behind still elapses:
    its callback measures again and may drop the node then, after the
    wait has long resolved. *)
Lemma timerElapses_run t rest w o :
  timers w = t :: rest ->
  heap w !! tm_wallet t = Some o ->
  timerElapses w
  = (Resolved tt,
     set_trace
       (trace w ++
        if negb (wb_networkHeight o - wb_walletHeight o <=? 2)
           && (wb_walletHeight o - walletHeight (tm_start t) <? 2)
        then [DropCurrentNode (d_host (wb_daemon o))] else [])
       (set_timers rest w)).
Proof.
  intros Ht Hh. unfold timerElapses.
  erewrite bind_resolved by reflexivity. rewrite Ht.
  erewrite bind_resolved by reflexivity.
  erewrite bind_resolved by (by apply (afterWait_run _ _ _ o)).
  reflexivity.
Qed.

(** C4. When the height delta of the handle is at most 2,
    [waitForWalletSync] resolves to [true] at once and the world is the
    one before: no listener registered, no timer started, no node
    dropped. *)
Theorem waitForWalletSync_synced h timeout w o :
  heap w !! h = Some o ->
  wb_networkHeight o - wb_walletHeight o <= 2 ->
  waitForWalletSync env h timeout w = (Resolved true, w).
Proof.
  intros Hh Hdelta. unfold waitForWalletSync.
  rewrite (bind_resolved _ _ _ _ _ (getWalletSyncInfo_run h w o Hh)).
  cbn [heightDelta].
  by destruct (Z.leb_spec (wb_networkHeight o - wb_walletHeight o) 2); [|lia].
Qed.

(** C5. A wait that starts with a height delta above 2 registers the
    listener and starts the timer.  If the engine emits no 'sync' before
    the timer elapses, the result is [true] iff the height delta measured
    again is at most 2, and [ServiceModule.dropCurrentNode] is called
    (with the host of the wallet's daemon) iff the result is [false] and
    the wallet height has advanced by less than 2; nothing else happens.
    If 'sync' comes first, the result is [true] and no node is dropped:
    the callback of the timer is left pending. *)
Theorem waitForWalletSync_race h timeout w o :
  heap w !! h = Some o ->
  2 < wb_networkHeight o - wb_walletHeight o ->
  let run := syncRun env (waits w) in
  let start := mkWalletSyncInfo (wb_walletHeight o) (wb_networkHeight o)
                 (wb_networkHeight o - wb_walletHeight o) in
  exists synced w' evs,
    waitForWalletSync env h timeout w = (Resolved synced, w')
    /\ trace w' = trace w ++ [On h "sync"; Sleep timeout] ++ evs
    /\ (sr_syncEmitted run = false ->
        (synced = true <-> sr_networkHeight run - sr_walletHeight run <= 2)
        /\ (evs = [DropCurrentNode (d_host (wb_daemon o))]
            <-> synced = false /\ sr_walletHeight run - wb_walletHeight o < 2)
        /\ (evs = []
            <-> ~ (synced = false /\ sr_walletHeight run - wb_walletHeight o < 2))
        /\ timers w' = timers w)
    /\ (sr_syncEmitted run = true ->
        synced = true /\ evs = []
        /\ timers w' = timers w ++ [mkTimer h timeout start]).
Proof.
  intros Hh Hdelta run start.
  assert (Hlt : (h < length (heap w))%nat) by (eapply lookup_lt_Some; eauto).
  unfold waitForWalletSync.
  rewrite (bind_resolved _ _ _ _ _ (getWalletSyncInfo_run h w o Hh)).
  cbn [heightDelta].
  destruct (Z.leb_spec (wb_networkHeight o - wb_walletHeight o) 2) as [|_]; [lia|].
  rewrite (bind_resolved _ _ _ _ _ (wallet_on_run h "sync" w o Hh)).
  erewrite bind_resolved by reflexivity.
  erewrite bind_resolved.
  2:{ apply suspend_run. simpl. by apply list_lookup_insert_eq. }
  cbn [waits set_trace set_heap heap].
  fold run. rewrite list_insert_insert_eq.
  destruct (sr_syncEmitted run) eqn:Hemit.
  - erewrite bind_resolved by reflexivity.
    eexists true, _, []. split; [reflexivity|]. simpl.
    split; [by rewrite <- !app_assoc|]. split; [done|]. intros _. done.
  - erewrite afterWait_run.
    2:{ simpl. by apply list_lookup_insert_eq. }
    simpl.
    set (synced := sr_networkHeight run - sr_walletHeight run <=? 2).
    set (stalled := sr_walletHeight run - wb_walletHeight o <? 2).
    eexists synced, _,
      (if negb synced && stalled then [DropCurrentNode (d_host (wb_daemon o))] else []).
    split; [reflexivity|]. simpl.
    split; [by rewrite <- !app_assoc|]. split; [|done]. intros _.
    subst synced stalled.
    destruct (Z.leb_spec (sr_networkHeight run - sr_walletHeight run) 2);
      destruct (Z.ltb_spec (sr_walletHeight run - wb_walletHeight o) 2); simpl;
      repeat split; try done; try lia; intros; try done;
      try (exfalso; intuition (lia || congruence)).
Qed.

(** ** Saving *)

Lemma Promise_all_resolved {A B} (m1 : Async A) (m2 : Async B) w a w1 b w2 :
  m1 w = (Resolved a, w1) ->
  m2 w1 = (Resolved b, w2) ->
  Promise_all m1 m2 w = (Resolved (a, b), w2).
Proof. unfold Promise_all. by intros -> ->. Qed.

Lemma saveWalletFirebase_run filepath s w :
  saveWalletFirebase filepath s w
  = (Resolved (writable (bucket w)),
     (if writable (bucket w)
      then set_bucket (mkBucket (<[filepath := s]> (files (bucket w)))
                         (readable (bucket w)) true)
      else id)
       (set_trace (trace w ++ [Save Firebase filepath s]) w)).
Proof.
  unfold saveWalletFirebase, file_save, try_catch, emit, modify, bind, ret. simpl.
  by destruct (writable (bucket w)).
Qed.

(** The mirror write always resolves; it starts by downloading the key
    file, and then touches only the temporary directory and the bucket
    of the App Engine project. *)
Lemma saveWalletAppEngine_run s w :
  exists t g,
    saveWalletAppEngine env s w
    = (Resolved (mirrorSucceeds env w),
       set_gcpBucket g (set_tmpdir t
         (set_trace (trace w ++ Download Firebase (gcpServiceAccountFilename env)
                                :: mirrorEvents env s w) w))).
Proof.
  unfold saveWalletAppEngine, mirrorSucceeds, mirrorEvents, keyFile, file_download,
    file_save, fs_writeFileSync, fs_unlinkSync, try_catch, emit, modify, bind, ret.
  simpl.
  destruct (readable (bucket w)); simpl;
    [destruct (files (bucket w) !! gcpServiceAccountFilename env) as [k|]; simpl;
     [destruct (writable (gcpBucket w)); simpl|]|].
  - do 2 eexists. rewrite <- !app_assoc. reflexivity.
  - exists (<["keyfile.json" := k]> (tmpdir w)), (gcpBucket w).
    rewrite <- !app_assoc. by destruct w.
  - exists (tmpdir w), (gcpBucket w). by destruct w.
  - exists (tmpdir w), (gcpBucket w). by destruct w.
Qed.

Lemma saveMasterWallet_run h w info o :
  walletDoc w = Some info ->
  heap w !! h = Some o ->
  exists w',
    saveMasterWallet env h w = (Resolved (Some (clock env (ticks w)), None), w')
    /\ trace w' = trace w ++ saveEvents env info o w
    /\ walletDoc w'
       = Some (if writable (bucket w)
               then apply_update (savedAt (clock env (S (ticks w)))) info else info)
    /\ (writable (bucket w) = true ->
        files (bucket w') !! location info = Some (serialized env o))
    /\ heap w' = heap w
    /\ masterWallet w' = masterWallet w.
Proof.
  intros Hdoc Hh. unfold saveMasterWallet.
  rewrite (bind_resolved _ _ _ _ _ (getMasterWalletInfo_run w)), Hdoc.
  unfold wallet_encryptWalletToString, deref.
  erewrite bind_resolved by (unfold bind; simpl; rewrite Hh; reflexivity).
  erewrite bind_resolved by reflexivity.
  fold (serialized env o).
  set (w1 := set_ticks _ _).
  destruct (saveWalletAppEngine_run (serialized env o)
              ((if writable (bucket w1)
                then set_bucket (mkBucket (<[location info := serialized env o]>
                                             (files (bucket w1)))
                                   (readable (bucket w1)) true)
                else id)
                 (set_trace (trace w1 ++ [Save Firebase (location info) (serialized env o)])
                    w1))) as (t & g & Hmirror).
  erewrite bind_resolved.
  2:{ eapply Promise_all_resolved; [apply saveWalletFirebase_run|exact Hmirror]. }
  cbn [fst]. subst w1. cbn [writable bucket set_ticks set_trace].
  unfold saveEvents, primaryWritten.
  destruct (writable (bucket w)) eqn:Hon.
  - unfold Date_now, doc_update, emit, modify, bind, ret. simpl. rewrite Hdoc.
    eexists. split; [reflexivity|]. simpl.
    repeat split; try done.
    + rewrite <- !app_assoc. reflexivity.
    + intros _. apply lookup_insert_eq.
  - unfold bind, ret. simpl.
    eexists. split; [reflexivity|]. simpl.
    repeat split; try done.
    rewrite <- !app_assoc, app_nil_r. reflexivity.
Qed.

(** C6. With the metadata there, [saveMasterWallet] attempts the primary
    write and then the mirror write, whatever the first gave: the save
    to the primary location and the download of the key file, with which
    the mirror write begins, are in the trace in every case, and so is
    the save to the bucket of the App Engine project whenever the key
    file can be read.  Whatever the mirror write does, the result is the
    timestamp without an error and a primary write that succeeds leaves
    the blob at the primary location.  The metadata document is updated
    (and then only in [lastSaveAt]) iff the primary write succeeded. *)
Theorem saveMasterWallet_both_writes h w info o :
  walletDoc w = Some info ->
  heap w !! h = Some o ->
  exists w' mirror,
    saveMasterWallet env h w = (Resolved (Some (clock env (ticks w)), None), w')
    /\ trace w'
       = trace w
         ++ [DocGet; Save Firebase (location info) (serialized env o);
             Download Firebase (gcpServiceAccountFilename env)]
         ++ mirror
         ++ (if writable (bucket w)
             then [DocUpdate (savedAt (clock env (S (ticks w))))] else [])
    /\ existsb isDocUpdate mirror = false
    /\ (is_Some (keyFile env (primaryWritten env info o w)) ->
        Save AppEngine (gcpWalletFilename env) (serialized env o) ∈ mirror)
    /\ (writable (bucket w) = true ->
        files (bucket w') !! location info = Some (serialized env o)
        /\ walletDoc w'
           = Some (mkWalletInfo (location info) (backupsDirectory info)
                     (clock env (S (ticks w))) (lastBackupAt info)))
    /\ (writable (bucket w) = false -> walletDoc w' = Some info).
Proof.
  intros Hdoc Hh.
  destruct (saveMasterWallet_run h w info o Hdoc Hh)
    as (w' & Hrun & Htrace & Hdoc' & Hblob & _).
  exists w', (mirrorEvents env (serialized env o) (primaryWritten env info o w)).
  split; [done|]. split; [done|].
  split; [|split].
  - unfold mirrorEvents. destruct (keyFile _ _); [|done].
    by destruct (writable (gcpBucket _)).
  - intros [k Hk]. unfold mirrorEvents. rewrite Hk.
    apply elem_of_app. left. apply list_elem_of_In. simpl. auto.
  - split.
    + intros Hw. split; [by apply Hblob|]. by rewrite Hdoc', Hw.
    + intros Hw. by rewrite Hdoc', Hw.
Qed.

(** C10. [saveMasterWallet] resolves to an error only when the metadata
    document is absent.  When it is there, the result is the timestamp
    read before the writes, without an error, also when the primary
    write fails and when both writes fail; a failed primary write shows
    only in the metadata document, which is then left as it was. *)
Theorem saveMasterWallet_result h w o :
  heap w !! h = Some o ->
  exists w',
    saveMasterWallet env h w
    = (Resolved
         (match walletDoc w with
          | Some _ => (Some (clock env (ticks w)), None)
          | None => (None, Some (mkServiceError "service/master-wallet-info" None))
          end), w')
    /\ (writable (bucket w) = false -> walletDoc w' = walletDoc w)
    /\ (writable (bucket w) = false -> writable (gcpBucket w) = false ->
        bucket w' = bucket w /\ gcpBucket w' = gcpBucket w).
Proof.
  intros Hh. destruct (walletDoc w) as [info|] eqn:Hdoc.
  - destruct (saveMasterWallet_run h w info o Hdoc Hh)
      as (w' & Hrun & _ & Hdoc' & _).
    exists w'. split; [done|]. split.
    + intros Hw. by rewrite Hdoc', Hw.
    + intros Hw Hg. revert Hrun.
      unfold saveMasterWallet.
      rewrite (bind_resolved _ _ _ _ _ (getMasterWalletInfo_run w)), Hdoc.
      unfold wallet_encryptWalletToString, deref.
      erewrite bind_resolved by (unfold bind; simpl; rewrite Hh; reflexivity).
      erewrite bind_resolved by reflexivity.
      unfold Promise_all, saveWalletFirebase, saveWalletAppEngine, file_save,
        file_download, fs_writeFileSync, fs_unlinkSync, try_catch, emit, modify, bind, ret.
      simpl. rewrite Hw. simpl.
      destruct (readable (bucket w)); simpl;
        [destruct (files (bucket w) !! gcpServiceAccountFilename env); simpl;
         [rewrite Hg; simpl|]|]; by intros [= <-].
  - exists (set_trace (trace w ++ [DocGet]) w).
    unfold saveMasterWallet.
    rewrite (bind_resolved _ _ _ _ _ (getMasterWalletInfo_run w)), Hdoc.
    split; [reflexivity|]. simpl. done.
Qed.

(** ** Creation *)

Lemma truthyString_true s : truthyString s = true -> s <> "".
Proof.
  unfold truthyString. destruct (String.eqb_spec s ""); [done|]. by intros _.
Qed.

Lemma truthyZ_ne z : z <> 0 -> truthyZ z = true.
Proof. intros H. unfold truthyZ. by destruct (Z.eqb_spec z 0). Qed.

(** [createMasterWallet] up to the save, when no metadata exist and the
    new wallet starts. *)
Lemma createMasterWallet_created cfg w :
  walletDoc w = None ->
  startFault env (length (heap w)) = None ->
  createMasterWallet env cfg w
  = (let current := length (heap w) in
     let* (saveDate, saveError) := saveMasterWallet env current in
     if negb (from_option truthyZ false saveDate) then ret (None, saveError)
     else
       let* (seed, seedError) := wallet_getMnemonicSeed current in
       if negb (from_option truthyString false seed) then
         ret (None, Some (mkServiceError "service/master-wallet-info" seedError))
       else ret (seed, None))
      (set_masterWallet (Some (length (heap w)))
         (set_heap (heap w ++ [with_running true (createdWallet env cfg (length (heap w)))])
            (set_walletDoc (Some (createdInfo env (clock env (ticks w))))
               (set_ticks (S (ticks w))
                  (set_trace (trace w ++ createEvents env cfg w) w))))).
Proof.
  intros Hdoc Hs. unfold createMasterWallet.
  erewrite bind_resolved by reflexivity.
  erewrite bind_resolved.
  2:{ unfold try_catch, doc_create, emit, modify, bind, ret. simpl. rewrite Hdoc.
      reflexivity. }
  cbv beta iota.
  erewrite bind_resolved.
  2:{ unfold try_catch, WalletBackend_createWallet, assign_masterWallet, wallet_start,
        sleep, update, deref, alloc, emit, modify, bind, ret. simpl.
      rewrite Hs. simpl. rewrite lookup_fresh. simpl. rewrite insert_fresh.
      reflexivity. }
  cbv beta iota.
  unfold get at 1. unfold bind at 1. cbv beta iota. simpl masterWallet. cbv beta iota.
  unfold createEvents, createdInfo, createdWallet. rewrite <- !app_assoc. reflexivity.
Qed.

(** C7. When the metadata document exists, [createMasterWallet] resolves
    to no seed and an error with the code 'service/master-wallet-info';
    all it did is the refused [create]: the document, the singleton, the
    heap and the stores are as before.  When no document exists, the new
    wallet starts, the clock is not at 0 and the engine gives the new
    wallet a mnemonic seed, it resolves to that seed, the seed of the
    wallet that is now the singleton. *)
Theorem createMasterWallet_guard cfg w :
  (forall info,
     walletDoc w = Some info ->
     exists e,
       createMasterWallet env cfg w
       = (Resolved (None, Some e),
          set_ticks (S (ticks w))
            (set_trace (trace w ++ [DocCreate (createdInfo env (clock env (ticks w)))]) w))
       /\ errorCode e = "service/master-wallet-info")
  /\ (forall seed,
        walletDoc w = None ->
        startFault env (length (heap w)) = None ->
        clock env (S (ticks w)) <> 0 ->
        freshSeed env (length (heap w)) = Some seed ->
        seed <> "" ->
        exists w' o,
          createMasterWallet env cfg w = (Resolved (Some seed, None), w')
          /\ masterWallet w' = Some (length (heap w))
          /\ heap w' !! length (heap w) = Some o
          /\ wb_mnemonicSeed o = Some seed
          /\ is_Some (walletDoc w')).
Proof.
  split.
  - intros info Hdoc. eexists. split.
    + unfold createMasterWallet.
      erewrite bind_resolved by reflexivity.
      erewrite bind_resolved.
      2:{ unfold try_catch, doc_create, emit, modify, bind, ret. simpl. rewrite Hdoc.
          reflexivity. }
      reflexivity.
    + reflexivity.
  - intros seed Hdoc Hs Hclock Hseed Hne.
    rewrite (createMasterWallet_created cfg w Hdoc Hs). cbv zeta.
    set (w1 := set_masterWallet _ _).
    set (o := with_running true (createdWallet env cfg (length (heap w)))).
    assert (Hh : heap w1 !! length (heap w) = Some o) by apply lookup_fresh.
    destruct (saveMasterWallet_run (length (heap w)) w1
                (createdInfo env (clock env (ticks w))) o eq_refl Hh)
      as (w' & Hrun & _ & Hdoc' & _ & Hheap & Hm).
    rewrite (bind_resolved _ _ _ _ _ Hrun). cbn [from_option ticks w1 set_masterWallet
      set_heap set_walletDoc set_ticks].
    rewrite (truthyZ_ne _ Hclock). cbn [negb].
    unfold wallet_getMnemonicSeed, deref.
    rewrite <- Hheap in Hh.
    erewrite bind_resolved.
    2:{ unfold bind. rewrite Hh. simpl. rewrite Hseed. reflexivity. }
    cbn [from_option]. rewrite (truthyString_ne _ Hne). cbn [negb].
    exists w', o. by repeat split.
Qed.

(** ** What [getMasterWallet] resolves to is the singleton *)

Lemma getMasterWallet_absent cfg force rewind w :
  walletDoc w = None ->
  getMasterWallet env cfg force rewind w
  = (Resolved (None, Some (mkServiceError "service/master-wallet-info" None)),
     set_trace (trace w ++ [DocGet]) w).
Proof.
  intros Hdoc. unfold getMasterWallet.
  by rewrite (bind_resolved _ _ _ _ _ (getMasterWalletInfo_run w)), Hdoc.
Qed.

Lemma getMasterWallet_first cfg force rewind w info :
  walletDoc w = Some info ->
  masterWallet w = None ->
  getMasterWallet env cfg force rewind w
  = loadInstance env cfg rewind info (set_trace (trace w ++ [DocGet]) w).
Proof.
  intros Hdoc Hm. unfold getMasterWallet.
  rewrite (bind_resolved _ _ _ _ _ (getMasterWalletInfo_run w)), Hdoc.
  erewrite bind_resolved by reflexivity. simpl. by rewrite Hm.
Qed.

(** The first load either fails and leaves the singleton empty, or
    installs a new object. *)
Lemma loadInstance_outcomes cfg rewind info w :
  walletDoc w = Some info ->
  masterWallet w = None ->
  exists r w',
    loadInstance env cfg rewind info w = (r, w')
    /\ (((forall v e, r <> Resolved (Some v, e)) /\ masterWallet w' = None)
        \/ (r = Resolved (Some (length (heap w)), None)
            /\ masterWallet w' = Some (length (heap w))
            /\ is_Some (heap w' !! length (heap w)))).
Proof.
  intros Hdoc Hm. unfold loadInstance.
  rewrite (bind_resolved _ _ _ _ _ (getMasterWalletString_run w info Hdoc)).
  destruct (readable (bucket w)); [destruct (files (bucket w) !! location info) as [blob|]|].
  2,3: do 2 eexists; split; [reflexivity|]; left; done.
  destruct (truthyString blob); cbn [negb].
  2: do 2 eexists; split; [reflexivity|]; left; done.
  set (w1 := set_trace _ w).
  destruct (decrypt env blob (serviceadmin_password env)) as [d|] eqn:Hd.
  2:{ erewrite bind_resolved by (by apply startWalletFromString_undecryptable).
      do 2 eexists; split; [reflexivity|]; left; done. }
  destruct (startFault env (length (heap w1))) as [e|] eqn:Hs.
  { destruct (startWalletFromString_fault blob (daemonHost cfg) (daemonPort cfg) w1 d e
                Hd Hs) as (w' & Hrun & _ & Hm').
    erewrite bind_rejected by exact Hrun.
    do 2 eexists; split; [reflexivity|]; left. split; [done|]. by rewrite Hm'. }
  erewrite bind_resolved by (by apply startWalletFromString_run).
  cbv beta iota.
  destruct (0 <? rewind).
  - erewrite bind_resolved by (apply rewindWallet_run; simpl; apply lookup_fresh).
    erewrite bind_resolved by reflexivity.
    erewrite bind_resolved by reflexivity.
    do 2 eexists; split; [reflexivity|]; right. simpl.
    repeat split. rewrite insert_fresh, lookup_fresh. eauto.
  - erewrite bind_resolved by reflexivity.
    erewrite bind_resolved by reflexivity.
    erewrite bind_resolved by reflexivity.
    do 2 eexists; split; [reflexivity|]; right. simpl.
    repeat split. rewrite lookup_fresh. eauto.
Qed.

Lemma getMasterWallet_installed cfg force rewind w h e w' :
  singletonValid w ->
  getMasterWallet env cfg force rewind w = (Resolved (Some h, e), w') ->
  masterWallet w' = Some h /\ is_Some (heap w' !! h).
Proof.
  intros Hvalid Hrun.
  destruct (walletDoc w) as [info|] eqn:Hdoc.
  2:{ by rewrite getMasterWallet_absent in Hrun. }
  destruct (masterWallet w) as [m|] eqn:Hm.
  - destruct (Hvalid m Hm) as [o Ho].
    destruct (getMasterWallet_decision cfg force rewind w info m o Hdoc Hm Ho) as [n Hn].
    rewrite Hn in Hrun. clear Hn.
    destruct (restartNeeded env cfg info o w || force).
    + destruct (swapInstance_outcomes cfg rewind info m o
                  (set_ticks n (set_trace (trace w ++ [DocGet]) w)) Hdoc Ho)
        as (r & w'' & rest & Hswap & _ & Hcases).
      rewrite Hswap in Hrun. injection Hrun as -> ->.
      destruct Hcases as [(_ & Hr & _)|(pre & _ & _ & Hr & Hnew & _ & _ & Hinst)].
      * by destruct (Hr h e).
      * by injection Hr as -> ->.
    + injection Hrun as <- <- <-. simpl. rewrite Hm, Ho. eauto.
  - rewrite (getMasterWallet_first cfg force rewind w info Hdoc Hm) in Hrun.
    destruct (loadInstance_outcomes cfg rewind info (set_trace (trace w ++ [DocGet]) w)
                Hdoc Hm) as (r & w'' & Hload & Hcases).
    rewrite Hload in Hrun. injection Hrun as -> ->.
    destruct Hcases as [(Hr & _)|(Hr & Hnew & Hinst)].
    + by destruct (Hr h e).
    + by injection Hr as -> ->.
Qed.

(** After the singleton is cleared, an acquisition that resolves to a
    handle resolves to a new object. *)
Lemma getMasterWallet_from_scratch cfg force rewind w h e w' :
  masterWallet w = None ->
  getMasterWallet env cfg force rewind w = (Resolved (Some h, e), w') ->
  h = length (heap w) /\ masterWallet w' = Some h.
Proof.
  intros Hm Hrun.
  destruct (walletDoc w) as [info|] eqn:Hdoc.
  2:{ by rewrite getMasterWallet_absent in Hrun. }
  rewrite (getMasterWallet_first cfg force rewind w info Hdoc Hm) in Hrun.
  destruct (loadInstance_outcomes cfg rewind info (set_trace (trace w ++ [DocGet]) w)
              Hdoc Hm) as (r & w'' & Hload & Hcases).
  rewrite Hload in Hrun. injection Hrun as -> ->.
  destruct Hcases as [(Hr & _)|(Hr & Hnew & Hinst)].
  - by destruct (Hr h e).
  - by injection Hr as -> ->.
Qed.

(** The sync wait leaves the singleton alone and the handle valid. *)
Lemma waitForWalletSync_frame h timeout w o :
  heap w !! h = Some o ->
  exists synced w',
    waitForWalletSync env h timeout w = (Resolved synced, w')
    /\ masterWallet w' = masterWallet w
    /\ is_Some (heap w' !! h).
Proof.
  intros Hh.
  assert (Hlt : (h < length (heap w))%nat) by (eapply lookup_lt_Some; eauto).
  unfold waitForWalletSync.
  rewrite (bind_resolved _ _ _ _ _ (getWalletSyncInfo_run h w o Hh)).
  cbn [heightDelta].
  destruct (wb_networkHeight o - wb_walletHeight o <=? 2).
  { exists true, w. rewrite Hh. eauto. }
  rewrite (bind_resolved _ _ _ _ _ (wallet_on_run h "sync" w o Hh)).
  erewrite bind_resolved by reflexivity.
  erewrite bind_resolved.
  2:{ apply suspend_run. simpl. by apply list_lookup_insert_eq. }
  cbn [waits set_trace set_heap heap]. rewrite list_insert_insert_eq.
  destruct (sr_syncEmitted _).
  - erewrite bind_resolved by reflexivity.
    do 2 eexists. split; [reflexivity|]. simpl. split; [done|].
    rewrite list_lookup_insert_eq by done. eauto.
  - erewrite afterWait_run.
    2:{ simpl. by apply list_lookup_insert_eq. }
    do 2 eexists. split; [reflexivity|]. simpl. split; [done|].
    rewrite list_lookup_insert_eq by done. eauto.
Qed.

(** C8. When [getServiceWallet] is called with [waitForSync], the
    acquisition has resolved to a handle and the sync wait on it to
    [false], then the handle is the singleton, and the call ends with:
    [stop()] on it, [removeAllListeners()] on it, and the singleton set
    to undefined; it resolves to no wallet and the error
    'service/master-wallet-sync-failed'.  The next acquisition finds no
    instance: if it resolves to a handle, that is a new object. *)
Theorem getServiceWallet_sync_failed w cfg configError h e w1 w2 :
  singletonValid w ->
  configResult w = (Some cfg, configError) ->
  serviceHalted cfg = false ->
  getMasterWallet env cfg false 40 w = (Resolved (Some h, e), w1) ->
  waitForWalletSync env h (waitForSyncTimeout cfg) (set_ticks (S (ticks w1)) w1)
  = (Resolved false, w2) ->
  exists w' o,
    getServiceWallet env true w
    = (Resolved (None, Some (mkServiceError "service/master-wallet-sync-failed" None)), w')
    /\ masterWallet w2 = Some h
    /\ heap w2 !! h = Some o
    /\ trace w' = trace w2 ++ [Stop h; RemoveAllListeners h; AssignMasterWallet None]
    /\ masterWallet w' = None
    /\ heap w' !! h = Some (with_syncListeners 0 (with_running false o))
    /\ forall cfg' force rewind h' e' w'',
         getMasterWallet env cfg' force rewind w' = (Resolved (Some h', e'), w'') ->
         h' = length (heap w') /\ h' <> h.
Proof.
  intros Hvalid Hcfg Hhalt Hget Hwait.
  destruct (getMasterWallet_installed cfg false 40 w h e w1 Hvalid Hget) as [Hm1 [o1 Ho1]].
  destruct (waitForWalletSync_frame h (waitForSyncTimeout cfg)
              (set_ticks (S (ticks w1)) w1) o1 Ho1) as (b & w2' & Hwait' & Hm2 & [o Ho]).
  rewrite Hwait in Hwait'. injection Hwait' as <- <-.
  simpl in Hm2. rewrite Hm1 in Hm2.
  assert (Hlt : (h < length (heap w2))%nat) by (eapply lookup_lt_Some; eauto).
  unfold getServiceWallet, ServiceModule_getServiceConfig.
  erewrite bind_resolved by reflexivity. rewrite Hcfg, Hhalt.
  rewrite (bind_resolved _ _ _ _ _ Hget). cbn [negb].
  erewrite bind_resolved by reflexivity.
  rewrite (bind_resolved _ _ _ _ _ Hwait).
  erewrite bind_resolved by reflexivity. cbn [negb].
  erewrite bind_resolved by reflexivity. simpl masterWallet. rewrite Hm2.
  erewrite bind_resolved.
  2:{ erewrite bind_resolved by (apply wallet_stop_run; simpl; exact Ho).
      erewrite bind_resolved.
      2:{ apply wallet_removeAllListeners_run. simpl. by apply list_lookup_insert_eq. }
      reflexivity. }
  eexists _, o. split; [reflexivity|]. simpl.
  split; [done|]. split; [done|]. split; [by rewrite <- !app_assoc|]. split; [done|].
  split.
  { rewrite list_insert_insert_eq. by apply list_lookup_insert_eq. }
  intros cfg' force rewind h' e' w'' Hnext.
  apply getMasterWallet_from_scratch in Hnext as [-> _]; [|done].
  split; [reflexivity|]. simpl. rewrite !length_insert. lia.
Qed.

(** ** The remote wallet *)

Lemma getCloudWalletStatus_run token w :
  getCloudWalletStatus env token w
  = (Resolved (if rw_reachable (remote w) then Some (remote_status (remote w)) else None),
     set_trace (trace w ++ [HttpGet (cloudwallet_api_base env +:+ "/status") token]) w).
Proof.
  unfold getCloudWalletStatus, axios_get_status, try_catch, emit, modify, bind, ret.
  simpl. by destruct (rw_reachable (remote w)).
Qed.

(** What [warmupAppEngineWallet] does, case by case: the start call is
    issued iff the status was fetched and [restartRequired] holds of it. *)
Lemma warmupAppEngineWallet_run token cfg w :
  let asked := set_trace (trace w ++ [HttpGet (cloudwallet_api_base env +:+ "/status") token]) w in
  if rw_reachable (remote w) then
    if restartRequired (remote_status (remote w)) cfg then
      exists w',
        warmupAppEngineWallet env token cfg w = (Resolved (rw_startable (remote w)), w')
        /\ trace w'
           = trace asked
             ++ [HttpPost (cloudwallet_api_base env +:+ "/start") token
                   (mkStartWalletRequest (daemonHost cfg) (daemonPort cfg))]
    else warmupAppEngineWallet env token cfg w = (Resolved true, asked)
  else warmupAppEngineWallet env token cfg w = (Resolved false, asked).
Proof.
  intros asked. unfold warmupAppEngineWallet.
  rewrite (bind_resolved _ _ _ _ _ (getCloudWalletStatus_run token w)).
  destruct (rw_reachable (remote w)) eqn:Hr; [|done].
  destruct (restartRequired (remote_status (remote w)) cfg); cbn [negb]; [|done].
  unfold startAppEngineWallet, axios_post_start, try_catch, emit, modify, bind, ret.
  simpl. rewrite Hr. eexists. split; reflexivity.
Qed.

(** A started remote wallet whose status gives the configured host and
    an uptime of at most four hours is not restarted. *)
Lemma warmupAppEngineWallet_same_host token cfg w up :
  rw_reachable (remote w) = true ->
  rw_started (remote w) = true ->
  rw_daemonHost (remote w) = Some (daemonHost cfg) ->
  rw_uptime (remote w) = Some up ->
  up <= 1000 * 60 * 60 * 4 ->
  warmupAppEngineWallet env token cfg w
  = (Resolved true,
     set_trace (trace w ++ [HttpGet (cloudwallet_api_base env +:+ "/status") token]) w).
Proof.
  intros Hr Hs Hhost Hup Hle.
  pose proof (warmupAppEngineWallet_run token cfg w) as Hrun.
  cbv zeta in Hrun. rewrite Hr in Hrun.
  assert (Hno : restartRequired (remote_status (remote w)) cfg = false).
  { unfold restartRequired, remote_status, host_ne. simpl. rewrite Hs, Hhost, Hup. simpl.
    rewrite bool_decide_eq_true_2 by done. simpl.
    destruct (Z.ltb_spec (1000 * 60 * 60 * 4) up); [lia|]. by rewrite andb_false_r. }
  by rewrite Hno in Hrun.
Qed.

(** ** The older variant, where it differs *)

(** There, a wallet one block behind waits, and a wait without 'sync'
    resolves to [false] whatever the heights have become. *)
Lemma legacy_waitForWalletSync_behind h timeout w o :
  heap w !! h = Some o ->
  wb_walletHeight o < wb_networkHeight o ->
  sr_syncEmitted (syncRun env (waits w)) = false ->
  exists w',
    Legacy.waitForWalletSync env h timeout w = (Resolved false, w')
    /\ trace w' = trace w ++ [On h "sync"; Sleep timeout].
Proof.
  intros Hh Hbehind Hquiet.
  assert (Hlt : (h < length (heap w))%nat) by (eapply lookup_lt_Some; eauto).
  unfold Legacy.waitForWalletSync, wallet_getSyncStatus, deref.
  erewrite bind_resolved by (unfold bind; rewrite Hh; reflexivity).
  cbv beta iota.
  destruct (Z.leb_spec (wb_networkHeight o) (wb_walletHeight o)); [lia|].
  rewrite (bind_resolved _ _ _ _ _ (wallet_on_run h "sync" w o Hh)).
  erewrite bind_resolved by reflexivity.
  erewrite bind_resolved.
  2:{ apply suspend_run. simpl. by apply list_lookup_insert_eq. }
  cbn [waits set_trace set_heap heap]. rewrite Hquiet.
  eexists. split; [reflexivity|]. simpl. by rewrite <- !app_assoc.
Qed.

(** There, the persisted [lastSaveAt] plays no part: an instance on the
    configured peer and within its lifetime is returned, and not even
    the metadata are read. *)
Lemma legacy_getMasterWallet_reuse cfg w h o :
  masterWallet w = Some h ->
  heap w !! h = Some o ->
  d_host (wb_daemon o) = daemonHost cfg ->
  d_port (wb_daemon o) = daemonPort cfg ->
  (forall t, masterWalletStartedAt w = Some t -> clock env (ticks w) < t + 1000 * 60 * 10) ->
  exists n, Legacy.getMasterWallet env cfg w = (Resolved (Some h, None), set_ticks n w).
Proof.
  intros Hm Hh Hhost Hport Hage.
  destruct (lifetimeExceeded_run w) as [n Hn]. exists n.
  unfold Legacy.getMasterWallet.
  erewrite bind_resolved by reflexivity. rewrite Hm.
  unfold wallet_getDaemonConnectionInfo, deref.
  erewrite bind_resolved by (unfold bind; rewrite Hh; reflexivity).
  rewrite (bind_resolved _ _ _ _ _ Hn).
  rewrite Hhost, Hport, String.eqb_refl, Z.eqb_refl.
  assert (Hfresh : expiredAt (masterWalletStartedAt w) (clock env (ticks w)) = false).
  { unfold expiredAt. destruct (masterWalletStartedAt w) as [t|]; [|done].
    specialize (Hage t eq_refl).
    destruct (Z.leb_spec (t + 1000 * 60 * 10) (clock env (ticks w))); [lia|].
    by rewrite andb_false_r. }
  by rewrite Hfresh.
Qed.

(** There, a failed sync wait leaves the instance in place. *)
Lemma legacy_getServiceWallet_sync_failed w cfg configError h e w1 w2 :
  configResult w = (Some cfg, configError) ->
  serviceHalted cfg = false ->
  Legacy.getMasterWallet env cfg w = (Resolved (Some h, e), w1) ->
  Legacy.waitForWalletSync env h (waitForSyncTimeout cfg) (set_ticks (S (ticks w1)) w1)
  = (Resolved false, w2) ->
  Legacy.getServiceWallet env true w
  = (Resolved (None, Some (mkServiceError "service/master-wallet-sync-failed" None)),
     set_ticks (S (ticks w2)) w2).
Proof.
  intros Hcfg Hhalt Hget Hwait.
  unfold Legacy.getServiceWallet, ServiceModule_getServiceConfig.
  erewrite bind_resolved by reflexivity. rewrite Hcfg, Hhalt.
  rewrite (bind_resolved _ _ _ _ _ Hget). cbn [negb].
  erewrite bind_resolved by reflexivity.
  rewrite (bind_resolved _ _ _ _ _ Hwait).
  erewrite bind_resolved by reflexivity.
  reflexivity.
Qed.

End Properties.

(** * The scenarios, run *)

(** The scenario of the spec: metadata [{lastSaveAt: 100}], baseline 100,
    peer unchanged, age five minutes. *)
Lemma getMasterWallet_reuse_witness :
  exists n,
    getMasterWallet Scenario.env Scenario.config false 40 (Scenario.serving 100)
    = (Resolved (Some 0%nat, None),
       set_ticks n (set_trace [DocGet] (Scenario.serving 100))).
Proof.
  apply (getMasterWallet_reuse Scenario.env Scenario.config 40 (Scenario.serving 100)
           (Scenario.info 100) 0%nat Scenario.instance); try reflexivity.
  intros t [= <-]. reflexivity.
Defined.

(** The scenario of the spec: metadata [{lastSaveAt: 200}], baseline 100. *)
Lemma getMasterWallet_stale_save_witness :
  exists w',
    getMasterWallet Scenario.env Scenario.config false 40 (Scenario.serving 200)
    = (Resolved (Some 1%nat, None), w')
    /\ masterWallet w' = Some 1%nat
    /\ masterWalletLastSaveAt w' = Some 200.
Proof.
  destruct (getMasterWallet_stale_save Scenario.env Scenario.config false 40
              (Scenario.serving 200) (Scenario.info 200) 0%nat Scenario.instance)
    as (r & w' & rest & Hrun & _ & Hok); [reflexivity | reflexivity | reflexivity | |].
  { discriminate. }
  destruct (Hok "alpha bravo charlie" (mkWalletData (Some "alpha bravo charlie") 90))
    as (-> & _ & Hm & _ & _ & Hb); [reflexivity | reflexivity | | reflexivity | reflexivity |].
  { discriminate. }
  exists w'. split; [exact Hrun|]. split; [exact Hm|exact Hb].
Defined.

(** The peer of the configuration has moved to another port. *)
Lemma getMasterWallet_swap_order_witness :
  exists w' evs,
    getMasterWallet Scenario.env Scenario.movedConfig false 40 (Scenario.serving 100)
    = (Resolved (Some 1%nat, None), w')
    /\ trace w' = evs
    /\ countStops 0 evs = 1%nat.
Proof.
  destruct (getMasterWallet_swap_order Scenario.env Scenario.movedConfig false 40
              (Scenario.serving 100) (Scenario.info 100) 0%nat Scenario.instance)
    as (r & w' & evs & Hrun & Htrace & Hcases & Hok);
    [reflexivity | reflexivity | reflexivity | reflexivity |].
  assert (Hr : r = Resolved (Some 1%nat, None)).
  { apply (Hok "alpha bravo charlie" (mkWalletData (Some "alpha bravo charlie") 90));
      [reflexivity | reflexivity | discriminate | reflexivity | reflexivity]. }
  exists w', evs. split; [by rewrite Hrun, Hr|]. split; [exact Htrace|].
  destruct Hcases as [(_ & _ & Hno)|(pre & _ & _ & _ & _ & _ & Hcount & _)].
  - destruct (Hno 1%nat None Hr).
  - exact Hcount.
Defined.

Lemma waitForWalletSync_synced_witness :
  waitForWalletSync Scenario.env 0 5000 (Scenario.holding Scenario.syncedInstance 100)
  = (Resolved true, Scenario.holding Scenario.syncedInstance 100).
Proof.
  apply (waitForWalletSync_synced Scenario.env 0 5000
           (Scenario.holding Scenario.syncedInstance 100) Scenario.syncedInstance).
  - reflexivity.
  - vm_compute. discriminate.
Defined.

(** Twenty blocks behind; three blocks are processed during the wait
    and no 'sync' comes: not synced, and the node is kept. *)
Lemma waitForWalletSync_race_witness :
  exists w',
    waitForWalletSync Scenario.env 0 5000 (Scenario.serving 100) = (Resolved false, w')
    /\ trace w' = [On 0 "sync"; Sleep 5000].
Proof.
  destruct (waitForWalletSync_race Scenario.env 0 5000 (Scenario.serving 100)
              Scenario.instance) as (synced & w' & evs & Hrun & Htrace & Hslow & _).
  - reflexivity.
  - reflexivity.
  - destruct (Hslow eq_refl) as (Hsynced & _ & Hnone & _).
    assert (Hs : synced = false).
    { destruct synced; [|reflexivity].
      destruct Hsynced as [Hle _]. specialize (Hle eq_refl).
      vm_compute in Hle. destruct (Hle eq_refl). }
    assert (He : evs = []).
    { apply Hnone. intros [_ Hlt]. vm_compute in Hlt. discriminate Hlt. }
    subst synced evs. exists w'. split; [exact Hrun|exact Htrace].
Defined.

(** A save with both buckets writable and no key file for the mirror. *)
Lemma saveMasterWallet_both_writes_witness :
  exists w',
    saveMasterWallet Scenario.env 0 (Scenario.serving 100) = (Resolved (Some 1300000, None), w')
    /\ trace w'
       = [DocGet; Save Firebase "wallets/master.bin" "alpha bravo charlie";
          Download Firebase "gcp_account.json";
          DocUpdate (mkWalletInfoUpdate (Some 1300001) None)]
    /\ walletDoc w' = Some (Scenario.info 1300001).
Proof.
  destruct (saveMasterWallet_both_writes Scenario.env 0 (Scenario.serving 100)
              (Scenario.info 100) Scenario.instance)
    as (w' & mirror & Hrun & Htrace & _ & _ & Hprimary & _); [reflexivity | reflexivity |].
  destruct (Hprimary eq_refl) as [_ Hdoc].
  exists w'. split; [exact Hrun|]. split; [|exact Hdoc].
  revert Hrun Htrace. vm_compute. intros [= <-]. reflexivity.
Defined.

Lemma saveMasterWallet_result_witness :
  exists w',
    saveMasterWallet Scenario.env 0 (Scenario.serving 100)
    = (Resolved (Some 1300000, None), w').
Proof.
  destruct (saveMasterWallet_result Scenario.env 0 (Scenario.serving 100) Scenario.instance)
    as (w' & Hrun & _); [reflexivity|].
  exists w'. exact Hrun.
Defined.

(** A second creation is refused; a first one gives the seed. *)
Lemma createMasterWallet_guard_witness :
  (exists e w',
     createMasterWallet Scenario.env Scenario.config (Scenario.serving 100)
     = (Resolved (None, Some e), w')
     /\ errorCode e = "service/master-wallet-info"
     /\ walletDoc w' = Some (Scenario.info 100))
  /\ (exists w',
        createMasterWallet Scenario.env Scenario.config Scenario.blank
        = (Resolved (Some "alpha bravo charlie", None), w')).
Proof.
  destruct (createMasterWallet_guard Scenario.env Scenario.config (Scenario.serving 100))
    as [Hguard _].
  destruct (createMasterWallet_guard Scenario.env Scenario.config Scenario.blank)
    as [_ Hfirst].
  split.
  - destruct (Hguard (Scenario.info 100) eq_refl) as (e & Hrun & Hcode).
    exists e. eexists. split; [exact Hrun|]. split; [exact Hcode|reflexivity].
  - destruct (Hfirst "alpha bravo charlie") as (w' & o & Hrun & _);
      [reflexivity | reflexivity | discriminate | reflexivity | discriminate |].
    exists w'. exact Hrun.
Defined.

(** The wallet stays twenty blocks behind during the wait of
    [getServiceWallet]: the instance is discarded. *)
Lemma getServiceWallet_sync_failed_witness :
  exists w',
    getServiceWallet Scenario.env true (Scenario.serving 100)
    = (Resolved (None, Some (mkServiceError "service/master-wallet-sync-failed" None)), w')
    /\ masterWallet w' = None
    /\ trace w'
       = [DocGet; On 0 "sync"; Sleep 5000; Stop 0; RemoveAllListeners 0;
          AssignMasterWallet None].
Proof.
  pose (w1 := (getMasterWallet Scenario.env Scenario.config false 40
                 (Scenario.serving 100)).2).
  pose (w2 := (waitForWalletSync Scenario.env 0 5000 (set_ticks (S (ticks w1)) w1)).2).
  destruct (getServiceWallet_sync_failed Scenario.env (Scenario.serving 100)
              Scenario.config None 0%nat None w1 w2)
    as (w' & o & Hrun & _ & _ & Htrace & Hm & _).
  - intros m [= <-]. eexists. reflexivity.
  - reflexivity.
  - reflexivity.
  - reflexivity.
  - reflexivity.
  - exists w'. split; [exact Hrun|]. split; [exact Hm|]. rewrite Htrace. reflexivity.
Defined.

(** * Further properties of the code *)

Section MoreProperties.

Variable env : Env.

(** ** The registry *)

Lemma loadInstance_run cfg rewind info blob d w :
  walletDoc w = Some info ->
  readable (bucket w) = true ->
  files (bucket w) !! location info = Some blob ->
  truthyString blob = true ->
  decrypt env blob (serviceadmin_password env) = Some d ->
  startFault env (length (heap w)) = None ->
  exists w',
    loadInstance env cfg rewind info w = (Resolved (Some (length (heap w)), None), w')
    /\ trace w' = trace w ++ loadEvents rewind info d (length (heap w))
    /\ masterWallet w' = Some (length (heap w))
    /\ masterWalletLastSaveAt w' = Some (lastSaveAt info)
    /\ masterWalletStartedAt w' = Some (clock env (ticks w))
    /\ heap w' = heap w ++ [installedWallet env cfg rewind d]
    /\ walletDoc w' = walletDoc w.
Proof.
  intros Hdoc Hon Hblob Htruthy Hd Hs.
  unfold loadInstance.
  rewrite (bind_resolved _ _ _ _ _ (getMasterWalletString_run w info Hdoc)).
  rewrite Hon, Hblob, Htruthy. cbn [negb].
  erewrite bind_resolved by (apply startWalletFromString_run; eauto).
  cbv beta iota.
  unfold loadEvents, installedWallet.
  destruct (0 <? rewind) eqn:Hrw.
  - erewrite bind_resolved by (apply rewindWallet_run; simpl; apply lookup_fresh).
    erewrite bind_resolved by reflexivity.
    erewrite bind_resolved by reflexivity.
    eexists. split; [reflexivity|]. simpl. rewrite insert_fresh.
    repeat split. by rewrite <- !app_assoc.
  - erewrite bind_resolved by reflexivity.
    erewrite bind_resolved by reflexivity.
    erewrite bind_resolved by reflexivity.
    eexists. split; [reflexivity|]. simpl.
    repeat split. by rewrite <- !app_assoc.
Qed.

(** X1. The first acquisition of a process: no instance yet, the
    metadata and the blob are there, the blob decrypts and the wallet
    starts.  [getMasterWallet] resolves to a new object, bound to the
    configured peer, rewound by the given distance below the height of
    the blob, which becomes the singleton; the baseline is the persisted
    [lastSaveAt], the start time the reading of the clock; nothing is
    stopped. *)
Theorem getMasterWallet_first_load cfg force rewind w info blob d :
  walletDoc w = Some info ->
  masterWallet w = None ->
  readable (bucket w) = true ->
  files (bucket w) !! location info = Some blob ->
  blob <> "" ->
  decrypt env blob (serviceadmin_password env) = Some d ->
  startFault env (length (heap w)) = None ->
  exists w',
    getMasterWallet env cfg force rewind w = (Resolved (Some (length (heap w)), None), w')
    /\ trace w' = trace w ++ DocGet :: loadEvents rewind info d (length (heap w))
    /\ masterWallet w' = Some (length (heap w))
    /\ heap w' = heap w ++ [installedWallet env cfg rewind d]
    /\ masterWalletLastSaveAt w' = Some (lastSaveAt info)
    /\ masterWalletStartedAt w' = Some (clock env (ticks w)).
Proof.
  intros Hdoc Hm Hon Hblob Hne Hd Hs.
  rewrite (getMasterWallet_first env cfg force rewind w info Hdoc Hm).
  destruct (loadInstance_run cfg rewind info blob d (set_trace (trace w ++ [DocGet]) w))
    as (w' & Hrun & Htrace & Hnew & Hbase & Hstart & Hheap & _);
    try done; [by apply truthyString_ne|].
  exists w'. repeat split; try done.
  rewrite Htrace. simpl. by rewrite <- app_assoc.
Qed.

(** X2. With an instance and the metadata there, the policy decides
    alone: when none of the three tests asks for a restart and the
    caller does not force one, the handle is returned after the read of
    the metadata and nothing else; otherwise the metadata are read again
    and the blob is fetched, whatever comes of it. *)
Theorem getMasterWallet_policy_exact cfg force rewind w info h o :
  walletDoc w = Some info ->
  masterWallet w = Some h ->
  heap w !! h = Some o ->
  exists r w' evs,
    getMasterWallet env cfg force rewind w = (r, w')
    /\ trace w' = trace w ++ evs
    /\ (restartNeeded env cfg info o w || force = false ->
        r = Resolved (Some h, None) /\ evs = [DocGet] /\ masterWallet w' = Some h)
    /\ (restartNeeded env cfg info o w || force = true ->
        exists rest,
          evs = [DocGet; DocGet; Download Firebase (location info)] ++ rest).
Proof.
  intros Hdoc Hm Hh.
  destruct (getMasterWallet_decision env cfg force rewind w info h o Hdoc Hm Hh) as [n Hrun].
  destruct (restartNeeded env cfg info o w || force).
  - destruct (swapInstance_outcomes env cfg rewind info h o
                (set_ticks n (set_trace (trace w ++ [DocGet]) w)) Hdoc Hh)
      as (r & w' & rest & Hswap & Htrace & _).
    exists r, w', ([DocGet; DocGet; Download Firebase (location info)] ++ rest).
    split; [by rewrite Hrun|]. split.
    { rewrite Htrace. simpl. by rewrite <- app_assoc. }
    split; [done|]. intros _. by exists rest.
  - eexists _, _, [DocGet]. split; [exact Hrun|]. by repeat split.
Qed.

(** X3. The ten minutes, to the millisecond: for an instance on the
    configured peer whose baseline is the persisted [lastSaveAt], an
    unforced [getMasterWallet] fetches the blob iff the start time is
    set, is not 0, and the clock has reached it plus 600000; at 599999
    the instance is kept, and an instance without a start time never
    expires. *)
Theorem getMasterWallet_lifetime cfg rewind w info h o :
  walletDoc w = Some info ->
  masterWallet w = Some h ->
  heap w !! h = Some o ->
  d_host (wb_daemon o) = daemonHost cfg ->
  d_port (wb_daemon o) = daemonPort cfg ->
  masterWalletLastSaveAt w = Some (lastSaveAt info) ->
  exists r w' evs,
    getMasterWallet env cfg false rewind w = (r, w')
    /\ trace w' = trace w ++ evs
    /\ (existsb isDownload evs = true
        <-> exists t, masterWalletStartedAt w = Some t /\ t <> 0
                      /\ t + 600000 <= clock env (ticks w)).
Proof.
  intros Hdoc Hm Hh Hhost Hport Hbase.
  assert (exists r w' evs,
             getMasterWallet env cfg false rewind w = (r, w')
             /\ trace w' = trace w ++ evs
             /\ (restartNeeded env cfg info o w || false = false ->
                 r = Resolved (Some h, None) /\ evs = [DocGet] /\ masterWallet w' = Some h)
             /\ (restartNeeded env cfg info o w || false = true ->
                 exists rest,
                   evs = [DocGet; DocGet; Download Firebase (location info)] ++ rest))
    as (r & w' & evs & Hrun & Htrace & Hkeep & Hswap).
  { destruct (getMasterWallet_decision env cfg false rewind w info h o Hdoc Hm Hh)
      as [n Hrun].
    destruct (restartNeeded env cfg info o w || false).
    - destruct (swapInstance_outcomes env cfg rewind info h o
                  (set_ticks n (set_trace (trace w ++ [DocGet]) w)) Hdoc Hh)
        as (r & w' & rest & Hswap & Htrace & _).
      exists r, w', ([DocGet; DocGet; Download Firebase (location info)] ++ rest).
      split; [by rewrite Hrun|]. split.
      { rewrite Htrace. simpl. by rewrite <- app_assoc. }
      split; [done|]. intros _. by exists rest.
    - eexists _, _, [DocGet]. split; [exact Hrun|]. by repeat split. }
  exists r, w', evs. split; [done|]. split; [done|].
  assert (Hpolicy : restartNeeded env cfg info o w || false
                    = expiredAt (masterWalletStartedAt w) (clock env (ticks w))).
  { unfold restartNeeded, peerDiffers.
    rewrite Hhost, Hport, String.eqb_refl, Z.eqb_refl, Hbase, strict_ne_false.
    simpl. by rewrite !orb_false_r. }
  rewrite Hpolicy in Hkeep, Hswap. unfold expiredAt in *.
  destruct (masterWalletStartedAt w) as [t|].
  - unfold truthyZ in *.
    destruct (Z.eqb_spec t 0) as [Hz|Hnz]; simpl in *.
    + destruct (Hkeep eq_refl) as (_ & -> & _).
      split; [done|]. intros (t' & [= <-] & Hne & _). done.
    + destruct (Z.leb_spec (t + 1000 * 60 * 10) (clock env (ticks w))).
      * destruct (Hswap eq_refl) as (rest & ->). split; [|done].
        intros _. exists t. repeat split; [done|lia].
      * destruct (Hkeep eq_refl) as (_ & -> & _).
        split; [done|]. intros (t' & [= <-] & _ & Hle). lia.
  - destruct (Hkeep eq_refl) as (_ & -> & _).
    split; [done|]. by intros (t & ? & _).
Qed.

Lemma swapInstance_none cfg rewind info h o w err w' :
  walletDoc w = Some info ->
  heap w !! h = Some o ->
  swapInstance env cfg rewind info h w = (Resolved (None, err), w') ->
  (exists e, err = Some e /\ errorCode e = "service/master-wallet-file")
  /\ w' = set_trace (trace w ++ [DocGet; Download Firebase (location info)]) w.
Proof.
  intros Hdoc Hh.
  destruct (readable (bucket w)) eqn:Hon;
    [destruct (files (bucket w) !! location info) as [blob|] eqn:Hblob;
     [destruct (truthyString blob) eqn:Htruthy;
      [destruct (decrypt env blob (serviceadmin_password env)) as [d|] eqn:Hd;
       [destruct (startFault env (length (heap w))) as [e|] eqn:Hs|]|]|]|].
  2:{ destruct (swapInstance_run env cfg rewind info h o blob d w) as (w'' & -> & _);
        done. }
  all: unfold swapInstance;
    rewrite (bind_resolved _ _ _ _ _ (getMasterWalletString_run w info Hdoc));
    rewrite Hon, ?Hblob, ?Htruthy; cbn [negb].
  - destruct (startWalletFromString_fault env blob (daemonHost cfg) (daemonPort cfg)
                (set_trace (trace w ++ [DocGet; Download Firebase (location info)]) w)
                d e Hd Hs) as (w'' & Hrun & _).
    by erewrite bind_rejected by exact Hrun.
  - erewrite bind_resolved by (by apply startWalletFromString_undecryptable).
    intros [= <- <-]. eauto.
  - intros [= <- <-]. eauto.
  - intros [= <- <-]. eauto.
  - intros [= <- <-]. eauto.
Qed.

Lemma loadInstance_none cfg rewind info w err w' :
  walletDoc w = Some info ->
  loadInstance env cfg rewind info w = (Resolved (None, err), w') ->
  (exists e, err = Some e /\ errorCode e = "service/master-wallet-file")
  /\ w' = set_trace (trace w ++ [DocGet; Download Firebase (location info)]) w.
Proof.
  intros Hdoc.
  destruct (readable (bucket w)) eqn:Hon;
    [destruct (files (bucket w) !! location info) as [blob|] eqn:Hblob;
     [destruct (truthyString blob) eqn:Htruthy;
      [destruct (decrypt env blob (serviceadmin_password env)) as [d|] eqn:Hd;
       [destruct (startFault env (length (heap w))) as [e|] eqn:Hs|]|]|]|].
  2:{ destruct (loadInstance_run cfg rewind info blob d w) as (w'' & -> & _); done. }
  all: unfold loadInstance;
    rewrite (bind_resolved _ _ _ _ _ (getMasterWalletString_run w info Hdoc));
    rewrite Hon, ?Hblob, ?Htruthy; cbn [negb].
  - destruct (startWalletFromString_fault env blob (daemonHost cfg) (daemonPort cfg)
                (set_trace (trace w ++ [DocGet; Download Firebase (location info)]) w)
                d e Hd Hs) as (w'' & Hrun & _).
    by erewrite bind_rejected by exact Hrun.
  - erewrite bind_resolved by (by apply startWalletFromString_undecryptable).
    intros [= <- <-]. eauto.
  - intros [= <- <-]. eauto.
  - intros [= <- <-]. eauto.
  - intros [= <- <-]. eauto.
Qed.

(** X4. [getMasterWallet] fails closed.  Whenever it resolves to no
    handle, there is an error, its code is 'service/master-wallet-info'
    or 'service/master-wallet-file', and nothing was written: the world
    afterwards is the world before but for the reads in the trace and
    the clock.  The singleton, its start time and baseline, the objects
    and the stores are as they were. *)
Theorem getMasterWallet_fails_closed cfg force rewind w err w' :
  singletonValid w ->
  getMasterWallet env cfg force rewind w = (Resolved (None, err), w') ->
  (exists e, err = Some e
             /\ (errorCode e = "service/master-wallet-info"
                 \/ errorCode e = "service/master-wallet-file"))
  /\ exists n evs,
       w' = set_ticks n (set_trace (trace w ++ evs) w)
       /\ forallb isRead evs = true.
Proof.
  intros Hvalid Hrun.
  destruct (walletDoc w) as [info|] eqn:Hdoc.
  2:{ rewrite getMasterWallet_absent in Hrun by done. injection Hrun as <- <-.
      split; [eauto|]. exists (ticks w), [DocGet]. split; [by destruct w|done]. }
  destruct (masterWallet w) as [m|] eqn:Hm.
  - destruct (Hvalid m Hm) as [o Ho].
    destruct (getMasterWallet_decision env cfg force rewind w info m o Hdoc Hm Ho)
      as [n Hn].
    rewrite Hn in Hrun. clear Hn.
    destruct (restartNeeded env cfg info o w || force); [|done].
    apply swapInstance_none with (o := o) in Hrun as [(e & -> & He) ->]; [|done..].
    split; [eauto|].
    exists n, [DocGet; DocGet; Download Firebase (location info)].
    split; [|done]. simpl. by rewrite <- app_assoc.
  - rewrite (getMasterWallet_first env cfg force rewind w info Hdoc Hm) in Hrun.
    apply loadInstance_none in Hrun as [(e & -> & He) ->]; [|done].
    split; [eauto|].
    exists (ticks w), [DocGet; DocGet; Download Firebase (location info)].
    split; [|done]. simpl. rewrite <- app_assoc. by destruct w.
Qed.

Lemma installedWallet_running cfg rewind d :
  wb_running (installedWallet env cfg rewind d) = true.
Proof. unfold installedWallet. by destruct (0 <? rewind). Qed.

Lemma swapInstance_some cfg rewind info h o w v e w' :
  walletDoc w = Some info ->
  heap w !! h = Some o ->
  swapInstance env cfg rewind info h w = (Resolved (Some v, e), w') ->
  exists d, heap w' !! v = Some (installedWallet env cfg rewind d).
Proof.
  intros Hdoc Hh.
  destruct (readable (bucket w)) eqn:Hon;
    [destruct (files (bucket w) !! location info) as [blob|] eqn:Hblob;
     [destruct (truthyString blob) eqn:Htruthy;
      [destruct (decrypt env blob (serviceadmin_password env)) as [d|] eqn:Hd;
       [destruct (startFault env (length (heap w))) as [e'|] eqn:Hs|]|]|]|].
  2:{ destruct (swapInstance_run env cfg rewind info h o blob d w)
        as (w'' & -> & _ & _ & _ & _ & _ & Hinst & _); try done.
      intros [= <- <- <-]. by exists d. }
  all: unfold swapInstance;
    rewrite (bind_resolved _ _ _ _ _ (getMasterWalletString_run w info Hdoc));
    rewrite Hon, ?Hblob, ?Htruthy; cbn [negb].
  - destruct (startWalletFromString_fault env blob (daemonHost cfg) (daemonPort cfg)
                (set_trace (trace w ++ [DocGet; Download Firebase (location info)]) w)
                d e' Hd Hs) as (w'' & Hrun & _).
    by erewrite bind_rejected by exact Hrun.
  - by erewrite bind_resolved by (by apply startWalletFromString_undecryptable).
  - done.
  - done.
  - done.
Qed.

Lemma loadInstance_some cfg rewind info w v e w' :
  walletDoc w = Some info ->
  loadInstance env cfg rewind info w = (Resolved (Some v, e), w') ->
  exists d, heap w' !! v = Some (installedWallet env cfg rewind d).
Proof.
  intros Hdoc.
  destruct (readable (bucket w)) eqn:Hon;
    [destruct (files (bucket w) !! location info) as [blob|] eqn:Hblob;
     [destruct (truthyString blob) eqn:Htruthy;
      [destruct (decrypt env blob (serviceadmin_password env)) as [d|] eqn:Hd;
       [destruct (startFault env (length (heap w))) as [e'|] eqn:Hs|]|]|]|].
  2:{ destruct (loadInstance_run cfg rewind info blob d w)
        as (w'' & -> & _ & _ & _ & _ & Hheap & _); try done.
      intros [= <- <- <-]. exists d. rewrite Hheap. apply lookup_fresh. }
  all: unfold loadInstance;
    rewrite (bind_resolved _ _ _ _ _ (getMasterWalletString_run w info Hdoc));
    rewrite Hon, ?Hblob, ?Htruthy; cbn [negb].
  - destruct (startWalletFromString_fault env blob (daemonHost cfg) (daemonPort cfg)
                (set_trace (trace w ++ [DocGet; Download Firebase (location info)]) w)
                d e' Hd Hs) as (w'' & Hrun & _).
    by erewrite bind_rejected by exact Hrun.
  - by erewrite bind_resolved by (by apply startWalletFromString_undecryptable).
  - done.
  - done.
  - done.
Qed.

(** X5. The singleton is a running wallet, and what [getMasterWallet]
    hands out is the singleton.  When the singleton, if set, is an object
    whose engine runs, then after any run of [getMasterWallet], also one
    that rejects because [start()] threw, it is again an object whose
    engine runs: the old instance, untouched, when nothing was swapped,
    or the new one, started.  A singleton that is set is never cleared.
    And when the run resolves to a handle, that handle is the singleton,
    its engine runs, and the error beside it is undefined. *)
Theorem getMasterWallet_singleton cfg force rewind w r w' :
  singletonServing w ->
  getMasterWallet env cfg force rewind w = (r, w') ->
  singletonServing w'
  /\ (is_Some (masterWallet w) -> is_Some (masterWallet w'))
  /\ forall h e, r = Resolved (Some h, e) ->
       masterWallet w' = Some h /\ e = None
       /\ exists o, heap w' !! h = Some o /\ wb_running o = true.
Proof.
  intros Hserving Hrun.
  assert (Hgoal : singletonServing w'
          /\ (is_Some (masterWallet w) -> is_Some (masterWallet w'))
          /\ forall h e, r = Resolved (Some h, e) -> masterWallet w' = Some h /\ e = None).
  2:{ destruct Hgoal as (Hs' & Hkept & Hhand). split; [done|]. split; [done|].
      intros h e Hr. destruct (Hhand h e Hr) as [Hm ->]. split; [done|]. split; [done|].
      by apply Hs'. }
  destruct (walletDoc w) as [info|] eqn:Hdoc.
  2:{ rewrite getMasterWallet_absent in Hrun by done. injection Hrun as <- <-.
      split; [exact Hserving|]. split; [done|]. by intros h e. }
  destruct (masterWallet w) as [m|] eqn:Hm.
  - destruct (Hserving m Hm) as (o & Ho & Hon).
    destruct (getMasterWallet_decision env cfg force rewind w info m o Hdoc Hm Ho)
      as [n Hn].
    rewrite Hn in Hrun. clear Hn.
    destruct (restartNeeded env cfg info o w || force).
    + destruct (swapInstance_outcomes env cfg rewind info m o
                  (set_ticks n (set_trace (trace w ++ [DocGet]) w)) Hdoc Ho)
        as (r' & w'' & rest & Hswap & _ & Hcases).
      rewrite Hswap in Hrun. injection Hrun as -> ->.
      destruct Hcases as [(_ & Hr & Hsame & _ & Hobj)
                         |(pre & _ & _ & -> & Hnew & _ & _ & _)].
      * split; [|split; [|intros h e ->; by destruct (Hr h e)]].
        -- intros m'. rewrite Hsame. simpl. rewrite Hm. intros [= <-]. eauto.
        -- intros _. rewrite Hsame. simpl. rewrite Hm. eauto.
      * destruct (swapInstance_some cfg rewind info m o
                    (set_ticks n (set_trace (trace w ++ [DocGet]) w)) _ _ _ Hdoc Ho Hswap)
          as [d Hinst].
        split; [|split; [by rewrite Hnew|by intros h e [= <- <-]]].
        intros m'. rewrite Hnew. intros [= <-]. eexists. split; [exact Hinst|].
        apply installedWallet_running.
    + injection Hrun as <- <-. split; [|split; [by simpl; rewrite Hm|by intros h e [= <- <-]]].
      intros m'. simpl. apply Hserving.
  - rewrite (getMasterWallet_first env cfg force rewind w info Hdoc Hm) in Hrun.
    destruct (loadInstance_outcomes env cfg rewind info (set_trace (trace w ++ [DocGet]) w)
                Hdoc Hm) as (r' & w'' & Hload & Hcases).
    rewrite Hload in Hrun. injection Hrun as -> ->.
    destruct Hcases as [(Hr & Hnone)|(-> & Hnew & _)].
    + split; [|split; [by intros [? [=]]|intros h e ->; by destruct (Hr h e)]].
      intros m'. by rewrite Hnone.
    + destruct (loadInstance_some cfg rewind info (set_trace (trace w ++ [DocGet]) w)
                  _ _ _ Hdoc Hload) as [d Hinst].
      split; [|split; [by intros [? [=]]|by intros h e [= <- <-]]].
      intros m'. rewrite Hnew. intros [= <-]. eexists. split; [exact Hinst|].
      apply installedWallet_running.
Qed.

(** ** The sync wait *)

(** X6. A wait that does not return at once leaves its listener on the
    wallet: whichever branch wins, when [waitForWalletSync] resolves the
    wallet has one more listener on 'sync' than before, and is otherwise
    the same object on the same daemon, running or not as before.  The
    wait itself never takes a listener off. *)
Theorem waitForWalletSync_listener_stays h timeout w o :
  heap w !! h = Some o ->
  2 < wb_networkHeight o - wb_walletHeight o ->
  exists synced w' o',
    waitForWalletSync env h timeout w = (Resolved synced, w')
    /\ heap w' !! h = Some o'
    /\ wb_syncListeners o' = S (wb_syncListeners o)
    /\ wb_daemon o' = wb_daemon o
    /\ wb_running o' = wb_running o
    /\ length (heap w') = length (heap w).
Proof.
  intros Hh Hdelta.
  assert (Hlt : (h < length (heap w))%nat) by (eapply lookup_lt_Some; eauto).
  unfold waitForWalletSync.
  rewrite (bind_resolved _ _ _ _ _ (getWalletSyncInfo_run h w o Hh)).
  cbn [heightDelta].
  destruct (Z.leb_spec (wb_networkHeight o - wb_walletHeight o) 2) as [|_]; [lia|].
  rewrite (bind_resolved _ _ _ _ _ (wallet_on_run h "sync" w o Hh)).
  erewrite bind_resolved by reflexivity.
  erewrite bind_resolved.
  2:{ apply suspend_run. simpl. by apply list_lookup_insert_eq. }
  cbn [waits set_trace set_heap heap]. rewrite list_insert_insert_eq.
  destruct (sr_syncEmitted _).
  - erewrite bind_resolved by reflexivity.
    do 3 eexists. split; [reflexivity|]. simpl.
    split; [by apply list_lookup_insert_eq|]. by rewrite length_insert.
  - erewrite afterWait_run.
    2:{ simpl. by apply list_lookup_insert_eq. }
    do 3 eexists. split; [reflexivity|]. simpl.
    split; [by apply list_lookup_insert_eq|]. by rewrite length_insert.
Qed.

(** X7. The timer of a wait is not cancelled when 'sync' wins.  The wait
    resolves to [true]; the callback of the timer runs when the timer
    elapses, measures the heights the engine has reached by then, and
    calls [ServiceModule.dropCurrentNode] iff the height delta is then
    above 2 and the wallet is fewer than 2 blocks above its height at
    the start of the wait. *)
Theorem waitForWalletSync_timer_survives h timeout w o :
  heap w !! h = Some o ->
  2 < wb_networkHeight o - wb_walletHeight o ->
  timers w = [] ->
  sr_syncEmitted (syncRun env (waits w)) = true ->
  let later := syncRun env (S (waits w)) in
  exists w1 w2 w3,
    waitForWalletSync env h timeout w = (Resolved true, w1)
    /\ suspend env h w1 = (Resolved later, w2)
    /\ timerElapses w2 = (Resolved tt, w3)
    /\ timers w3 = []
    /\ trace w3
       = trace w ++ [On h "sync"; Sleep timeout]
         ++ (if negb (sr_networkHeight later - sr_walletHeight later <=? 2)
                && (sr_walletHeight later - wb_walletHeight o <? 2)
             then [DropCurrentNode (d_host (wb_daemon o))] else []).
Proof.
  intros Hh Hdelta Htimers Hemit later.
  assert (Hlt : (h < length (heap w))%nat) by (eapply lookup_lt_Some; eauto).
  unfold waitForWalletSync.
  rewrite (bind_resolved _ _ _ _ _ (getWalletSyncInfo_run h w o Hh)).
  cbn [heightDelta].
  destruct (Z.leb_spec (wb_networkHeight o - wb_walletHeight o) 2) as [|_]; [lia|].
  rewrite (bind_resolved _ _ _ _ _ (wallet_on_run h "sync" w o Hh)).
  erewrite bind_resolved by reflexivity.
  erewrite bind_resolved.
  2:{ apply suspend_run. simpl. by apply list_lookup_insert_eq. }
  cbn [waits set_trace set_heap heap]. rewrite list_insert_insert_eq, Hemit.
  erewrite bind_resolved by reflexivity.
  eexists. eexists. eexists. split; [reflexivity|].
  split.
  { apply suspend_run. simpl. by apply list_lookup_insert_eq. }
  cbn [waits set_trace set_heap set_waits set_timers heap timers].
  rewrite list_insert_insert_eq, Htimers.
  split.
  { eapply timerElapses_run; [reflexivity|]. simpl. by apply list_lookup_insert_eq. }
  simpl. split; [done|]. by rewrite <- !app_assoc.
Qed.

(** ** The service wallet *)

Lemma bind_resolved_inv {A B} (m : Async A) (k : A -> Async B) w b w' :
  bind m k w = (Resolved b, w') ->
  exists a w1, m w = (Resolved a, w1) /\ k a w1 = (Resolved b, w').
Proof.
  unfold bind. destruct (m w) as [[a|e] w1]; [|done]. intros H. eauto.
Qed.


(** ** Saving *)

(** X9. The key file of the mirror write.  [saveWalletAppEngine] always
    resolves, to [true] iff the key file could be read and the bucket of
    the App Engine project took the blob.  Then the blob is in that
    bucket and the copy of the key in the temporary directory is gone.
    When the key was read and the write failed, the copy of the key is
    still in the temporary directory: [unlinkSync] comes after the write
    and is skipped with it.  When the key could not be read, nothing was
    written anywhere. *)
Theorem saveWalletAppEngine_key_file s w :
  exists w',
    saveWalletAppEngine env s w = (Resolved (mirrorSucceeds env w), w')
    /\ match keyFile env w with
       | Some key =>
           if writable (gcpBucket w)
           then mirrorSucceeds env w = true
                /\ files (gcpBucket w') !! gcpWalletFilename env = Some s
                /\ tmpdir w' !! "keyfile.json" = None
           else mirrorSucceeds env w = false
                /\ gcpBucket w' = gcpBucket w
                /\ tmpdir w' !! "keyfile.json" = Some key
       | None =>
           mirrorSucceeds env w = false
           /\ gcpBucket w' = gcpBucket w /\ tmpdir w' = tmpdir w
       end
    /\ bucket w' = bucket w
    /\ walletDoc w' = walletDoc w.
Proof.
  unfold saveWalletAppEngine, mirrorSucceeds, keyFile, file_download,
    file_save, fs_writeFileSync, fs_unlinkSync, try_catch, emit, modify, bind, ret.
  simpl.
  destruct (readable (bucket w)); simpl;
    [destruct (files (bucket w) !! gcpServiceAccountFilename env) as [k|]; simpl;
     [destruct (writable (gcpBucket w)); simpl|]|].
  - eexists. split; [reflexivity|]. simpl. repeat split.
    + apply lookup_insert_eq.
    + apply lookup_delete_eq.
  - eexists. split; [reflexivity|]. simpl. repeat split. apply lookup_insert_eq.
  - eexists. split; [reflexivity|]. done.
  - eexists. split; [reflexivity|]. done.
Qed.

Lemma saveMasterWallet_frame h w info o :
  walletDoc w = Some info ->
  heap w !! h = Some o ->
  exists w',
    saveMasterWallet env h w = (Resolved (Some (clock env (ticks w)), None), w')
    /\ masterWallet w' = masterWallet w
    /\ masterWalletStartedAt w' = masterWalletStartedAt w
    /\ masterWalletLastSaveAt w' = masterWalletLastSaveAt w
    /\ heap w' = heap w
    /\ readable (bucket w') = readable (bucket w)
    /\ files (bucket w')
       = (if writable (bucket w)
          then <[location info := serialized env o]> (files (bucket w))
          else files (bucket w))
    /\ walletDoc w'
       = Some (if writable (bucket w)
               then apply_update (savedAt (clock env (S (ticks w)))) info else info)
    /\ ticks w' = (if writable (bucket w) then S (S (ticks w)) else S (ticks w)).
Proof.
  intros Hdoc Hh. unfold saveMasterWallet.
  rewrite (bind_resolved _ _ _ _ _ (getMasterWalletInfo_run w)), Hdoc.
  unfold wallet_encryptWalletToString, deref.
  erewrite bind_resolved by (unfold bind; simpl; rewrite Hh; reflexivity).
  erewrite bind_resolved by reflexivity.
  fold (serialized env o).
  set (w1 := set_ticks _ _).
  destruct (saveWalletAppEngine_run env (serialized env o)
              ((if writable (bucket w1)
                then set_bucket (mkBucket (<[location info := serialized env o]>
                                             (files (bucket w1)))
                                   (readable (bucket w1)) true)
                else id)
                 (set_trace (trace w1 ++ [Save Firebase (location info) (serialized env o)])
                    w1))) as (t & g & Hmirror).
  erewrite bind_resolved.
  2:{ eapply Promise_all_resolved; [apply saveWalletFirebase_run|exact Hmirror]. }
  cbn [fst]. subst w1. cbn [writable bucket set_ticks set_trace].
  destruct (writable (bucket w)) eqn:Hon.
  - unfold Date_now, doc_update, emit, modify, bind, ret. simpl. rewrite Hdoc.
    eexists. split; [reflexivity|]. simpl. done.
  - unfold bind, ret. simpl.
    eexists. split; [reflexivity|]. simpl. done.
Qed.

(** X10. A save makes the instance of the saving process stale.  The
    instance is in step with the metadata; [saveMasterWallet] writes the
    blob and sets [lastSaveAt] to a reading of the clock that differs
    from the old value, but not the baseline in memory.  So the next
    [getMasterWallet], on the same peer and within the lifetime as it
    may be, fetches the blob, and when the blob just written decrypts
    and the wallet starts, swaps to a new instance whose baseline is the
    new [lastSaveAt]. *)
Theorem saveMasterWallet_then_getMasterWallet cfg force rewind w info h o :
  walletDoc w = Some info ->
  masterWallet w = Some h ->
  heap w !! h = Some o ->
  masterWalletLastSaveAt w = Some (lastSaveAt info) ->
  writable (bucket w) = true ->
  clock env (S (ticks w)) <> lastSaveAt info ->
  exists w1 r w2 rest,
    saveMasterWallet env h w = (Resolved (Some (clock env (ticks w)), None), w1)
    /\ getMasterWallet env cfg force rewind w1 = (r, w2)
    /\ trace w2 = trace w1 ++ [DocGet; DocGet; Download Firebase (location info)] ++ rest
    /\ forall d,
         readable (bucket w) = true ->
         serialized env o <> "" ->
         decrypt env (serialized env o) (serviceadmin_password env) = Some d ->
         startFault env (length (heap w)) = None ->
         r = Resolved (Some (length (heap w)), None)
         /\ masterWallet w2 = Some (length (heap w))
         /\ heap w2 !! length (heap w) = Some (installedWallet env cfg rewind d)
         /\ masterWalletLastSaveAt w2 = Some (clock env (S (ticks w))).
Proof.
  intros Hdoc Hm Hh Hbase Hw Hclock.
  destruct (saveMasterWallet_frame h w info o Hdoc Hh)
    as (w1 & Hsave & Hm1 & _ & Hbase1 & Hheap1 & Hread1 & Hfiles1 & Hdoc1 & _).
  rewrite Hw in Hfiles1, Hdoc1.
  set (info1 := apply_update (savedAt (clock env (S (ticks w)))) info) in *.
  assert (Hh1 : heap w1 !! h = Some o) by by rewrite Hheap1.
  rewrite <- Hm1 in Hm.
  destruct (getMasterWallet_decision env cfg force rewind w1 info1 h o Hdoc1 Hm Hh1)
    as [n Hrun].
  assert (Hyes : restartNeeded env cfg info1 o w1 || force = true).
  { unfold restartNeeded. rewrite Hbase1, Hbase, strict_ne_true.
    - by rewrite orb_true_r.
    - simpl. congruence. }
  rewrite Hyes in Hrun.
  set (w1' := set_ticks n (set_trace (trace w1 ++ [DocGet]) w1)) in *.
  destruct (swapInstance_outcomes env cfg rewind info1 h o w1' Hdoc1 Hh1)
    as (r & w2 & rest & Hswap & Htrace & _).
  exists w1, r, w2, rest. split; [done|]. split; [by rewrite Hrun|]. split.
  { rewrite Htrace. simpl. by rewrite <- app_assoc. }
  intros d Hr Hne Hd Hs.
  destruct (swapInstance_run env cfg rewind info1 h o (serialized env o) d w1')
    as (w2' & Hswap' & _ & Hnew & Hbase2 & _ & _ & Hinst & _); try done.
  - simpl. by rewrite Hread1.
  - simpl. rewrite Hfiles1. apply lookup_insert_eq.
  - by apply truthyString_ne.
  - simpl. by rewrite Hheap1.
  - rewrite Hswap in Hswap'. injection Hswap' as -> ->.
    simpl in *. rewrite Hheap1 in *. done.
Qed.

(** ** Creation *)

Lemma createMasterWallet_refused cfg w info :
  walletDoc w = Some info ->
  exists e,
    createMasterWallet env cfg w
    = (Resolved (None, Some e),
       set_ticks (S (ticks w))
         (set_trace (trace w ++ [DocCreate (createdInfo env (clock env (ticks w)))]) w))
    /\ errorCode e = "service/master-wallet-info".
Proof.
  intros Hdoc. eexists. split.
  - unfold createMasterWallet.
    erewrite bind_resolved by reflexivity.
    erewrite bind_resolved.
    2:{ unfold try_catch, doc_create, emit, modify, bind, ret. simpl. rewrite Hdoc.
        reflexivity. }
    reflexivity.
  - reflexivity.
Qed.

Lemma createMasterWallet_run cfg w seed :
  walletDoc w = None ->
  startFault env (length (heap w)) = None ->
  clock env (S (ticks w)) <> 0 ->
  freshSeed env (length (heap w)) = Some seed ->
  seed <> "" ->
  let created := with_running true (createdWallet env cfg (length (heap w))) in
  let info := createdInfo env (clock env (ticks w)) in
  exists w',
    createMasterWallet env cfg w = (Resolved (Some seed, None), w')
    /\ masterWallet w' = Some (length (heap w))
    /\ masterWalletLastSaveAt w' = masterWalletLastSaveAt w
    /\ heap w' = heap w ++ [created]
    /\ readable (bucket w') = readable (bucket w)
    /\ files (bucket w')
       = (if writable (bucket w)
          then <[location info := serialized env created]> (files (bucket w))
          else files (bucket w))
    /\ walletDoc w'
       = Some (if writable (bucket w)
               then apply_update (savedAt (clock env (S (S (ticks w))))) info else info).
Proof.
  intros Hdoc Hs Hclock Hseed Hne created info.
  rewrite (createMasterWallet_created env cfg w Hdoc Hs). cbv zeta.
  set (w1 := set_masterWallet _ _).
  assert (Hh : heap w1 !! length (heap w) = Some created) by apply lookup_fresh.
  destruct (saveMasterWallet_frame (length (heap w)) w1 info created eq_refl Hh)
    as (w' & Hrun & Hm & _ & Hbase & Hheap & Hread & Hfiles & Hdoc' & _).
  rewrite (bind_resolved _ _ _ _ _ Hrun).
  cbn [from_option ticks w1 set_masterWallet set_heap set_walletDoc set_ticks].
  rewrite (truthyZ_ne _ Hclock). cbn [negb].
  unfold wallet_getMnemonicSeed, deref.
  rewrite <- Hheap in Hh.
  erewrite bind_resolved.
  2:{ unfold bind. rewrite Hh. simpl. rewrite Hseed. reflexivity. }
  cbn [from_option]. rewrite (truthyString_ne _ Hne). cbn [negb].
  exists w'. split; [reflexivity|]. by repeat split.
Qed.

(** X11. The wallet that [createMasterWallet] has just made does not
    survive the first acquisition.  In a process that has loaded no
    wallet before, a successful creation leaves the new wallet as the
    singleton without a baseline; so the next [getMasterWallet], whatever
    its arguments, reads the metadata twice and fetches the blob, and
    when the blob just saved can be read, decrypts and the wallet
    starts, the created wallet is replaced by a new object. *)
Theorem createMasterWallet_then_getMasterWallet cfg cfg' force rewind w seed :
  walletDoc w = None ->
  masterWalletLastSaveAt w = None ->
  startFault env (length (heap w)) = None ->
  clock env (S (ticks w)) <> 0 ->
  freshSeed env (length (heap w)) = Some seed ->
  seed <> "" ->
  let created := with_running true (createdWallet env cfg (length (heap w))) in
  exists w1 r w2 rest,
    createMasterWallet env cfg w = (Resolved (Some seed, None), w1)
    /\ getMasterWallet env cfg' force rewind w1 = (r, w2)
    /\ trace w2
       = trace w1 ++ [DocGet; DocGet; Download Firebase (defaultWalletLocation env)] ++ rest
    /\ forall d,
         writable (bucket w) = true ->
         readable (bucket w) = true ->
         serialized env created <> "" ->
         decrypt env (serialized env created) (serviceadmin_password env) = Some d ->
         startFault env (S (length (heap w))) = None ->
         r = Resolved (Some (S (length (heap w))), None)
         /\ masterWallet w2 = Some (S (length (heap w)))
         /\ heap w2 !! length (heap w)
            = Some (with_syncListeners 0 (with_running false created)).
Proof.
  intros Hdoc Hbase Hs Hclock Hseed Hne created.
  destruct (createMasterWallet_run cfg w seed Hdoc Hs Hclock Hseed Hne)
    as (w1 & Hrun & Hm & Hbase1 & Hheap & Hread & Hfiles & Hdoc1).
  fold created in Hheap, Hfiles.
  set (info := createdInfo env (clock env (ticks w))) in *.
  set (info1 := if writable (bucket w)
                then apply_update (savedAt (clock env (S (S (ticks w))))) info
                else info) in *.
  assert (Hloc : location info1 = defaultWalletLocation env)
    by (subst info1; by destruct (writable (bucket w))).
  assert (Hh1 : heap w1 !! length (heap w) = Some created).
  { rewrite Hheap. apply lookup_fresh. }
  destruct (getMasterWallet_decision env cfg' force rewind w1 info1 _ created Hdoc1 Hm Hh1)
    as [n Hget].
  assert (Hyes : restartNeeded env cfg' info1 created w1 || force = true).
  { unfold restartNeeded. rewrite Hbase1, Hbase, strict_ne_true by done.
    by rewrite orb_true_r. }
  rewrite Hyes in Hget.
  set (w1' := set_ticks n (set_trace (trace w1 ++ [DocGet]) w1)) in *.
  destruct (swapInstance_outcomes env cfg' rewind info1 (length (heap w)) created w1' Hdoc1 Hh1)
    as (r & w2 & rest & Hswap & Htrace & _).
  exists w1, r, w2, rest. split; [done|]. split; [by rewrite Hget|]. split.
  { rewrite Htrace, Hloc. simpl. by rewrite <- app_assoc. }
  intros d Hw Hr Hser Hd Hs'.
  assert (Hlen : length (heap w1') = S (length (heap w))).
  { simpl. rewrite Hheap, length_app. simpl. lia. }
  destruct (swapInstance_run env cfg' rewind info1 (length (heap w)) created
              (serialized env created) d w1')
    as (w2' & Hswap' & _ & Hnew & _ & _ & Hold & _); try done.
  - unfold w1'. simpl. by rewrite Hread.
  - unfold w1'. simpl. rewrite Hfiles, Hw, Hloc.
    replace (defaultWalletLocation env) with (location info) by done.
    apply lookup_insert_eq.
  - by apply truthyString_ne.
  - by rewrite Hlen.
  - rewrite Hswap in Hswap'. injection Hswap' as -> ->.
    rewrite Hlen in Hnew. change (length (heap w1)) with (length (heap w1')).
    by rewrite Hlen.
Qed.

(** X12. A creation that fails at the start of the wallet is not
    undone.  When [start()] throws, [createMasterWallet] resolves to the
    error 'service/unknown-error' carrying what was thrown; the metadata
    document it created stays, and the wallet that never started stays
    the singleton.  A second [createMasterWallet] is then refused with
    'service/master-wallet-info'. *)
Theorem createMasterWallet_start_failure cfg cfg' w thrown :
  walletDoc w = None ->
  startFault env (length (heap w)) = Some thrown ->
  exists w1 e',
    createMasterWallet env cfg w
    = (Resolved (None, Some (mkServiceError "service/unknown-error" (Some thrown))), w1)
    /\ walletDoc w1 = Some (createdInfo env (clock env (ticks w)))
    /\ masterWallet w1 = Some (length (heap w))
    /\ heap w1 !! length (heap w) = Some (createdWallet env cfg (length (heap w)))
    /\ fst (createMasterWallet env cfg' w1) = Resolved (None, Some e')
    /\ errorCode e' = "service/master-wallet-info".
Proof.
  intros Hdoc Hs.
  assert (exists w1,
             createMasterWallet env cfg w
             = (Resolved (None, Some (mkServiceError "service/unknown-error"
                                        (Some thrown))), w1)
             /\ walletDoc w1 = Some (createdInfo env (clock env (ticks w)))
             /\ masterWallet w1 = Some (length (heap w))
             /\ heap w1 !! length (heap w)
                = Some (createdWallet env cfg (length (heap w))))
    as (w1 & Hrun & Hdoc1 & Hm1 & Hh1).
  { unfold createMasterWallet.
    erewrite bind_resolved by reflexivity.
    erewrite bind_resolved.
    2:{ unfold try_catch, doc_create, emit, modify, bind, ret. simpl. rewrite Hdoc.
        reflexivity. }
    cbv beta iota.
    erewrite bind_resolved.
    2:{ unfold try_catch, WalletBackend_createWallet, assign_masterWallet, wallet_start,
          sleep, update, deref, alloc, emit, modify, throw, bind, ret. simpl.
        rewrite Hs. simpl. reflexivity. }
    cbv beta iota.
    eexists. split; [reflexivity|]. simpl. repeat split. apply lookup_fresh. }
  destruct (createMasterWallet_refused cfg' w1 _ Hdoc1) as (e' & Hagain & Hcode).
  exists w1, e'. rewrite Hagain. done.
Qed.

(** X13. A seed for a wallet that was never stored.  When the primary
    bucket refuses the write, [createMasterWallet] still resolves to the
    mnemonic seed.  With no blob at the wallet location, every
    [getMasterWallet] of that process then takes the restart branch, for
    want of a baseline, and resolves to 'service/master-wallet-file',
    the created wallet staying the singleton. *)
Theorem createMasterWallet_unsaved cfg cfg' force rewind w seed :
  walletDoc w = None ->
  masterWalletLastSaveAt w = None ->
  startFault env (length (heap w)) = None ->
  clock env (S (ticks w)) <> 0 ->
  freshSeed env (length (heap w)) = Some seed ->
  seed <> "" ->
  writable (bucket w) = false ->
  files (bucket w) !! defaultWalletLocation env = None ->
  exists w1 e w2,
    createMasterWallet env cfg w = (Resolved (Some seed, None), w1)
    /\ files (bucket w1) !! defaultWalletLocation env = None
    /\ getMasterWallet env cfg' force rewind w1 = (Resolved (None, Some e), w2)
    /\ errorCode e = "service/master-wallet-file"
    /\ masterWallet w2 = Some (length (heap w))
    /\ masterWalletLastSaveAt w2 = None.
Proof.
  intros Hdoc Hbase Hs Hclock Hseed Hne Hw Hnone.
  destruct (createMasterWallet_run cfg w seed Hdoc Hs Hclock Hseed Hne)
    as (w1 & Hrun & Hm & Hbase1 & Hheap & Hread & Hfiles & Hdoc1).
  rewrite Hw in Hfiles, Hdoc1.
  set (created := with_running true (createdWallet env cfg (length (heap w)))) in *.
  set (info := createdInfo env (clock env (ticks w))) in *.
  assert (Hh1 : heap w1 !! length (heap w) = Some created).
  { rewrite Hheap. apply lookup_fresh. }
  destruct (getMasterWallet_decision env cfg' force rewind w1 info _ created Hdoc1 Hm Hh1)
    as [n Hget].
  assert (Hyes : restartNeeded env cfg' info created w1 || force = true).
  { unfold restartNeeded. rewrite Hbase1, Hbase, strict_ne_true by done.
    by rewrite orb_true_r. }
  rewrite Hyes in Hget.
  assert (Hswap : swapInstance env cfg' rewind info (length (heap w))
                    (set_ticks n (set_trace (trace w1 ++ [DocGet]) w1))
                  = (Resolved (None, Some (mkServiceError "service/master-wallet-file" None)),
                     set_trace (trace w1 ++ [DocGet; DocGet;
                                             Download Firebase (location info)])
                       (set_ticks n w1))).
  { unfold swapInstance.
    erewrite bind_resolved by (by apply getMasterWalletString_run).
    simpl. rewrite Hfiles, Hnone.
    replace (if readable (bucket w1) then None else None) with (@None string)
      by by destruct (readable (bucket w1)).
    unfold ret. by rewrite <- app_assoc. }
  do 3 eexists. split; [exact Hrun|]. split; [by rewrite Hfiles|].
  split; [by rewrite Hget, Hswap|]. simpl. by rewrite Hm, Hbase1, Hbase.
Qed.

(** ** The remote wallet *)

Lemma restartRequired_true status cfg :
  restartRequired status cfg = true
  <-> started status = false
      \/ status_daemonHost status <> Some (daemonHost cfg)
      \/ exists up, uptime status = Some up /\ 14400000 < up.
Proof.
  unfold restartRequired, host_ne, truthyZ.
  destruct (started status); simpl; [|by intuition].
  destruct (decide (status_daemonHost status = Some (daemonHost cfg))) as [Heq|Hneq].
  - rewrite bool_decide_eq_true_2 by done. simpl.
    destruct (uptime status) as [up|]; simpl.
    + destruct (Z.ltb_spec (1000 * 60 * 60 * 4) up), (Z.eqb_spec up 0); simpl; split;
        try done; try lia.
      * intros _. right. right. exists up. split; [done|lia].
      * intros [|[|(up' & [= <-] & Hlt)]]; done || lia.
      * intros [|[|(up' & [= <-] & Hlt)]]; done || lia.
    + split; [done|]. by intros [|[|(up' & ? & _)]].
  - rewrite bool_decide_eq_false_2 by done. simpl. split; [|done]. intros _. by right; left.
Qed.

(** X14. When the warm-up restarts the remote wallet.  After asking for
    the status, [warmupAppEngineWallet] posts one start request, with
    the host and the port of the configuration, iff the status came and
    says that the wallet is not started, or gives another host than the
    configured one (or none), or an uptime above 14400000 ms; at exactly
    four hours the wallet is kept.  Without a start request the result
    says whether the status came. *)
Theorem warmupAppEngineWallet_start_iff token cfg w :
  exists ready w' evs,
    warmupAppEngineWallet env token cfg w = (Resolved ready, w')
    /\ trace w' = trace w ++ HttpGet (cloudwallet_api_base env +:+ "/status") token :: evs
    /\ (evs = [] \/
        evs = [HttpPost (cloudwallet_api_base env +:+ "/start") token
                 (mkStartWalletRequest (daemonHost cfg) (daemonPort cfg))])
    /\ (evs <> []
        <-> rw_reachable (remote w) = true
            /\ (rw_started (remote w) = false
                \/ rw_daemonHost (remote w) <> Some (daemonHost cfg)
                \/ exists up, rw_uptime (remote w) = Some up /\ 14400000 < up))
    /\ (evs = [] -> ready = rw_reachable (remote w) /\ remote w' = remote w).
Proof.
  pose proof (warmupAppEngineWallet_run env token cfg w) as Hrun. cbv zeta in Hrun.
  pose proof (restartRequired_true (remote_status (remote w)) cfg) as Hreq.
  simpl in Hreq.
  destruct (rw_reachable (remote w)).
  - destruct (restartRequired (remote_status (remote w)) cfg).
    + destruct Hrun as (w' & Hrun & Htrace).
      eexists _, w', [_]. split; [exact Hrun|].
      split; [by rewrite Htrace; simpl; rewrite <- app_assoc|].
      split; [by right|]. split; [|done].
      split; [|done]. intros _. split; [done|]. by apply Hreq.
    + eexists _, _, []. split; [exact Hrun|].
      split; [done|]. split; [by left|]. split; [|done].
      split; [done|]. intros [_ H]. apply Hreq in H. done.
  - eexists _, _, []. split; [exact Hrun|].
    split; [done|]. split; [by left|]. split; [|done].
    split; [done|]. by intros [? _].
Qed.


(** ** Backups *)

Lemma backupMasterWallet_run w sw e w1 info o :
  getServiceWallet env false w = (Resolved (Some sw, e), w1) ->
  walletDoc w1 = Some info ->
  heap w1 !! wallet sw = Some o ->
  writable (bucket w1) = true ->
  let timestamp := clock env (ticks w1) in
  let path := backupsDirectory info +:+ "/" +:+ backupFileName timestamp in
  backupMasterWallet env w
  = (Resolved tt,
     set_walletDoc
       (Some (mkWalletInfo (location info) (backupsDirectory info) (lastSaveAt info)
                timestamp))
       (set_tmpdir
          (delete (backupFileName timestamp)
             (<[backupFileName timestamp := serialized env o]> (tmpdir w1)))
          (set_bucket
             (mkBucket (<[path := serialized env o]> (files (bucket w1)))
                (readable (bucket w1)) true)
             (set_ticks (S (ticks w1))
                (set_trace
                   (trace w1 ++ [DocGet; WriteFileSync (backupFileName timestamp);
                                 Save Firebase path (serialized env o);
                                 UnlinkSync (backupFileName timestamp);
                                 DocUpdate (mkWalletInfoUpdate None (Some timestamp))])
                   w1))))).
Proof.
  intros Hget Hdoc Hh Hw timestamp path.
  unfold backupMasterWallet.
  rewrite (bind_resolved _ _ _ _ _ Hget).
  rewrite (bind_resolved _ _ _ _ _ (getMasterWalletInfo_run w1)), Hdoc.
  erewrite bind_resolved by reflexivity.
  unfold try_catch, wallet_encryptWalletToString, deref, fs_writeFileSync, file_save,
    fs_unlinkSync, doc_update, emit, modify, bind, ret.
  simpl. rewrite Hh. simpl. rewrite Hw. simpl. rewrite Hdoc.
  rewrite <- !app_assoc. reflexivity.
Qed.

(** X15. A backup that goes through.  [backupMasterWallet] takes the
    service wallet without a sync wait; with the metadata there and the
    bucket writable, it stores the serialised wallet under
    [<backupsDirectory>/masterwallet_backup_<timestamp>.bin], removes
    its temporary file, and sets [lastBackupAt] to the timestamp of the
    file name.  [lastSaveAt] and the baseline in memory are not touched,
    so a backup does not make the instance stale. *)
Theorem backupMasterWallet_stores w sw e w1 info o :
  getServiceWallet env false w = (Resolved (Some sw, e), w1) ->
  walletDoc w1 = Some info ->
  heap w1 !! wallet sw = Some o ->
  writable (bucket w1) = true ->
  let timestamp := clock env (ticks w1) in
  let path := backupsDirectory info +:+ "/" +:+ backupFileName timestamp in
  exists w',
    backupMasterWallet env w = (Resolved tt, w')
    /\ trace w'
       = trace w1 ++ [DocGet; WriteFileSync (backupFileName timestamp);
                      Save Firebase path (serialized env o);
                      UnlinkSync (backupFileName timestamp);
                      DocUpdate (mkWalletInfoUpdate None (Some timestamp))]
    /\ files (bucket w') = <[path := serialized env o]> (files (bucket w1))
    /\ tmpdir w' !! backupFileName timestamp = None
    /\ walletDoc w'
       = Some (mkWalletInfo (location info) (backupsDirectory info) (lastSaveAt info)
                 timestamp)
    /\ masterWallet w' = masterWallet w1
    /\ masterWalletLastSaveAt w' = masterWalletLastSaveAt w1
    /\ masterWalletStartedAt w' = masterWalletStartedAt w1
    /\ heap w' = heap w1.
Proof.
  intros Hget Hdoc Hh Hw timestamp path.
  unfold backupMasterWallet.
  rewrite (bind_resolved _ _ _ _ _ Hget).
  rewrite (bind_resolved _ _ _ _ _ (getMasterWalletInfo_run w1)), Hdoc.
  erewrite bind_resolved by reflexivity.
  unfold try_catch, wallet_encryptWalletToString, deref, fs_writeFileSync, file_save,
    fs_unlinkSync, doc_update, emit, modify, bind, ret.
  simpl. rewrite Hh. simpl. rewrite Hw. simpl. rewrite Hdoc.
  eexists. split; [reflexivity|]. simpl.
  repeat split.
  - by rewrite <- !app_assoc.
  - apply lookup_delete_eq.
Qed.

(** X16. A backup does not cost the instance.  After a backup that went
    through, an instance on the configured peer, within its lifetime and
    in step with the metadata before the backup is still returned by
    [getMasterWallet] as it is, without a fetch. *)
Theorem backupMasterWallet_then_getMasterWallet cfg rewind w sw e w1 info o :
  getServiceWallet env false w = (Resolved (Some sw, e), w1) ->
  walletDoc w1 = Some info ->
  heap w1 !! wallet sw = Some o ->
  writable (bucket w1) = true ->
  masterWallet w1 = Some (wallet sw) ->
  masterWalletLastSaveAt w1 = Some (lastSaveAt info) ->
  d_host (wb_daemon o) = daemonHost cfg ->
  d_port (wb_daemon o) = daemonPort cfg ->
  (forall t, masterWalletStartedAt w1 = Some t ->
             clock env (S (ticks w1)) < t + 1000 * 60 * 10) ->
  exists w2 n,
    backupMasterWallet env w = (Resolved tt, w2)
    /\ getMasterWallet env cfg false rewind w2
       = (Resolved (Some (wallet sw), None),
          set_ticks n (set_trace (trace w2 ++ [DocGet]) w2)).
Proof.
  intros Hget Hdoc Hh Hw Hm Hbase Hhost Hport Hage.
  rewrite (backupMasterWallet_run w sw e w1 info o Hget Hdoc Hh Hw).
  set (w2 := set_walletDoc _ _).
  destruct (getMasterWallet_decision env cfg false rewind w2
              (mkWalletInfo (location info) (backupsDirectory info) (lastSaveAt info)
                 (clock env (ticks w1))) (wallet sw) o eq_refl Hm Hh) as [n Hrun].
  exists w2, n. split; [done|]. rewrite Hrun.
  assert (Hno : restartNeeded env cfg
                  (mkWalletInfo (location info) (backupsDirectory info) (lastSaveAt info)
                     (clock env (ticks w1))) o w2 = false).
  { unfold restartNeeded, peerDiffers, expiredAt.
    rewrite Hhost, Hport, String.eqb_refl, Z.eqb_refl. simpl.
    rewrite Hbase, strict_ne_false.
    destruct (masterWalletStartedAt w1) as [t|]; [|done].
    specialize (Hage t eq_refl).
    destruct (Z.leb_spec (t + 1000 * 60 * 10) (clock env (S (ticks w1)))); [lia|].
    by rewrite andb_false_r. }
  by rewrite Hno.
Qed.

(** X17. A backup that the bucket refuses.  [backupMasterWallet] still
    resolves; the metadata, the bucket and the registry are as the
    acquisition left them, with [lastBackupAt] unchanged; but the
    temporary file with the serialised wallet stays behind, since it is
    removed only after the write. *)
Theorem backupMasterWallet_refused w sw e w1 info o :
  getServiceWallet env false w = (Resolved (Some sw, e), w1) ->
  walletDoc w1 = Some info ->
  heap w1 !! wallet sw = Some o ->
  writable (bucket w1) = false ->
  let timestamp := clock env (ticks w1) in
  exists w',
    backupMasterWallet env w = (Resolved tt, w')
    /\ tmpdir w' = <[backupFileName timestamp := serialized env o]> (tmpdir w1)
    /\ walletDoc w' = Some info
    /\ bucket w' = bucket w1
    /\ masterWallet w' = masterWallet w1
    /\ heap w' = heap w1.
Proof.
  intros Hget Hdoc Hh Hw timestamp.
  unfold backupMasterWallet.
  rewrite (bind_resolved _ _ _ _ _ Hget).
  rewrite (bind_resolved _ _ _ _ _ (getMasterWalletInfo_run w1)), Hdoc.
  erewrite bind_resolved by reflexivity.
  unfold try_catch, wallet_encryptWalletToString, deref, fs_writeFileSync, file_save,
    fs_unlinkSync, doc_update, emit, modify, bind, ret.
  simpl. rewrite Hh. simpl. rewrite Hw. simpl.
  eexists. split; [reflexivity|]. done.
Qed.

(** ** The token *)

Lemma hasEscapedNewline_cons c s :
  hasEscapedNewline (String c s)
  = match s with
    | String c' _ => (Ascii.eqb c "\"%char && Ascii.eqb c' "n"%char) || hasEscapedNewline s
    | EmptyString => false
    end.
Proof. reflexivity. Qed.

Lemma unescapeNewlines_cons c c' r :
  unescapeNewlines (String c (String c' r))
  = if Ascii.eqb c "\"%char && Ascii.eqb c' "n"%char
    then String "010"%char (unescapeNewlines r)
    else String c (unescapeNewlines (String c' r)).
Proof. reflexivity. Qed.

Lemma unescapeNewlines_clean_upto n s :
  (String.length s <= n)%nat -> hasEscapedNewline (unescapeNewlines s) = false.
Proof.
  revert s. induction n as [|n IH]; intros s Hlen.
  { destruct s; [done|simpl in Hlen; lia]. }
  destruct s as [|c [|c' r]]; [done..|].
  simpl in Hlen. rewrite unescapeNewlines_cons.
  destruct (Ascii.eqb c "\"%char && Ascii.eqb c' "n"%char) eqn:Hpair.
  - rewrite hasEscapedNewline_cons.
    destruct (unescapeNewlines r) eqn:Hr; [done|].
    rewrite <- Hr. simpl. apply IH. lia.
  - rewrite hasEscapedNewline_cons.
    assert (Hrest : hasEscapedNewline (unescapeNewlines (String c' r)) = false)
      by (apply IH; simpl; lia).
    destruct r as [|c'' r'].
    + simpl. by rewrite Hpair.
    + rewrite unescapeNewlines_cons in *.
      destruct (Ascii.eqb c' "\"%char && Ascii.eqb c'' "n"%char) eqn:Hnext.
      * rewrite Hrest. by rewrite andb_false_r.
      * by rewrite Hrest, Hpair.
Qed.

Lemma unescapeNewlines_fixed_upto n s :
  (String.length s <= n)%nat -> hasEscapedNewline s = false -> unescapeNewlines s = s.
Proof.
  revert s. induction n as [|n IH]; intros s Hlen.
  { destruct s; [done|simpl in Hlen; lia]. }
  destruct s as [|c [|c' r]]; [done..|].
  simpl in Hlen. rewrite hasEscapedNewline_cons, unescapeNewlines_cons.
  intros [Hpair Hrest]%orb_false_iff. rewrite Hpair.
  f_equal. apply IH; [simpl; lia|done].
Qed.

Lemma unescapeNewlines_length_upto n s :
  (String.length s <= n)%nat ->
  (String.length (unescapeNewlines s) <= String.length s)%nat.
Proof.
  revert s. induction n as [|n IH]; intros s Hlen.
  { destruct s; [done|simpl in Hlen; lia]. }
  destruct s as [|c [|c' r]]; [done..|].
  simpl in Hlen. rewrite unescapeNewlines_cons.
  destruct (Ascii.eqb c "\"%char && Ascii.eqb c' "n"%char).
  - simpl. specialize (IH r). lia.
  - specialize (IH (String c' r)). simpl in *. lia.
Qed.

(** X18. The line breaks of the private key.  After the replacement no
    backslash is followed by an [n] any more; a key without such a pair
    is left as it is, so replacing twice is replacing once; and the key
    never gets longer. *)
Theorem unescapeNewlines_spec s :
  hasEscapedNewline (unescapeNewlines s) = false
  /\ (hasEscapedNewline s = false -> unescapeNewlines s = s)
  /\ unescapeNewlines (unescapeNewlines s) = unescapeNewlines s
  /\ (String.length (unescapeNewlines s) <= String.length s)%nat.
Proof.
  assert (Hclean : hasEscapedNewline (unescapeNewlines s) = false)
    by by apply (unescapeNewlines_clean_upto (String.length s)).
  split; [done|]. split.
  { by apply (unescapeNewlines_fixed_upto (String.length s)). }
  split.
  - by apply (unescapeNewlines_fixed_upto (String.length (unescapeNewlines s))).
  - by apply (unescapeNewlines_length_upto (String.length s)).
Qed.

Section RemoteProperties.

Variable cloud : Cloud.

Lemma truthy_token (token : option string) :
  from_option truthyString false token = true ->
  exists tok, token = Some tok /\ tok <> "".
Proof.
  destruct token as [tok|]; [|done]. simpl. intros H. exists tok. split; [done|].
  by apply truthyString_true.
Qed.

Lemma getAppEngineToken_shape w :
  exists r w',
    getAppEngineToken cloud w = (Resolved r, w')
    /\ ((exists tok, r = (Some tok, None) /\ tok <> "")
        \/ (exists e, r = (None, Some e) /\ errorCode e = "service/unknown-error")).
Proof.
  unfold getAppEngineToken, try_catch, bind, ret.
  destruct (authorize cloud _ _ _ w) as [[id_token|thrown] w'].
  - destruct (from_option truthyString false id_token) eqn:Htruthy.
    + apply truthy_token in Htruthy as (tok & -> & Hne).
      do 2 eexists. split; [reflexivity|]. left. eauto.
    + do 2 eexists. split; [reflexivity|]. right. eauto.
  - do 2 eexists. split; [reflexivity|]. right. eauto.
Qed.

(** X19. [getAppEngineToken] never rejects, whatever the token endpoint
    does with the request, which is made with the key after the
    replacement of its line breaks.  It resolves either to a token that
    is not empty, without an error, or to no token and an error with
    the code 'service/unknown-error'; an answer without an [id_token],
    or with an empty one, counts as an error. *)
Theorem getAppEngineToken_result w :
  exists r w',
    getAppEngineToken cloud w = (Resolved r, w')
    /\ snd (authorize cloud (client_email cloud) (unescapeNewlines (private_key cloud))
              (target_audience cloud) w) = w'
    /\ ((exists tok, r = (Some tok, None) /\ tok <> "")
        \/ (exists e, r = (None, Some e) /\ errorCode e = "service/unknown-error")).
Proof.
  unfold getAppEngineToken, try_catch, bind, ret.
  destruct (authorize cloud _ _ _ w) as [[id_token|thrown] w'].
  - destruct (from_option truthyString false id_token) eqn:Htruthy.
    + apply truthy_token in Htruthy as (tok & -> & Hne).
      do 2 eexists. split; [reflexivity|]. split; [done|]. left. eauto.
    + do 2 eexists. split; [reflexivity|]. split; [done|]. right. eauto.
  - do 2 eexists. split; [reflexivity|]. split; [done|]. right. eauto.
Qed.

(** X20. What a result of a call to the remote wallet stands for.
    Whenever [prepareAccountTransaction], [sendPreparedTransaction] or
    [rewindAppEngineWallet] resolves to a result, a token that is not
    empty was obtained, the warm-up made with that token and the given
    configuration resolved to [true], and the result is the data of the
    response to one request, made after the warm-up with that token, to
    [/prepare_transaction], [/send] or [/rewind] under the API base,
    with the arguments of the call as its body; there is no error
    beside the result. *)
Theorem remote_result_inversion cfg w w' :
  (forall appWallet accountId sendAddress paymentId amount data e,
     prepareAccountTransaction env cloud cfg appWallet accountId sendAddress paymentId amount w
     = (Resolved (Some data, e), w') ->
     e = None
     /\ exists tok w0 w1,
          getAppEngineToken cloud w = (Resolved (Some tok, None), w0) /\ tok <> ""
          /\ warmupAppEngineWallet env tok cfg w0 = (Resolved true, w1)
          /\ axios_post cloud (cloudwallet_api_base env +:+ "/prepare_transaction") tok
               (PrepareBody (mkPrepareTransactionRequest appWallet accountId sendAddress
                               amount paymentId)) w1
             = (Replied data, w'))
  /\ (forall preparedTxHash data e,
        sendPreparedTransaction env cloud preparedTxHash cfg w
        = (Resolved (Some data, e), w') ->
        e = None
        /\ exists tok w0 w1,
             getAppEngineToken cloud w = (Resolved (Some tok, None), w0) /\ tok <> ""
             /\ warmupAppEngineWallet env tok cfg w0 = (Resolved true, w1)
             /\ axios_post cloud (cloudwallet_api_base env +:+ "/send") tok
                  (SendBody preparedTxHash) w1
                = (Replied data, w'))
  /\ (forall distance height e,
        rewindAppEngineWallet env cloud distance cfg w
        = (Resolved (Some height, e), w') ->
        e = None
        /\ exists tok w0 w1 data,
             getAppEngineToken cloud w = (Resolved (Some tok, None), w0) /\ tok <> ""
             /\ warmupAppEngineWallet env tok cfg w0 = (Resolved true, w1)
             /\ axios_post cloud (cloudwallet_api_base env +:+ "/rewind") tok
                  (RewindBody distance) w1
                = (Replied data, w')
             /\ height = walletHeightOf cloud data).
Proof.
  destruct (getAppEngineToken_shape w) as (r0 & w0 & Htok & Hshape).
  split; [|split].
  - intros appWallet accountId sendAddress paymentId amount data e Hrun.
    unfold prepareAccountTransaction in Hrun.
    apply bind_resolved_inv in Hrun as ([token jwtError] & w0' & Htok' & Hrun).
    rewrite Htok in Htok'. injection Htok' as -> <-.
    destruct Hshape as [(tok & [= -> ->] & Hne)|(e0 & [= -> ->] & _)]; [|done].
    simpl in Hrun. rewrite (truthyString_ne _ Hne) in Hrun. cbn [negb] in Hrun.
    apply bind_resolved_inv in Hrun as (ready & w1 & Hwarm & Hrun).
    destruct ready; cbn [negb] in Hrun; [|done].
    apply bind_resolved_inv in Hrun as (reply & w2 & Hpost & Hrun).
    unfold post in Hpost.
    destruct (axios_post cloud _ _ _ w1) as [reply' w2'] eqn:Haxios.
    injection Hpost as -> ->.
    destruct reply as [data'|[data'|]]; try done.
    injection Hrun as <- <- <-. split; [done|]. by exists tok, w0, w1.
  - intros preparedTxHash data e Hrun.
    unfold sendPreparedTransaction in Hrun.
    apply bind_resolved_inv in Hrun as ([token jwtError] & w0' & Htok' & Hrun).
    rewrite Htok in Htok'. injection Htok' as -> <-.
    destruct Hshape as [(tok & [= -> ->] & Hne)|(e0 & [= -> ->] & _)]; [|done].
    simpl in Hrun. rewrite (truthyString_ne _ Hne) in Hrun. cbn [negb] in Hrun.
    apply bind_resolved_inv in Hrun as (ready & w1 & Hwarm & Hrun).
    destruct ready; cbn [negb] in Hrun; [|done].
    apply bind_resolved_inv in Hrun as (reply & w2 & Hpost & Hrun).
    unfold post in Hpost.
    destruct (axios_post cloud _ _ _ w1) as [reply' w2'] eqn:Haxios.
    injection Hpost as -> ->.
    destruct reply as [data'|[data'|]]; try done.
    injection Hrun as <- <- <-. split; [done|]. by exists tok, w0, w1.
  - intros distance height e Hrun.
    unfold rewindAppEngineWallet in Hrun.
    apply bind_resolved_inv in Hrun as ([token jwtError] & w0' & Htok' & Hrun).
    rewrite Htok in Htok'. injection Htok' as -> <-.
    destruct Hshape as [(tok & [= -> ->] & Hne)|(e0 & [= -> ->] & _)]; [|done].
    simpl in Hrun. rewrite (truthyString_ne _ Hne) in Hrun. cbn [negb] in Hrun.
    apply bind_resolved_inv in Hrun as (ready & w1 & Hwarm & Hrun).
    destruct ready; cbn [negb] in Hrun; [|done].
    apply bind_resolved_inv in Hrun as (reply & w2 & Hpost & Hrun).
    unfold post in Hpost.
    destruct (axios_post cloud _ _ _ w1) as [reply' w2'] eqn:Haxios.
    injection Hpost as -> ->.
    destruct reply as [data'|response]; try done.
    injection Hrun as <- <- <-. split; [done|]. by exists tok, w0, w1, data'.
Qed.

(** X21. A request that fails.  After a good token and a warm-up that
    resolved to [true]: when the error thrown by the request carries a
    response, [prepareAccountTransaction] hands the data of that
    response on as they came, where [sendPreparedTransaction] wraps
    them in an error with the code 'service/unknown-error'; when the
    error carries no response, both reject, since their handlers read
    [error.response.data].  [rewindAppEngineWallet] resolves to
    'service/unknown-error' in both cases. *)
Theorem remote_request_failure cfg w tok e0 w0 w1 response w2 :
  getAppEngineToken cloud w = (Resolved (Some tok, e0), w0) ->
  warmupAppEngineWallet env tok cfg w0 = (Resolved true, w1) ->
  (forall appWallet accountId sendAddress paymentId amount,
     axios_post cloud (cloudwallet_api_base env +:+ "/prepare_transaction") tok
       (PrepareBody (mkPrepareTransactionRequest appWallet accountId sendAddress
                       amount paymentId)) w1
     = (Failed response, w2) ->
     prepareAccountTransaction env cloud cfg appWallet accountId sendAddress paymentId amount w
     = match response with
       | Some data => (Resolved (None, Some (ResponseData data)), w2)
       | None => (Rejected "TypeError: Cannot read property 'data' of undefined", w2)
       end)
  /\ (forall preparedTxHash,
        axios_post cloud (cloudwallet_api_base env +:+ "/send") tok
          (SendBody preparedTxHash) w1 = (Failed response, w2) ->
        sendPreparedTransaction env cloud preparedTxHash cfg w
        = match response with
          | Some data =>
              (Resolved (None, Some (mkServiceError "service/unknown-error" (Some data))),
               w2)
          | None => (Rejected "TypeError: Cannot read property 'data' of undefined", w2)
          end)
  /\ (forall distance,
        axios_post cloud (cloudwallet_api_base env +:+ "/rewind") tok
          (RewindBody distance) w1 = (Failed response, w2) ->
        exists e,
          rewindAppEngineWallet env cloud distance cfg w = (Resolved (None, Some e), w2)
          /\ errorCode e = "service/unknown-error").
Proof.
  intros Htok Hwarm.
  destruct (getAppEngineToken_shape w) as (r0 & w0' & Htok' & Hshape).
  rewrite Htok in Htok'. injection Htok' as <- <-.
  destruct Hshape as [(tok' & [= <- ->] & Hne)|(e & [=] & _)].
  split; [|split].
  - intros appWallet accountId sendAddress paymentId amount Hpost.
    unfold prepareAccountTransaction.
    rewrite (bind_resolved _ _ _ _ _ Htok). simpl.
    rewrite (truthyString_ne _ Hne). cbn [negb].
    rewrite (bind_resolved _ _ _ _ _ Hwarm). cbn [negb].
    unfold bind, post. rewrite Hpost. by destruct response.
  - intros preparedTxHash Hpost.
    unfold sendPreparedTransaction.
    rewrite (bind_resolved _ _ _ _ _ Htok). simpl.
    rewrite (truthyString_ne _ Hne). cbn [negb].
    rewrite (bind_resolved _ _ _ _ _ Hwarm). cbn [negb].
    unfold bind, post. rewrite Hpost. by destruct response.
  - intros distance Hpost.
    unfold rewindAppEngineWallet.
    rewrite (bind_resolved _ _ _ _ _ Htok). simpl.
    rewrite (truthyString_ne _ Hne). cbn [negb].
    rewrite (bind_resolved _ _ _ _ _ Hwarm). cbn [negb].
    unfold bind, post. rewrite Hpost. eexists. split; reflexivity.
Qed.

End RemoteProperties.

(** ** The older variant *)

Lemma legacy_waitForWalletSync_run h timeout w o :
  heap w !! h = Some o ->
  Legacy.waitForWalletSync env h timeout w
  = if wb_networkHeight o <=? wb_walletHeight o then (Resolved true, w)
    else
      (Resolved (sr_syncEmitted (syncRun env (waits w))),
       set_timers
         (timers w ++
          if sr_syncEmitted (syncRun env (waits w))
          then [mkTimer h timeout
                  (mkWalletSyncInfo (wb_walletHeight o) (wb_networkHeight o)
                     (wb_networkHeight o - wb_walletHeight o))]
          else [])
         (set_heap (<[h := with_heights (sr_walletHeight (syncRun env (waits w)))
                            (sr_networkHeight (syncRun env (waits w)))
                            (with_syncListeners (S (wb_syncListeners o)) o)]> (heap w))
            (set_waits (S (waits w))
               (set_trace (trace w ++ [On h "sync"; Sleep timeout]) w)))).
Proof.
  intros Hh.
  assert (Hlt : (h < length (heap w))%nat) by (eapply lookup_lt_Some; eauto).
  unfold Legacy.waitForWalletSync, wallet_getSyncStatus, deref.
  erewrite bind_resolved by (unfold bind; rewrite Hh; reflexivity).
  cbv beta iota.
  destruct (wb_networkHeight o <=? wb_walletHeight o); [done|].
  rewrite (bind_resolved _ _ _ _ _ (wallet_on_run h "sync" w o Hh)).
  erewrite bind_resolved by reflexivity.
  erewrite bind_resolved.
  2:{ apply suspend_run. simpl. by apply list_lookup_insert_eq. }
  cbn [waits set_trace set_heap heap]. rewrite list_insert_insert_eq.
  destruct (sr_syncEmitted _); unfold modify, bind, ret; simpl;
    rewrite <- ?app_assoc, ?app_nil_r; reflexivity.
Qed.

(** X22. The wait of the older variant.  It resolves to [true] exactly
    when the wallet has reached the height of the network at the call,
    or 'sync' is emitted during the wait; there is no margin of two
    blocks and no second look at the heights after the timeout.  Synced
    at the call, it does nothing.  Else it registers one listener and
    one timer; the listener stays on the wallet whichever wins; when
    'sync' wins the timer stays pending, and when it elapses later its
    callback changes nothing but the list of timers.  No node is
    dropped and the singleton is as it was. *)
Theorem legacy_waitForWalletSync_exact h timeout w o :
  heap w !! h = Some o ->
  let reached := wb_networkHeight o <=? wb_walletHeight o in
  let emitted := sr_syncEmitted (syncRun env (waits w)) in
  exists w',
    Legacy.waitForWalletSync env h timeout w = (Resolved (reached || emitted), w')
    /\ trace w' = trace w ++ (if reached then [] else [On h "sync"; Sleep timeout])
    /\ masterWallet w' = masterWallet w
    /\ (if reached then w' = w
        else (exists o', heap w' !! h = Some o'
                         /\ wb_syncListeners o' = S (wb_syncListeners o))
             /\ exists pending,
                  timers w' = timers w ++ (if emitted then [pending] else [])
                  /\ tm_wallet pending = h /\ tm_timeout pending = timeout)
    /\ (timers w = [] ->
        exists w'', Legacy.timerElapses w' = (Resolved tt, w'')
                    /\ timers w'' = [] /\ trace w'' = trace w' /\ heap w'' = heap w').
Proof.
  intros Hh reached emitted. subst reached emitted.
  assert (Hlt : (h < length (heap w))%nat) by (eapply lookup_lt_Some; eauto).
  rewrite (legacy_waitForWalletSync_run h timeout w o Hh).
  destruct (wb_networkHeight o <=? wb_walletHeight o).
  - exists w. split; [done|]. split; [by rewrite app_nil_r|]. split; [done|].
    split; [done|]. intros Hnone. exists w.
    unfold Legacy.timerElapses, bind, get, ret. rewrite Hnone. by destruct w.
  - eexists. split; [reflexivity|]. split; [done|]. split; [done|]. split.
    + split.
      * eexists. split; [by apply list_lookup_insert_eq|done].
      * eexists (mkTimer h timeout _). split; [reflexivity|done].
    + intros Hnone.
      unfold Legacy.timerElapses, modify, bind, get, ret. simpl. rewrite Hnone.
      destruct (sr_syncEmitted (syncRun env (waits w))); simpl; eauto.
Qed.

(** X23. In the older variant the download of the wallet file is not
    guarded: when there is no instance, the metadata are there and the
    file cannot be read, [getMasterWallet] rejects with the error of the
    storage, where the newer variant resolves to
    'service/master-wallet-file'.  Neither installs an instance. *)
Theorem legacy_getMasterWallet_download_rejects cfg force rewind w info :
  masterWallet w = None ->
  walletDoc w = Some info ->
  (if readable (bucket w) then files (bucket w) !! location info else None) = None ->
  (exists reason w',
     Legacy.getMasterWallet env cfg w = (Rejected reason, w')
     /\ masterWallet w' = None)
  /\ (exists w',
        getMasterWallet env cfg force rewind w
        = (Resolved (None, Some (mkServiceError "service/master-wallet-file" None)), w')
        /\ masterWallet w' = None).
Proof.
  intros Hm Hdoc Hfile. split.
  - unfold Legacy.getMasterWallet.
    erewrite bind_resolved by reflexivity. rewrite Hm.
    unfold Legacy.getMasterWalletString, getMasterWalletInfo, doc_get, file_download,
      emit, modify, get, bind, ret.
    simpl. rewrite Hdoc. simpl.
    destruct (readable (bucket w)).
    + rewrite Hfile. do 2 eexists. split; [reflexivity|done].
    + do 2 eexists. split; [reflexivity|done].
  - rewrite (getMasterWallet_first env cfg force rewind w info Hdoc Hm).
    unfold loadInstance.
    set (w1 := set_trace _ w).
    rewrite (bind_resolved _ _ _ _ _ (getMasterWalletString_run w1 info Hdoc)).
    change (bucket w1) with (bucket w). rewrite Hfile.
    eexists. split; [reflexivity|done].
Qed.

(** X24. In the older variant the saves play no part in the decision and
    a failed wait costs nothing: with an instance on the configured
    peer and within its lifetime, behind the network, and a wait
    during which 'sync' is not emitted, [getServiceWallet(true)]
    resolves to 'service/master-wallet-sync-failed' without a read of
    the metadata or the bucket, and the instance stays where it was,
    neither stopped nor replaced. *)
Theorem legacy_getServiceWallet_keeps_instance w cfg configError h o :
  configResult w = (Some cfg, configError) ->
  serviceHalted cfg = false ->
  masterWallet w = Some h ->
  heap w !! h = Some o ->
  d_host (wb_daemon o) = daemonHost cfg ->
  d_port (wb_daemon o) = daemonPort cfg ->
  (forall t, masterWalletStartedAt w = Some t -> clock env (ticks w) < t + 1000 * 60 * 10) ->
  wb_walletHeight o < wb_networkHeight o ->
  sr_syncEmitted (syncRun env (waits w)) = false ->
  exists w',
    Legacy.getServiceWallet env true w
    = (Resolved (None, Some (mkServiceError "service/master-wallet-sync-failed" None)), w')
    /\ masterWallet w' = Some h
    /\ trace w' = trace w ++ [On h "sync"; Sleep (waitForSyncTimeout cfg)].
Proof.
  intros Hcfg Hhalt Hm Hh Hhost Hport Hage Hbehind Hquiet.
  destruct (legacy_getMasterWallet_reuse env cfg w h o Hm Hh Hhost Hport Hage) as [n Hget].
  unfold Legacy.getServiceWallet, ServiceModule_getServiceConfig.
  erewrite bind_resolved by reflexivity. rewrite Hcfg, Hhalt.
  rewrite (bind_resolved _ _ _ _ _ Hget). cbn [negb].
  erewrite bind_resolved by reflexivity.
  pose proof (legacy_waitForWalletSync_run h (waitForSyncTimeout cfg)
                (set_ticks (S (ticks (set_ticks n w))) (set_ticks n w)) o Hh) as Hwait.
  destruct (Z.leb_spec (wb_networkHeight o) (wb_walletHeight o)); [lia|].
  simpl in Hwait. rewrite Hquiet in Hwait.
  rewrite (bind_resolved _ _ _ _ _ Hwait).
  erewrite bind_resolved by reflexivity. cbn [negb].
  eexists. split; [reflexivity|]. done.
Qed.

(** X25. The save of the older variant reports a timestamp exactly when
    the file is written.  With the metadata and the instance there, it
    never rejects.  When the bucket takes the write, the result is the
    time read before the write, the file holds the serialized wallet,
    [lastSaveAt] is that time and the temporary file is gone.  When it
    does not, the result is 'service/unknown-error', the metadata are
    untouched and the temporary file is left behind. *)
Theorem legacy_saveMasterWallet_result h w o info :
  heap w !! h = Some o ->
  walletDoc w = Some info ->
  exists r w',
    LegacyStore.saveMasterWallet env h w = (Resolved r, w')
    /\ if writable (bucket w)
       then r = (Some (clock env (ticks w)), None)
            /\ files (bucket w') !! location info = Some (serialized env o)
            /\ lastSaveAt <$> walletDoc w' = Some (clock env (ticks w))
            /\ tmpdir w' !! "masterwallet.bin" = None
       else (exists reason,
               r = (None, Some (mkServiceError "service/unknown-error" (Some reason))))
            /\ walletDoc w' = walletDoc w
            /\ files (bucket w') = files (bucket w)
            /\ tmpdir w' !! "masterwallet.bin" = Some (serialized env o).
Proof.
  intros Hh Hdoc.
  unfold LegacyStore.saveMasterWallet.
  rewrite (bind_resolved _ _ _ _ _ (getMasterWalletInfo_run w)). rewrite Hdoc.
  unfold try_catch, wallet_encryptWalletToString, deref, Date_now, fs_writeFileSync,
    file_save, fs_unlinkSync, doc_update, emit, modify, bind, ret.
  simpl. rewrite Hh. simpl.
  destruct (writable (bucket w)) eqn:Hwr; simpl.
  - rewrite Hdoc. simpl. do 2 eexists. split; [reflexivity|]. simpl.
    split; [done|]. split; [by rewrite lookup_insert_eq|]. split; [done|].
    by rewrite lookup_delete_eq.
  - do 2 eexists. split; [reflexivity|]. simpl.
    split; [eauto|]. split; [done|]. split; [done|]. by rewrite lookup_insert_eq.
Qed.

End MoreProperties.

(** * More scenarios, run *)

(** A cold process loads the wallet of the blob, rewound by 40 below
    its height of 90. *)
Lemma getMasterWallet_first_load_witness :
  exists w',
    getMasterWallet Scenario.env Scenario.config false 40 Cases.cold
    = (Resolved (Some 0%nat, None), w')
    /\ trace w'
       = [DocGet; DocGet; Download Firebase "wallets/master.bin"; OpenWallet 0; Start 0;
          Rewind 0 50; AssignMasterWallet (Some 0%nat)]
    /\ masterWalletLastSaveAt w' = Some 100.
Proof.
  destruct (getMasterWallet_first_load Scenario.env Scenario.config false 40 Cases.cold
              (Scenario.info 100) "alpha bravo charlie"
              (mkWalletData (Some "alpha bravo charlie") 90))
    as (w' & Hrun & Htrace & _ & _ & Hbase & _);
    [reflexivity | reflexivity | reflexivity | reflexivity | discriminate
    | reflexivity | reflexivity |].
  exists w'. split; [exact Hrun|]. split; [exact Htrace|exact Hbase].
Defined.

(** The serving process of the scenarios is within the policy: one read
    of the metadata. *)
Lemma getMasterWallet_policy_exact_witness :
  exists w',
    getMasterWallet Scenario.env Scenario.config false 40 (Scenario.serving 100)
    = (Resolved (Some 0%nat, None), w')
    /\ trace w' = [DocGet].
Proof.
  destruct (getMasterWallet_policy_exact Scenario.env Scenario.config false 40
              (Scenario.serving 100) (Scenario.info 100) 0%nat Scenario.instance)
    as (r & w' & evs & Hrun & Htrace & Hkeep & _); [reflexivity | reflexivity | reflexivity |].
  destruct (Hkeep eq_refl) as (-> & -> & _).
  exists w'. split; [exact Hrun|exact Htrace].
Defined.

(** Five minutes after the start, no fetch. *)
Lemma getMasterWallet_lifetime_witness :
  exists r w' evs,
    getMasterWallet Scenario.env Scenario.config false 40 (Scenario.serving 100) = (r, w')
    /\ trace w' = evs
    /\ existsb isDownload evs = false.
Proof.
  destruct (getMasterWallet_lifetime Scenario.env Scenario.config 40 (Scenario.serving 100)
              (Scenario.info 100) 0%nat Scenario.instance)
    as (r & w' & evs & Hrun & Htrace & Hiff);
    [reflexivity | reflexivity | reflexivity | reflexivity | reflexivity | reflexivity |].
  exists r, w', evs. split; [exact Hrun|]. split; [exact Htrace|].
  destruct (existsb isDownload evs); [|reflexivity].
  destruct Hiff as [Hdown _]. destruct (Hdown eq_refl) as (t & [= <-] & _ & Hle).
  vm_compute in Hle. destruct (Hle eq_refl).
Defined.

(** The file is missing: an error, and only reads. *)
Lemma getMasterWallet_fails_closed_witness :
  exists n evs,
    snd (getMasterWallet Scenario.env Scenario.config false 40 Cases.bare)
    = set_ticks n (set_trace (trace Cases.bare ++ evs) Cases.bare)
    /\ forallb isRead evs = true.
Proof.
  destruct (getMasterWallet_fails_closed Scenario.env Scenario.config false 40 Cases.bare
              (Some (mkServiceError "service/master-wallet-file" None))
              (snd (getMasterWallet Scenario.env Scenario.config false 40 Cases.bare)))
    as (_ & n & evs & Hw & Hreads).
  - intros m [=].
  - reflexivity.
  - exists n, evs. split; [exact Hw|exact Hreads].
Defined.

(** After the swap to another port the singleton is the new object,
    and its engine runs. *)
Lemma getMasterWallet_singleton_witness :
  let w' := snd (getMasterWallet Scenario.env Scenario.movedConfig false 40
                   (Scenario.serving 100)) in
  masterWallet w' = Some 1%nat
  /\ exists o, heap w' !! 1%nat = Some o /\ wb_running o = true.
Proof.
  intros w'.
  destruct (getMasterWallet_singleton Scenario.env Scenario.movedConfig false 40
              (Scenario.serving 100) (Resolved (Some 1%nat, None)) w')
    as (_ & _ & Hhanded).
  - intros m [= <-]. eexists. split; reflexivity.
  - vm_compute. reflexivity.
  - destruct (Hhanded 1%nat None eq_refl) as (Hm & _ & Hrunning).
    split; [exact Hm|exact Hrunning].
Defined.

(** Twenty blocks behind: the wait leaves one listener. *)
Lemma waitForWalletSync_listener_stays_witness :
  exists synced w' o',
    waitForWalletSync Scenario.env 0 5000 (Scenario.serving 100) = (Resolved synced, w')
    /\ heap w' !! 0%nat = Some o'
    /\ wb_syncListeners o' = 1%nat.
Proof.
  destruct (waitForWalletSync_listener_stays Scenario.env 0 5000 (Scenario.serving 100)
              Scenario.instance)
    as (synced & w' & o' & Hrun & Hh & Hl & _); [reflexivity | reflexivity |].
  exists synced, w', o'. split; [exact Hrun|]. split; [exact Hh|exact Hl].
Defined.

(** 'sync' wins the first wait; when the timer elapses the wallet is
    thirty blocks behind and has gone nowhere: the node is dropped. *)
Lemma waitForWalletSync_timer_survives_witness :
  exists w1 w2 w3,
    waitForWalletSync Cases.syncingEnv 0 5000 (Scenario.serving 100) = (Resolved true, w1)
    /\ suspend Cases.syncingEnv 0 w1 = (Resolved (mkSyncRun false 100 130), w2)
    /\ timerElapses w2 = (Resolved tt, w3)
    /\ trace w3 = [On 0 "sync"; Sleep 5000; DropCurrentNode "node.example"].
Proof.
  destruct (waitForWalletSync_timer_survives Cases.syncingEnv 0 5000 (Scenario.serving 100)
              Scenario.instance)
    as (w1 & w2 & w3 & Hwait & Hsuspend & Helapse & _ & Htrace);
    [reflexivity | reflexivity | reflexivity | reflexivity |].
  exists w1, w2, w3. split; [exact Hwait|]. split; [exact Hsuspend|].
  split; [exact Helapse|exact Htrace].
Defined.


(** The serving process saves and asks for its wallet again: a new
    object, with the time of the save as its baseline. *)
Lemma saveMasterWallet_then_getMasterWallet_witness :
  exists w1 w2,
    saveMasterWallet Scenario.env 0 (Scenario.serving 100)
    = (Resolved (Some 1300000, None), w1)
    /\ getMasterWallet Scenario.env Scenario.config false 40 w1
       = (Resolved (Some 1%nat, None), w2)
    /\ masterWalletLastSaveAt w2 = Some 1300001.
Proof.
  destruct (saveMasterWallet_then_getMasterWallet Scenario.env Scenario.config false 40
              (Scenario.serving 100) (Scenario.info 100) 0%nat Scenario.instance)
    as (w1 & r & w2 & rest & Hsave & Hget & _ & Hok);
    [reflexivity | reflexivity | reflexivity | reflexivity | reflexivity | discriminate |].
  destruct (Hok (mkWalletData (Some "alpha bravo charlie") 90))
    as (-> & _ & _ & Hbase); [reflexivity | discriminate | reflexivity | reflexivity |].
  exists w1, w2. split; [exact Hsave|]. split; [exact Hget|exact Hbase].
Defined.

(** A creation on a blank process, and the acquisition after it: the
    created wallet is superseded. *)
Lemma createMasterWallet_then_getMasterWallet_witness :
  exists w1 w2,
    createMasterWallet Scenario.env Scenario.config Scenario.blank
    = (Resolved (Some "alpha bravo charlie", None), w1)
    /\ getMasterWallet Scenario.env Scenario.config false 40 w1
       = (Resolved (Some 1%nat, None), w2)
    /\ masterWallet w2 = Some 1%nat.
Proof.
  pose proof (createMasterWallet_then_getMasterWallet Scenario.env Scenario.config
                Scenario.config false 40 Scenario.blank "alpha bravo charlie"
                eq_refl eq_refl eq_refl ltac:(discriminate) eq_refl ltac:(discriminate))
    as Hthen.
  cbv zeta in Hthen. destruct Hthen as (w1 & r & w2 & rest & Hcreate & Hget & _ & Hok).
  destruct (Hok (mkWalletData (Some "alpha bravo charlie") 90))
    as (-> & Hm & _); [reflexivity | reflexivity | discriminate | reflexivity | reflexivity |].
  exists w1, w2. split; [exact Hcreate|]. split; [exact Hget|exact Hm].
Defined.

(** The daemon cannot be reached at the creation. *)
Lemma createMasterWallet_start_failure_witness :
  exists w1,
    createMasterWallet Cases.faultyEnv Scenario.config Scenario.blank
    = (Resolved (None, Some (mkServiceError "service/unknown-error"
                               (Some "daemon unreachable"))), w1)
    /\ walletDoc w1 = Some (createdInfo Cases.faultyEnv 1300000)
    /\ masterWallet w1 = Some 0%nat.
Proof.
  destruct (createMasterWallet_start_failure Cases.faultyEnv Scenario.config Scenario.config
              Scenario.blank "daemon unreachable")
    as (w1 & e' & Hrun & Hdoc & Hm & _); [reflexivity | reflexivity |].
  exists w1. split; [exact Hrun|]. split; [exact Hdoc|exact Hm].
Defined.

(** A creation while the bucket takes no write. *)
Lemma createMasterWallet_unsaved_witness :
  exists w1 e w2,
    createMasterWallet Scenario.env Scenario.config Cases.sealedBlank
    = (Resolved (Some "alpha bravo charlie", None), w1)
    /\ getMasterWallet Scenario.env Scenario.config false 40 w1
       = (Resolved (None, Some e), w2)
    /\ errorCode e = "service/master-wallet-file".
Proof.
  destruct (createMasterWallet_unsaved Scenario.env Scenario.config Scenario.config false 40
              Cases.sealedBlank "alpha bravo charlie")
    as (w1 & e & w2 & Hcreate & _ & Hget & Hcode & _);
    [reflexivity | reflexivity | reflexivity | discriminate | reflexivity | discriminate
    | reflexivity | vm_compute; reflexivity |].
  exists w1, e, w2. split; [exact Hcreate|]. split; [exact Hget|exact Hcode].
Defined.

(** The serving process of the scenarios makes a backup. *)
Lemma backupMasterWallet_stores_witness :
  exists w',
    backupMasterWallet Scenario.env (Scenario.serving 100) = (Resolved tt, w')
    /\ walletDoc w'
       = Some (mkWalletInfo "wallets/master.bin" "wallets/backups" 100
                 (clock Scenario.env 1))
    /\ masterWalletLastSaveAt w' = Some 100.
Proof.
  pose (w1 := snd (getServiceWallet Scenario.env false (Scenario.serving 100))).
  pose proof (backupMasterWallet_stores Scenario.env (Scenario.serving 100)
                (mkServiceWallet 0 Scenario.config) None w1 (Scenario.info 100)
                Scenario.instance eq_refl eq_refl eq_refl eq_refl) as Hbackup.
  cbv zeta in Hbackup.
  destruct Hbackup as (w' & Hrun & _ & _ & _ & Hdoc & _ & Hbase & _).
  exists w'. split; [exact Hrun|]. split; [exact Hdoc|exact Hbase].
Defined.

(** And is handed its instance again afterwards. *)
Lemma backupMasterWallet_then_getMasterWallet_witness :
  exists w2 n,
    backupMasterWallet Scenario.env (Scenario.serving 100) = (Resolved tt, w2)
    /\ getMasterWallet Scenario.env Scenario.config false 40 w2
       = (Resolved (Some 0%nat, None), set_ticks n (set_trace (trace w2 ++ [DocGet]) w2)).
Proof.
  pose (w1 := snd (getServiceWallet Scenario.env false (Scenario.serving 100))).
  apply (backupMasterWallet_then_getMasterWallet Scenario.env Scenario.config 40
           (Scenario.serving 100) (mkServiceWallet 0 Scenario.config) None w1
           (Scenario.info 100) Scenario.instance); try reflexivity.
  intros t [= <-]. reflexivity.
Defined.

(** The bucket takes no write: the temporary file stays. *)
Lemma backupMasterWallet_refused_witness :
  exists w',
    backupMasterWallet Scenario.env Cases.sealedServing = (Resolved tt, w')
    /\ tmpdir w' !! backupFileName (clock Scenario.env 1) = Some "alpha bravo charlie"
    /\ walletDoc w' = Some (Scenario.info 100).
Proof.
  pose (w1 := snd (getServiceWallet Scenario.env false Cases.sealedServing)).
  pose proof (backupMasterWallet_refused Scenario.env Cases.sealedServing
                (mkServiceWallet 0 Scenario.config) None w1 (Scenario.info 100)
                Scenario.instance eq_refl eq_refl eq_refl eq_refl) as Hbackup.
  cbv zeta in Hbackup.
  destruct Hbackup as (w' & Hrun & Htmp & Hdoc & _).
  exists w'. split; [exact Hrun|]. split; [|exact Hdoc].
  rewrite Htmp. apply lookup_insert_eq.
Defined.


(** A key in which no backslash is followed by an [n] passes as it is. *)
Lemma unescapeNewlines_spec_witness :
  unescapeNewlines "-----BEGIN KEY-----" = "-----BEGIN KEY-----".
Proof.
  destruct (unescapeNewlines_spec "-----BEGIN KEY-----") as (_ & Hclean & _).
  apply Hclean. reflexivity.
Defined.

(** A transaction that is sent: the token, the warm-up, the request. *)
Lemma remote_result_inversion_witness :
  exists tok w0 w1,
    getAppEngineToken Cases.cloud Scenario.blank = (Resolved (Some tok, None), w0)
    /\ warmupAppEngineWallet Scenario.env tok Scenario.config w0 = (Resolved true, w1)
    /\ axios_post Cases.cloud (cloudwallet_api_base Scenario.env +:+ "/send") tok
         (SendBody "hash-1") w1
       = (Replied "tx-1",
          snd (sendPreparedTransaction Scenario.env Cases.cloud "hash-1" Scenario.config
                 Scenario.blank)).
Proof.
  destruct (remote_result_inversion Scenario.env Cases.cloud Scenario.config Scenario.blank
              (snd (sendPreparedTransaction Scenario.env Cases.cloud "hash-1"
                      Scenario.config Scenario.blank)))
    as (_ & Hsend & _).
  destruct (Hsend "hash-1" "tx-1" None) as (_ & tok & w0 & w1 & Htok & _ & Hwarm & Hpost).
  - vm_compute. reflexivity.
  - exists tok, w0, w1. split; [exact Htok|]. split; [exact Hwarm|exact Hpost].
Defined.

(** The remote wallet refuses with a response: raw to the caller of
    [prepareAccountTransaction], wrapped to the one of
    [sendPreparedTransaction]. *)
Lemma remote_request_failure_witness :
  let w1 := snd (warmupAppEngineWallet Scenario.env "token-1" Scenario.config
                   Scenario.blank) in
  prepareAccountTransaction Scenario.env Cases.refusingCloud Scenario.config
    "app-1" "account-1" "TRTLaddress" "" 250 Scenario.blank
  = (Resolved (None, Some (ResponseData "not enough funds")), w1)
  /\ sendPreparedTransaction Scenario.env Cases.refusingCloud "hash-1" Scenario.config
       Scenario.blank
     = (Resolved (None, Some (mkServiceError "service/unknown-error"
                                (Some "not enough funds"))), w1).
Proof.
  intros w1.
  destruct (remote_request_failure Scenario.env Cases.refusingCloud Scenario.config
              Scenario.blank "token-1" None Scenario.blank w1 (Some "not enough funds") w1)
    as (Hprepare & Hsend & _).
  - reflexivity.
  - vm_compute. reflexivity.
  - split.
    + apply Hprepare. reflexivity.
    + apply Hsend. reflexivity.
Defined.

(** The older wait, twenty blocks behind; 'sync' is emitted: the
    listener and the timer stay. *)
Lemma legacy_waitForWalletSync_exact_witness :
  exists w' o' pending,
    Legacy.waitForWalletSync Cases.syncingEnv 0 5000 (Scenario.serving 100)
    = (Resolved true, w')
    /\ trace w' = [On 0 "sync"; Sleep 5000]
    /\ heap w' !! 0%nat = Some o' /\ wb_syncListeners o' = 1%nat
    /\ timers w' = [pending] /\ tm_timeout pending = 5000.
Proof.
  pose proof (legacy_waitForWalletSync_exact Cases.syncingEnv 0 5000 (Scenario.serving 100)
                Scenario.instance eq_refl) as Hwait.
  cbv zeta in Hwait.
  destruct Hwait as (w' & Hrun & Htrace & _ & Hleft & _).
  change (wb_networkHeight Scenario.instance <=? wb_walletHeight Scenario.instance)
    with false in Hleft.
  destruct Hleft as ((o' & Ho' & Hl) & pending & Htimers & _ & Htimeout).
  exists w', o', pending. split; [exact Hrun|]. split; [exact Htrace|].
  split; [exact Ho'|]. split; [exact Hl|]. split; [exact Htimers|exact Htimeout].
Defined.

(** The file is missing: the older variant rejects. *)
Lemma legacy_getMasterWallet_download_rejects_witness :
  exists reason w',
    Legacy.getMasterWallet Scenario.env Scenario.config Cases.bare = (Rejected reason, w').
Proof.
  destruct (legacy_getMasterWallet_download_rejects Scenario.env Scenario.config false 40
              Cases.bare (Scenario.info 100))
    as ((reason & w' & Hrun & _) & _); [reflexivity | reflexivity | vm_compute; reflexivity |].
  exists reason, w'. exact Hrun.
Defined.

(** The older variant on the serving process of the scenarios, the
    metadata saying 200: no fetch, and after the failed wait the
    instance is still the singleton. *)
Lemma legacy_getServiceWallet_keeps_instance_witness :
  exists w',
    Legacy.getServiceWallet Scenario.env true (Scenario.serving 200)
    = (Resolved (None, Some (mkServiceError "service/master-wallet-sync-failed" None)), w')
    /\ masterWallet w' = Some 0%nat
    /\ trace w' = [On 0 "sync"; Sleep 5000].
Proof.
  apply (legacy_getServiceWallet_keeps_instance Scenario.env (Scenario.serving 200)
           Scenario.config None 0%nat Scenario.instance); try reflexivity.
  intros t [= <-]. reflexivity.
Defined.

(** The older save on the serving process of the scenarios. *)
Lemma legacy_saveMasterWallet_result_witness :
  exists w',
    LegacyStore.saveMasterWallet Scenario.env 0 (Scenario.serving 100)
    = (Resolved (Some 1300000, None), w')
    /\ lastSaveAt <$> walletDoc w' = Some 1300000.
Proof.
  destruct (legacy_saveMasterWallet_result Scenario.env 0 (Scenario.serving 100)
              Scenario.instance (Scenario.info 100))
    as (r & w' & Hrun & Hcase); [reflexivity | reflexivity |].
  change (writable (bucket (Scenario.serving 100))) with true in Hcase.
  destruct Hcase as (-> & _ & Hdoc & _).
  exists w'. split; [exact Hrun|exact Hdoc].
Defined.
